(** * Quick Model V6: scoring and calibration engine

    A shallow embedding of [backend/python/models/quick_model_v6.py]
    (class [QuickModelV6]) and the properties of its prediction pipeline.

    Numbers.  A Python [float] (and a JSON integer) is modelled as a real
    number: arithmetic is exact, [np.tanh] is the real hyperbolic tangent,
    and there is no NaN, no infinity and no rounding error.  [round(x, n)]
    is rounding to [n] decimals with ties to the even neighbour.

    Values.  A feature record is a Python [dict] whose values are the JSON
    scalars: [None], a boolean, a number or a string.  The operations the
    model performs on them follow Python: a number is required where the
    model does arithmetic or compares with a number ([TypeError] otherwise),
    booleans count as 0 and 1, two strings compare lexicographically, and
    any value has a truth value and can be compared for equality with a
    string constant.

    Errors.  A computation that may raise is a value of [result]; [predict]
    is the only place where an exception is caught.

    Left out.  The warning [predict] prints on the error stream, the
    ['signals'] and ['top_reasons'] entries of the response (no number of
    the engine depends on them, and building them raises nothing once the
    scorers have returned), [_analyze_news_keywords] (never called) and the
    command line of [main]. *)

From Stdlib Require Import Reals Lra Lia ZArith String List Bool.
Import ListNotations.

Local Open Scope string_scope.
Local Open Scope R_scope.

(* ================================================================= *)
(** ** Real-number helpers *)

Definition Rltb (x y : R) : bool := if Rlt_dec x y then true else false.
Definition Rleb (x y : R) : bool := if Rle_dec x y then true else false.
Definition Reqb (x y : R) : bool := if Req_dec_T x y then true else false.

Notation "x <? y" := (Rltb x y) : R_scope.
Notation "x <=? y" := (Rleb x y) : R_scope.
Notation "x >? y" := (Rltb y x) (at level 70, no associativity) : R_scope.
Notation "x >=? y" := (Rleb y x) (at level 70, no associativity) : R_scope.
Notation "x =? y" := (Reqb x y) : R_scope.

(** [np.clip(x, lo, hi)] is [minimum(maximum(x, lo), hi)]. *)
Definition clip (x lo hi : R) : R := Rmin (Rmax x lo) hi.

(** Rounding a real to the nearest integer, ties to even. *)
Definition round_half_even (x : R) : Z :=
  let n := Zfloor x in
  let d := x - IZR n in
  if d <? 1/2 then n
  else if 1/2 <? d then (n + 1)%Z
  else if Z.even n then n else (n + 1)%Z.

(** [round(x, ndigits)] for a number [x]. *)
Definition py_round (x : R) (ndigits : nat) : R :=
  IZR (round_half_even (x * IZR (10 ^ Z.of_nat ndigits))) /
  IZR (10 ^ Z.of_nat ndigits).

(* ================================================================= *)
(** ** Python values, exceptions and feature dictionaries *)

Module Py.

Inductive value : Type :=
| VNone
| VBool (b : bool)
| VNum (x : R)
| VStr (s : string).

Inductive exn : Type :=
| TypeError
| ValueError.

Inductive result (A : Type) : Type :=
| Ok (a : A)
| Raise (e : exn).
Arguments Ok {A} a.
Arguments Raise {A} e.

Definition bind {A B : Type} (c : result A) (k : A -> result B) : result B :=
  match c with
  | Ok a => k a
  | Raise e => Raise e
  end.

(** A [dict] with string keys; the first binding of a key is the one seen. *)
Definition dict : Type := list (string * value).

Fixpoint lookup (d : dict) (k : string) : option value :=
  match d with
  | [] => None
  | (k', v) :: d' => if String.eqb k' k then Some v else lookup d' k
  end.

(** [d.get(k)] and [d.get(k, default)]. *)
Definition get (d : dict) (k : string) : value :=
  match lookup d k with Some v => v | None => VNone end.

Definition get_or (d : dict) (k : string) (default : value) : value :=
  match lookup d k with Some v => v | None => default end.

(** [v is None]. *)
Definition is_None (v : value) : bool :=
  match v with VNone => true | _ => false end.

(** The number a value stands for in arithmetic, if any. *)
Definition as_num (v : value) : option R :=
  match v with
  | VNum x => Some x
  | VBool true => Some 1
  | VBool false => Some 0
  | _ => None
  end.

(** Use of a value in arithmetic or in a comparison with a number. *)
Definition num (v : value) : result R :=
  match as_num v with
  | Some x => Ok x
  | None => Raise TypeError
  end.

(** [bool(v)]: the truth value used by [if v:] and [v and ...]. *)
Definition truthy (v : value) : bool :=
  match v with
  | VNone => false
  | VBool b => b
  | VNum x => negb (x =? 0)
  | VStr s => negb (String.eqb s "")
  end.

(** [v == 'literal']. *)
Definition eq_str (v : value) (s : string) : bool :=
  match v with
  | VStr t => String.eqb t s
  | _ => false
  end.

(** [a < b], [a > b] and [a >= b] between two feature values. *)
Definition lt (a b : value) : result bool :=
  match as_num a, as_num b with
  | Some x, Some y => Ok (x <? y)
  | _, _ =>
      match a, b with
      | VStr s, VStr t => Ok (String.ltb s t)
      | _, _ => Raise TypeError
      end
  end.

Definition gt (a b : value) : result bool := lt b a.

(** [a != 0]. *)
Definition ne_zero (a : value) : bool :=
  match as_num a with
  | Some x => negb (x =? 0)
  | None => true
  end.

(** Short-circuit [c1 and c2], [c1 or c2] over conditions that may raise. *)
Definition and_then (c1 c2 : result bool) : result bool :=
  bind c1 (fun b => if b then c2 else Ok false).

Definition or_else (c1 c2 : result bool) : result bool :=
  bind c1 (fun b => if b then Ok true else c2).

(** A chained comparison [a op b op c]. *)
Definition chain (op : value -> value -> result bool) (a b c : value)
  : result bool :=
  and_then (op a b) (op b c).

End Py.

Import Py.

Declare Scope py_scope.
Delimit Scope py_scope with py.
Notation "x <- c ;; k" := (bind c (fun x => k))
  (at level 61, c at next level, right associativity) : py_scope.
Notation "' pat <- c ;; k" := (bind c (fun pat => k))
  (at level 61, pat pattern, c at next level, right associativity) : py_scope.
Local Open Scope py_scope.

(* ================================================================= *)
(** ** The model: class [QuickModelV6] *)

Module QuickModelV6.

(** *** Configuration ([__init__]) *)

Definition version : string := "6.0.0".
Definition min_confidence : R := 0.55.
Definition max_confidence : R := 0.98.

Record Weights : Type := {
  w_technical : R;
  w_sentiment : R;
  w_global_markets : R;
  w_volume : R;
  w_fundamentals : R;
  w_intraday : R
}.

Definition weights : Weights := {|
  w_technical := 0.25;
  w_sentiment := 0.35;
  w_global_markets := 0.15;
  w_volume := 0.12;
  w_fundamentals := 0.08;
  w_intraday := 0.05
|}.

(** *** [_calculate_technical_score_v2] *)

(** The amount the RSI ladder adds to [score]. *)
Definition rsi_contribution (rsi : R) : R :=
  if rsi <? 25 then 0.9
  else if rsi <? 30 then 0.8
  else if rsi <? 40 then 0.4
  else if rsi >? 75 then - 0.9
  else if rsi >? 70 then - 0.8
  else if rsi >? 60 then - 0.4
  else (50 - rsi) / 100 * 0.3.

(** The amount the MACD-histogram ladder adds to [score]. *)
Definition macd_contribution (macd_hist : R) : R :=
  if macd_hist >? 1.0 then 0.85
  else if macd_hist >? 0.3 then 0.5
  else if macd_hist >? 0 then 0.25
  else if macd_hist <? - 1.0 then - 0.85
  else if macd_hist <? - 0.3 then - 0.5
  else - 0.25.

(** MACD divergence detection. *)
Definition macd_divergence (macd_signal_diff macd_hist : R) : R :=
  if (macd_signal_diff >? 0.5) && (macd_hist <? 0) then 0.3
  else if (macd_signal_diff <? - 0.5) && (macd_hist >? 0) then - 0.3
  else 0.

(** Price position against the two moving averages. *)
Definition ma_position (current_price sma_20 sma_50 : value) : result R :=
  c <- chain gt current_price sma_20 sma_50 ;;
  if c then Ok 0.7 else
  c <- gt current_price sma_20 ;;
  if c then Ok 0.4 else
  c <- chain lt current_price sma_20 sma_50 ;;
  if c then Ok (- 0.7) else
  c <- lt current_price sma_20 ;;
  if c then Ok (- 0.4) else Ok 0.

(** Golden cross / death cross detection. *)
Definition ma_cross (sma_20 sma_50 sma_200 : value) : result R :=
  c <- and_then (gt sma_50 sma_200) (gt sma_20 sma_50) ;;
  if c then Ok 0.5 else
  c <- and_then (lt sma_50 sma_200) (lt sma_20 sma_50) ;;
  if c then Ok (- 0.5) else Ok 0.

(** The amount the Bollinger-position ladder adds to [score]. *)
Definition bollinger_contribution (bb_position : R) : R :=
  if bb_position <? 0.15 then 0.6
  else if bb_position <? 0.3 then 0.35
  else if bb_position >? 0.85 then - 0.6
  else if bb_position >? 0.7 then - 0.35
  else 0.

(** Support and resistance with bounce detection. *)
Definition support_resistance (features : dict) : R :=
  let near_support := get_or features "near_support" (VBool false) in
  let near_resistance := get_or features "near_resistance" (VBool false) in
  let bounce_from_support :=
    get_or features "bounce_from_support" (VBool false) in
  let failed_resistance := get_or features "failed_resistance" (VBool false) in
  (if truthy bounce_from_support then 0.5
   else if truthy near_support then 0.3 else 0)
  +
  (if truthy failed_resistance then - 0.5
   else if truthy near_resistance then - 0.3 else 0).

(** The scorer keeps two accumulators, [score] and [count].  Each block
    below is one [if] block of the source: it takes the accumulators as they
    are before the block and returns them as they are after it. *)

(** RSI analysis. *)
Definition rsi_block (features : dict) (score : R) (count : Z)
  : result (R * Z) :=
  let rsi := get features "rsi" in
  if negb (is_None rsi) then
    rsi <- num rsi ;;
    Ok (score + rsi_contribution rsi, (count + 1)%Z)
  else Ok (score, count).

(** MACD with histogram divergence. *)
Definition macd_block (features : dict) (score : R) (count : Z)
  : result (R * Z) :=
  let macd_hist := get features "macd_histogram" in
  let macd_signal_diff := get_or features "macd_signal_diff" (VNum 0) in
  if negb (is_None macd_hist) then
    macd_hist <- num macd_hist ;;
    let score := score + macd_contribution macd_hist in
    let count := (count + 1)%Z in
    macd_signal_diff <- num macd_signal_diff ;;
    Ok (score + macd_divergence macd_signal_diff macd_hist, count)
  else Ok (score, count).

(** Moving-average crossover and golden/death cross. *)
Definition ma_block (features : dict) (score : R) (count : Z)
  : result (R * Z) :=
  let sma_20 := get features "sma_20" in
  let sma_50 := get features "sma_50" in
  let sma_200 := get features "sma_200" in
  let current_price := get features "current_price" in
  if forallb (fun v => negb (is_None v)) [sma_20; sma_50; current_price]
  then
    position <- ma_position current_price sma_20 sma_50 ;;
    let score := score + position in
    cross <- (if negb (is_None sma_200)
              then ma_cross sma_20 sma_50 sma_200 else Ok 0) ;;
    Ok (score + cross, (count + 1)%Z)
  else Ok (score, count).

(** Bollinger bands, with the squeeze bonus. *)
Definition bollinger_block (features : dict) (score : R) (count : Z)
  : result (R * Z) :=
  let bb_position := get features "bollinger_position" in
  let bb_width := get_or features "bollinger_width" (VNum 0) in
  if negb (is_None bb_position) then
    bb_position <- num bb_position ;;
    let score := score + bollinger_contribution bb_position in
    bb_width <- num bb_width ;;
    let score := score + (if bb_width <? 0.1 then 0.2 else 0) in
    Ok (score, (count + 1)%Z)
  else Ok (score, count).

(** Price momentum, 1-day and 5-day. *)
Definition momentum_block (features : dict) (score : R) (count : Z)
  : result (R * Z) :=
  price_change_1d <- num (get_or features "price_change_1d" (VNum 0)) ;;
  price_change_5d <- num (get_or features "price_change_5d" (VNum 0)) ;;
  let '(score, count) :=
    if Rabs price_change_1d >? 0 then
      let day_momentum := tanh (price_change_1d / 3) * 0.5 in
      let day_momentum :=
        if price_change_1d <? - 2.0 then day_momentum - 0.3
        else day_momentum in
      (score + day_momentum, (count + 1)%Z)
    else (score, count) in
  let '(score, count) :=
    if Rabs price_change_5d >? 0 then
      let week_momentum := tanh (price_change_5d / 8) * 0.4 in
      (score + week_momentum, (count + 1)%Z)
    else (score, count) in
  Ok (score, count).

(** The blocks after the RSI analysis.  The last one, support and
    resistance, adds to [score] and leaves [count] as it is. *)
Definition technical_rest (features : dict) (score : R) (count : Z)
  : result (R * Z) :=
  '(score, count) <- macd_block features score count ;;
  '(score, count) <- ma_block features score count ;;
  '(score, count) <- bollinger_block features score count ;;
  '(score, count) <- momentum_block features score count ;;
  let score := score + support_resistance features in
  Ok (score, count).

(** The body of the scorer up to its [return]: the accumulated [score] and
    the evaluation counter [count]. *)
Definition technical_acc (features : dict) : result (R * Z) :=
  let score := 0 in
  let count := 0%Z in
  '(score, count) <- rsi_block features score count ;;
  technical_rest features score count.

(** The normalisation of the [return] statement. *)
Definition normalize (score : R) (count : Z) : R :=
  clip (if (count >? 0)%Z then score / IZR (Z.max count 1) else 0) (-1) 1.

Definition _calculate_technical_score_v2 (features : dict) : result R :=
  '(score, count) <- technical_acc features ;;
  Ok (normalize score count).

(** *** [_calculate_sentiment_score_v2] *)

Definition sentiment_acc (features : dict) : result (R * Z) :=
  let score := 0 in
  let count := 0%Z in
  (* Base sentiment from averaged news articles *)
  let news_sentiment := get_or features "news_sentiment_score" (VNum 0) in
  news_count <- num (get_or features "news_count" (VNum 0)) ;;
  '(score, count) <-
    (if news_count >? 0 then
       let weight := Rmin (news_count / 15) 1.0 in
       news_sentiment <- num news_sentiment ;;
       Ok (score + news_sentiment * weight * 0.5, (count + 1)%Z)
     else Ok (score, count)) ;;
  (* Keyword-based sentiment *)
  let bullish_keyword_count :=
    get_or features "bullish_keyword_count" (VNum 0) in
  let bearish_keyword_count :=
    get_or features "bearish_keyword_count" (VNum 0) in
  let bullish_keyword_score :=
    get_or features "bullish_keyword_score_total" (VNum 0.0) in
  let bearish_keyword_score :=
    get_or features "bearish_keyword_score_total" (VNum 0.0) in
  let has_high_impact_keywords :=
    get_or features "has_high_impact_keywords" (VBool false) in
  any_keyword <-
    or_else (n <- num bullish_keyword_count ;; Ok (n >? 0))
            (n <- num bearish_keyword_count ;; Ok (n >? 0)) ;;
  '(score, count) <-
    (if any_keyword then
       bullish_keyword_score <- num bullish_keyword_score ;;
       bearish_keyword_score <- num bearish_keyword_score ;;
       let net_keyword_score := bullish_keyword_score - bearish_keyword_score in
       let keyword_sentiment := tanh (net_keyword_score / 10.0) in
       let score := score + keyword_sentiment * 0.7 in
       let count := (count + 1)%Z in
       if truthy has_high_impact_keywords then
         Ok (score +
             0.3 * (if bullish_keyword_score >=? bearish_keyword_score
                    then 1 else - 1),
             (count + 1)%Z)
       else Ok (score, count)
     else Ok (score, count)) ;;
  (* Earnings impact analysis *)
  earnings_surprise <-
    num (get_or features "earnings_surprise_percent" (VNum 0)) ;;
  let guidance_change := get_or features "guidance_change_percent" (VNum 0) in
  '(score, count) <-
    (if Rabs earnings_surprise >? 0 then
       let surprise_score := tanh (earnings_surprise / 15) * 0.8 in
       let score := score + surprise_score in
       let count := (count + 1)%Z in
       guidance_change <- num guidance_change ;;
       if Rabs guidance_change >? 0 then
         let guidance_score := tanh (guidance_change / 10) * 0.6 in
         Ok (score + guidance_score, (count + 1)%Z)
       else Ok (score, count)
     else Ok (score, count)) ;;
  (* Surge keywords detection *)
  let has_surge_keywords := get_or features "has_surge_keywords" (VBool false) in
  let surge_keyword_count := get_or features "surge_keyword_count" (VNum 0) in
  '(score, count) <-
    (if truthy has_surge_keywords then
       surge_keyword_count <- num surge_keyword_count ;;
       let surge_boost := Rmin (surge_keyword_count / 5) 1.0 * 0.85 in
       Ok (score + surge_boost, (count + 1)%Z)
     else Ok (score, count)) ;;
  (* Bearish keywords detection *)
  let has_bearish_keywords :=
    get_or features "has_bearish_keywords" (VBool false) in
  let bearish_keyword_count :=
    get_or features "bearish_keyword_count" (VNum 0) in
  '(score, count) <-
    (if truthy has_bearish_keywords then
       bearish_keyword_count <- num bearish_keyword_count ;;
       let bearish_boost := Rmin (bearish_keyword_count / 5) 1.0 * 0.85 in
       Ok (score - bearish_boost, (count + 1)%Z)
     else Ok (score, count)) ;;
  (* Social media sentiment *)
  social_sentiment <- num (get_or features "social_sentiment" (VNum 0)) ;;
  let social_volume := get_or features "social_volume" (VNum 0) in
  '(score, count) <-
    (if Rabs social_sentiment >? 0 then
       social_volume <- num social_volume ;;
       let social_weight := Rmin (social_volume / 1000) 1.0 in
       Ok (score + social_sentiment * social_weight * 0.6, (count + 1)%Z)
     else Ok (score, count)) ;;
  (* Sector news influence *)
  sector_sentiment <- num (get_or features "sector_sentiment" (VNum 0)) ;;
  let '(score, count) :=
    if Rabs sector_sentiment >? 0
    then (score + sector_sentiment * 0.3, (count + 1)%Z)
    else (score, count) in
  (* Analyst activity *)
  analyst_upgrades <- num (get_or features "analyst_upgrades" (VNum 0)) ;;
  analyst_downgrades <- num (get_or features "analyst_downgrades" (VNum 0)) ;;
  let '(score, count) :=
    if analyst_upgrades >? 0
    then (score + Rmin (analyst_upgrades / 3) 1.0 * 0.5, (count + 1)%Z)
    else (score, count) in
  let '(score, count) :=
    if analyst_downgrades >? 0
    then (score - Rmin (analyst_downgrades / 3) 1.0 * 0.5, (count + 1)%Z)
    else (score, count) in
  Ok (score, count).

Definition _calculate_sentiment_score_v2 (features : dict) : result R :=
  '(score, count) <- sentiment_acc features ;;
  Ok (normalize score count).

(** *** [_calculate_global_market_score_v2] *)

(** One market of the global score: a categorical sentiment wins over the
    percentage change, which counts only beyond half a percent. *)
Definition market_term (sentiment change : value) (fixed scale : R)
  : result R :=
  if eq_str sentiment "positive" then Ok fixed
  else if eq_str sentiment "negative" then Ok (- fixed)
  else
    change <- num change ;;
    if Rabs change >? 0.5 then Ok (tanh change * scale) else Ok 0.

Definition _calculate_global_market_score_v2 (features : dict) : result R :=
  let score := 0 in
  (* Asian markets *)
  let asian_change := get_or features "asian_market_change" (VNum 0) in
  let asian_sentiment :=
    get_or features "asian_market_sentiment" (VStr "neutral") in
  let asian_strength := get_or features "asian_market_strength" (VNum 0) in
  asian <- market_term asian_sentiment asian_change 0.65 0.6 ;;
  let score := score + asian in
  asian_strength <- num asian_strength ;;
  let score :=
    if asian_strength >? 0 then score + asian_strength * 0.2 else score in
  (* European markets *)
  let european_change := get_or features "european_market_change" (VNum 0) in
  let european_sentiment :=
    get_or features "european_market_sentiment" (VStr "neutral") in
  european <- market_term european_sentiment european_change 0.2 0.15 ;;
  let score := score + european in
  (* Futures sentiment *)
  let futures_sentiment :=
    get_or features "futures_sentiment" (VStr "neutral") in
  let futures_change := get_or features "futures_change" (VNum 0) in
  futures <- market_term futures_sentiment futures_change 0.2 0.15 ;;
  let score := score + futures in
  Ok (clip score (-1) 1).

(** *** Region attribution scorers *)

Definition _calculate_asian_market_score_with_impact (features : dict)
  : result (R * R) :=
  let asian_change := get_or features "asian_market_change" (VNum 0) in
  let asian_sentiment :=
    get_or features "asian_market_sentiment" (VStr "neutral") in
  let asian_strength := get_or features "asian_market_strength" (VNum 0) in
  '(score, impact_pct) <-
    (if eq_str asian_sentiment "positive" then
       asian_change <- num asian_change ;;
       Ok (Rmin (0.4 + Rabs asian_change * 0.3) 1.0,
           Rmin (Rabs asian_change * 2 + 2.5) 5.0)
     else if eq_str asian_sentiment "negative" then
       asian_change <- num asian_change ;;
       Ok (Rmax (- 0.4 - Rabs asian_change * 0.3) (- 1.0),
           Rmin (Rabs asian_change * 2 + 1.5) 4.0)
     else
       asian_change <- num asian_change ;;
       if Rabs asian_change >? 0.5 then
         Ok (tanh asian_change * 0.6, Rmin (Rabs asian_change * 1.5) 3.0)
       else
         asian_strength <- num asian_strength ;;
         Ok (if asian_strength >? 0 then asian_strength * 0.3 else 0.0,
             asian_strength * 1.5)) ;;
  Ok (clip score (-1) 1, clip impact_pct 0 10).

Definition _calculate_european_market_score_with_impact (features : dict)
  : result (R * R) :=
  let european_change := get_or features "european_market_change" (VNum 0) in
  let european_sentiment :=
    get_or features "european_market_sentiment" (VStr "neutral") in
  let european_strength :=
    get_or features "european_market_strength" (VNum 0) in
  '(score, impact_pct) <-
    (if eq_str european_sentiment "positive" then
       european_change <- num european_change ;;
       Ok (Rmin (0.45 + Rabs european_change * 0.35) 1.0,
           Rmin (Rabs european_change * 2.5 + 3.5) 8.0)
     else if eq_str european_sentiment "negative" then
       european_change <- num european_change ;;
       Ok (Rmax (- 0.45 - Rabs european_change * 0.35) (- 1.0),
           Rmin (Rabs european_change * 2.5 + 2.5) 7.0)
     else
       european_change <- num european_change ;;
       if Rabs european_change >? 0.5 then
         Ok (tanh european_change * 0.6, Rmin (Rabs european_change * 2) 5.0)
       else
         european_strength <- num european_strength ;;
         Ok (if european_strength >? 0 then european_strength * 0.35 else 0.0,
             european_strength * 2.0)) ;;
  Ok (clip score (-1) 1, clip impact_pct 0 15).

(** *** [_calculate_local_us_factors] *)

Record Factors : Type := {
  f_technical : R;
  f_sentiment : R;
  f_volume : R;
  f_intraday : R;
  f_fundamentals : R;
  f_us_markets : R
}.

Definition _calculate_local_us_factors (features : dict)
  : result (R * Factors) :=
  (* Technical: RSI + MACD contribution *)
  rsi <- num (get_or features "rsi" (VNum 50)) ;;
  let macd := get_or features "macd" (VNum 0) in
  let technical :=
    if rsi <? 30 then 0.7
    else if rsi >? 70 then - 0.7
    else if rsi <? 40 then 0.3
    else if rsi >? 60 then - 0.3
    else 0.0 in
  technical <-
    (if ne_zero macd then
       macd <- num macd ;; Ok (technical + tanh macd * 0.4)
     else Ok technical) ;;
  (* Sentiment: news sentiment *)
  sentiment_score <- num (get_or features "news_sentiment_score" (VNum 0)) ;;
  let sentiment := tanh (sentiment_score / 5) * 0.8 in
  (* Volume: volume ratio *)
  volume_ratio <- num (get_or features "volume_ratio" (VNum 1.0)) ;;
  let volume :=
    if volume_ratio >? 1.5 then 0.6
    else if volume_ratio >? 1.2 then 0.3
    else if volume_ratio <? 0.8 then - 0.2
    else 0.0 in
  (* Intraday: price change during the day *)
  intraday_change <-
    num (get_or features "intraday_change_percent" (VNum 0)) ;;
  let intraday := tanh (intraday_change / 3) * 0.5 in
  (* Fundamentals: PE percentile, earnings growth *)
  pe_pct <- num (get_or features "pe_percentile" (VNum 50)) ;;
  earnings_growth <- num (get_or features "earnings_growth" (VNum 0)) ;;
  let fundamentals :=
    ((pe_pct - 50) / 50) * 0.4 + tanh (earnings_growth / 20) * 0.3 in
  (* US market indices factor; the influence is used as a number on every
     branch *)
  us_market_influence <-
    num (get_or features "us_market_influence_score" (VNum 0.0)) ;;
  let us_sentiment := get_or features "us_market_sentiment" (VStr "neutral") in
  let us_markets :=
    if eq_str us_sentiment "negative" || (us_market_influence <? - 0.2)
    then Rmax (- 0.9) (us_market_influence * 1.2)
    else if eq_str us_sentiment "positive" || (us_market_influence >? 0.2)
    then Rmin 0.9 (us_market_influence * 1.2)
    else us_market_influence * 0.8 in
  (* Combined local score: US markets 40%, the mean of the others 60% *)
  let us_weight := 0.40 in
  let other_weight := 0.60 in
  let other_factors_avg :=
    (technical + sentiment + volume + intraday + fundamentals) / 5 in
  let local_score := us_markets * us_weight + other_factors_avg * other_weight in
  Ok (clip local_score (-1) 1,
      {| f_technical := clip technical (-1) 1;
         f_sentiment := clip sentiment (-1) 1;
         f_volume := clip volume (-1) 1;
         f_intraday := clip intraday (-1) 1;
         f_fundamentals := clip fundamentals (-1) 1;
         f_us_markets := clip us_markets (-1) 1 |}).

(** *** [_calculate_local_impact_percent] *)

Definition _calculate_local_impact_percent (local_score : R)
  (local_factors : Factors) : R :=
  let impact_pct :=
    if local_score >? 0.5 then 6.0 + (local_score - 0.5) * 4.0
    else if local_score >? 0.3 then 4.0 + (local_score - 0.3) * 10.0
    else if local_score >? 0 then 2.0 + local_score * 10.0
    else if local_score <? - 0.5 then 6.0 + Rabs (local_score - - 0.5) * 4.0
    else if local_score <? - 0.3 then 4.0 + Rabs (local_score - - 0.3) * 10.0
    else if local_score <? 0 then 2.0 + Rabs local_score * 10.0
    else 1.0 in
  clip impact_pct 0 10.

(** *** [_calculate_volume_score_v2] *)

(** The score after the volume-ratio ladder and the floor for large
    declines, before the volume-trend modifier. *)
Definition volume_floored (volume_ratio price_change : R) : R :=
  let score :=
    if volume_ratio >? 2.0 then
      if price_change >? 1.0 then 0.8
      else if price_change <? - 1.0 then - 0.8
      else 0.4
    else if volume_ratio >? 1.5 then
      if price_change >? 1.0 then 0.6
      else if price_change <? - 1.0 then - 0.6
      else 0.3
    else if volume_ratio >? 1.0 then tanh (price_change / 2) * 0.4
    else if volume_ratio >? 0.8 then tanh (price_change / 2) * 0.3
    else tanh (price_change / 3) * 0.2 in
  if price_change <? - 2.0 then Rmin score (- 0.5)
  else if price_change <? - 1.5 then Rmin score (- 0.3)
  else score.

Definition _calculate_volume_score_v2 (features : dict) : result R :=
  volume_ratio <- num (get_or features "volume_ratio" (VNum 1.0)) ;;
  let volume_trend := get_or features "volume_trend" (VStr "stable") in
  price_change <- num (get_or features "price_change_1d" (VNum 0)) ;;
  let score := volume_floored volume_ratio price_change in
  (* Volume trend as modifier *)
  let score :=
    if eq_str volume_trend "up" then score + 0.1
    else if eq_str volume_trend "down" then score - 0.05
    else score in
  Ok (clip score (-1) 1).

(** *** [_calculate_fundamental_score_v2] *)

Definition fundamental_acc (features : dict) : result (R * Z) :=
  let score := 0 in
  let count := 0%Z in
  revenue_growth <- num (get_or features "revenue_growth" (VNum 0)) ;;
  let '(score, count) :=
    if Rabs revenue_growth >? 0.5
    then (score + tanh (revenue_growth / 25) * 0.7, (count + 1)%Z)
    else (score, count) in
  earnings_growth <- num (get_or features "earnings_growth" (VNum 0)) ;;
  let '(score, count) :=
    if Rabs earnings_growth >? 0.5
    then (score + tanh (earnings_growth / 30) * 0.8, (count + 1)%Z)
    else (score, count) in
  margin_change <- num (get_or features "margin_change_percent" (VNum 0)) ;;
  let '(score, count) :=
    if Rabs margin_change >? 0.5
    then (score + tanh (margin_change / 20) * 0.5, (count + 1)%Z)
    else (score, count) in
  let analyst_action := get_or features "analyst_action" (VStr "none") in
  let '(score, count) :=
    if eq_str analyst_action "upgrade" then (score + 0.6, (count + 1)%Z)
    else if eq_str analyst_action "downgrade" then (score - 0.6, (count + 1)%Z)
    else (score, count) in
  let insider_activity := get_or features "insider_activity" (VStr "neutral") in
  let '(score, count) :=
    if eq_str insider_activity "buying" then (score + 0.5, (count + 1)%Z)
    else if eq_str insider_activity "selling" then (score - 0.5, (count + 1)%Z)
    else (score, count) in
  (* PE ratio relative to peers: always evaluated *)
  pe_percentile <- num (get_or features "pe_percentile" (VNum 50)) ;;
  let pe_score := (pe_percentile - 50) / 50 in
  let score := score + pe_score * 0.5 in
  let count := (count + 1)%Z in
  let count := if (count =? 0)%Z then 1%Z else count in
  Ok (score, count).

Definition _calculate_fundamental_score_v2 (features : dict) : result R :=
  '(score, count) <- fundamental_acc features ;;
  Ok (clip (score / IZR (Z.max count 1)) (-1) 1).

(** *** [_calculate_intraday_score] *)

Definition intraday_acc (features : dict) : result (R * Z) :=
  let score := 0 in
  let count := 0%Z in
  intraday_change <-
    num (get_or features "intraday_change_percent" (VNum 0)) ;;
  '(score, count) <-
    (if Rabs intraday_change >? 0.1 then
       Ok (score + tanh (intraday_change / 5) * 0.5, (count + 1)%Z)
     else
       intraday_volume_ratio <-
         num (get_or features "intraday_volume_ratio" (VNum 1.0)) ;;
       let score :=
         if intraday_volume_ratio >? 1.0
         then score + (intraday_volume_ratio - 1.0) * 0.1
         else score in
       Ok (score, (count + 1)%Z)) ;;
  (* Intraday volume against the daily average *)
  intraday_volume_ratio <-
    num (get_or features "intraday_volume_ratio" (VNum 1.0)) ;;
  let '(score, count) :=
    if intraday_volume_ratio >? 1.5
    then (score + tanh ((intraday_volume_ratio - 1) * 2) * 0.3, (count + 1)%Z)
    else if intraday_volume_ratio >? 1.1
    then (score + (intraday_volume_ratio - 1.0) * 0.2, (count + 1)%Z)
    else (score, count) in
  (* Opening against closing position *)
  open_close_gap <- num (get_or features "open_close_gap_percent" (VNum 0)) ;;
  let '(score, count) :=
    if Rabs open_close_gap >? 0.1
    then (score + tanh (open_close_gap / 3) * 0.4, (count + 1)%Z)
    else (score, count) in
  let count := if (count =? 0)%Z then 1%Z else count in
  Ok (score, count).

Definition _calculate_intraday_score (features : dict) : result R :=
  '(score, count) <- intraday_acc features ;;
  Ok (clip (score / IZR (Z.max count 1)) (-1) 1).

(** *** [_calibrate_probability] *)

Definition _calibrate_probability (composite_score : R) (features : dict)
  (tech_score sent_score : option R) : result R :=
  (* Sigmoid-like mapping of the composite score *)
  let adjusted := 0.5 + 0.45 * tanh (composite_score * 1.5) in
  (* The scores passed by the caller are used when given *)
  tech_score <-
    match tech_score with
    | Some t => Ok t
    | None => _calculate_technical_score_v2 features
    end ;;
  sent_score <-
    match sent_score with
    | Some t => Ok t
    | None => _calculate_sentiment_score_v2 features
    end ;;
  (* Boost when both indicators strongly agree *)
  let adjusted :=
    if ((tech_score >? 0.6) && (sent_score >? 0.5))
       || ((tech_score <? - 0.6) && (sent_score <? - 0.5))
    then
      let alignment_boost := Rmin (Rabs (tech_score * sent_score) * 0.1) 0.12 in
      if adjusted >? 0.5 then adjusted + alignment_boost
      else adjusted - alignment_boost
    else adjusted in
  (* Volatility adjustment *)
  volatility <- num (get_or features "volatility" (VNum 1.0)) ;;
  let adjusted :=
    if volatility >? 2.5 then
      if adjusted >? 0.75 then 0.75 + (adjusted - 0.75) * 0.6
      else if adjusted <? 0.25 then 0.25 - (0.25 - adjusted) * 0.6
      else adjusted
    else adjusted in
  Ok (clip adjusted min_confidence max_confidence).

(** *** [_calculate_target_price_v2] *)

Definition _calculate_target_price_v2 (current_price confidence : R)
  (is_bullish : bool) (features : dict) (technical_score sentiment_score : R)
  : result (R * R) :=
  (* Base move: 1% to 8% as confidence goes from 0.55 to 0.98 *)
  let confidence_factor := (confidence - 0.55) / 0.43 in
  let min_change := 1.0 in
  let max_change := 8.0 in
  let base_change := min_change + (max_change - min_change) * confidence_factor in
  (* Market influence boost *)
  global_markets_score <-
    num (get_or features "global_market_change" (VNum 0)) ;;
  volume_score <- num (get_or features "volume_ratio" (VNum 1.0)) ;;
  let market_influence :=
    Rmax 0 (global_markets_score * 0.2 + (volume_score - 1.0) * 0.1) in
  (* Volatility adjustment *)
  volatility <- num (get_or features "volatility" (VNum 1.0)) ;;
  let volatility_multiplier := Rmin (volatility / 1.8) 1.6 in
  (* Technical and sentiment influence on the target *)
  let technical_influence := technical_score * 0.5 in
  let sentiment_influence := sentiment_score * 0.6 in
  let combined_influence := technical_influence + sentiment_influence in
  (* Final move *)
  let adjusted_change := base_change * volatility_multiplier in
  let adjusted_change := adjusted_change * (1 + combined_influence * 0.7) in
  let adjusted_change := adjusted_change * (1 + market_influence) in
  (* Momentum boost *)
  price_change_1d <- num (get_or features "price_change_1d" (VNum 0)) ;;
  price_change_5d <- num (get_or features "price_change_5d" (VNum 0)) ;;
  let adjusted_change :=
    if Rabs price_change_1d >? 1.5 then adjusted_change * 1.25
    else if Rabs price_change_1d >? 1.0 then adjusted_change * 1.15
    else if Rabs price_change_1d >? 0.5 then adjusted_change * 1.05
    else adjusted_change in
  let adjusted_change :=
    if Rabs price_change_5d >? 4.0 then adjusted_change * 1.20
    else if Rabs price_change_5d >? 2.5 then adjusted_change * 1.12
    else adjusted_change in
  (* The move is at least 80% of a strong same-direction move of the day *)
  let adjusted_change :=
    if is_bullish && (price_change_1d >? 1.0)
    then Rmax adjusted_change (price_change_1d * 0.8)
    else if negb is_bullish && (price_change_1d <? - 1.0)
    then Rmax adjusted_change (Rabs price_change_1d * 0.8)
    else adjusted_change in
  (* Cap the change *)
  let adjusted_change := clip adjusted_change 0.5 10.0 in
  (* Apply direction *)
  let change_percent :=
    if is_bullish then adjusted_change else - adjusted_change in
  (* Target *)
  let target_price := current_price * (1 + change_percent / 100) in
  Ok (target_price, change_percent).

(** *** The result of [predict] *)

Inductive Direction : Type := up | down.
Inductive Label : Type := BULLISH | BEARISH.

(** The entry ['prediction'] of a successful response. *)
Module Prediction.
Record t : Type := {
  direction : Direction;
  label : Label;
  bullish_probability : R;
  bearish_probability : R;
  confidence : R;
  predicted_price : R;
  target_change_percent : R;
  expected_pct_move : R;
  current_price : R;
  probability : R
}.
End Prediction.

(** The entry ['scores']. *)
Module Scores.
Record t : Type := {
  technical : R;
  sentiment : R;
  global_markets : R;
  volume : R;
  fundamentals : R;
  intraday : R;
  composite : R;
  base_score : R;
  final_score : R
}.
End Scores.

(** The entry ['contributions']. *)
Module Contributions.
Record t : Type := {
  technical : R;
  sentiment : R;
  global_markets : R;
  volume : R;
  fundamentals : R;
  intraday : R
}.
End Contributions.

(** A successful response (['success': True]).  The entries that echo raw
    features, ['us_market_sentiment'], ['signals'] and ['top_reasons'] are
    left out: they hold no number computed by the engine, and building them
    raises nothing once the scorers have returned. *)
Module Response.
Record t : Type := {
  model_version : string;
  prediction : Prediction.t;
  scores : Scores.t;
  asian_influence_score : R;
  asian_impact_percent : R;
  asian_contribution : R;
  european_influence_score : R;
  european_impact_percent : R;
  european_contribution : R;
  local_score : R;
  local_impact_percent : R;
  local_contribution : R;
  local_factors : Factors;
  us_market_change_avg : R;
  us_market_influence_score : R;
  sp500_change_pct : R;
  nasdaq_change_pct : R;
  dow_change_pct : R;
  russell_change_pct : R;
  contributions : Contributions.t;
  timestamp : string
}.
End Response.

(** The text of an error response: ["Invalid current price"], or
    ["Prediction error: "] followed by the text of the exception caught. *)
Inductive ErrorMessage : Type :=
| Invalid_current_price
| Prediction_error (e : exn).

(** What [predict] returns: a successful response, or the dictionary of
    [_error_response], which has the keys ['success'] (False), ['error'],
    ['model_version'] and ['timestamp'] and no others. *)
Inductive Output : Type :=
| Success (r : Response.t)
| Failure (error : ErrorMessage) (model_version : string) (timestamp : string).

(** The local variables of [predict] when the response is built. *)
Record Locals : Type := {
  current_price : R;
  technical_score : R;
  sentiment_score : R;
  global_score : R;
  volume_score : R;
  fundamental_score : R;
  intraday_score : R;
  asian_score : R;
  asian_impact_pct : R;
  european_score : R;
  european_impact_pct : R;
  local_score : R;
  local_factors : Factors;
  local_impact_pct : R;
  composite_score : R;
  bullish_probability : R;
  bearish_probability : R;
  is_bullish : bool;
  confidence : R;
  direction : Direction;
  target_price : R;
  target_change_percent : R
}.

(** *** [predict] *)

(** The weighted composite score. *)
Definition composite (technical_score sentiment_score global_score
  volume_score fundamental_score intraday_score : R) : R :=
  technical_score * w_technical weights +
  sentiment_score * w_sentiment weights +
  global_score * w_global_markets weights +
  volume_score * w_volume weights +
  fundamental_score * w_fundamentals weights +
  intraday_score * w_intraday weights.

(** The hard override for a clearly bearish or bullish composite score. *)
Definition hard_override (composite_score bullish_probability : R) : R :=
  if composite_score <? - 0.1 then Rmin bullish_probability 0.44
  else if composite_score >? 0.1 then Rmax bullish_probability 0.56
  else bullish_probability.

(** No neutral zone: a probability strictly between 0.45 and 0.55 is pushed
    out of it. *)
Definition no_neutral (composite_score technical_score sentiment_score
  global_score intraday_score bullish_probability : R) : R :=
  if (0.45 <? bullish_probability) && (bullish_probability <? 0.55) then
    let strongest_signal :=
      Rmax (Rmax (Rmax (Rabs technical_score) (Rabs sentiment_score))
                 (Rabs global_score))
           (Rabs intraday_score) in
    if strongest_signal >? 0.3
    then (if composite_score >=? 0 then 0.58 else 0.42)
    else (if composite_score >? 0 then 0.56 else 0.44)
  else bullish_probability.

(** The body of [predict] from the component scores to the target price. *)
Definition analyse (features : dict) (current_price : R) : result Locals :=
  (* Component scores *)
  technical_score <- _calculate_technical_score_v2 features ;;
  sentiment_score <- _calculate_sentiment_score_v2 features ;;
  global_score <- _calculate_global_market_score_v2 features ;;
  volume_score <- _calculate_volume_score_v2 features ;;
  fundamental_score <- _calculate_fundamental_score_v2 features ;;
  intraday_score <- _calculate_intraday_score features ;;
  (* Sentiment is halved when the price contradicts it (the warning printed
     on the error stream is not part of the result) *)
  price_change_1d <- num (get_or features "price_change_1d" (VNum 0)) ;;
  let sentiment_score :=
    if (price_change_1d <? - 2.0) && (sentiment_score >? 0.2)
    then sentiment_score * 0.5
    else if (price_change_1d >? 2.0) && (sentiment_score <? - 0.2)
    then sentiment_score * 0.5
    else sentiment_score in
  (* Market influence scores with impact percentages *)
  '(asian_score, asian_impact_pct) <-
    _calculate_asian_market_score_with_impact features ;;
  '(european_score, european_impact_pct) <-
    _calculate_european_market_score_with_impact features ;;
  '(local_score, local_factors) <- _calculate_local_us_factors features ;;
  let local_impact_pct :=
    _calculate_local_impact_percent local_score local_factors in
  (* Weighted composite score *)
  let composite_score :=
    composite technical_score sentiment_score global_score volume_score
              fundamental_score intraday_score in
  (* Calibration, hard override, no neutral zone *)
  bullish_probability <-
    _calibrate_probability composite_score features
                           (Some technical_score) (Some sentiment_score) ;;
  let bullish_probability := hard_override composite_score bullish_probability in
  let bullish_probability :=
    no_neutral composite_score technical_score sentiment_score global_score
               intraday_score bullish_probability in
  let bearish_probability := 1 - bullish_probability in
  (* Direction *)
  let is_bullish := bullish_probability >? 0.5 in
  let confidence :=
    if is_bullish then bullish_probability else bearish_probability in
  let direction := if is_bullish then up else down in
  (* Target price *)
  '(target_price, target_change_percent) <-
    _calculate_target_price_v2 current_price confidence is_bullish features
                               technical_score sentiment_score ;;
  Ok {| current_price := current_price;
        technical_score := technical_score;
        sentiment_score := sentiment_score;
        global_score := global_score;
        volume_score := volume_score;
        fundamental_score := fundamental_score;
        intraday_score := intraday_score;
        asian_score := asian_score;
        asian_impact_pct := asian_impact_pct;
        european_score := european_score;
        european_impact_pct := european_impact_pct;
        local_score := local_score;
        local_factors := local_factors;
        local_impact_pct := local_impact_pct;
        composite_score := composite_score;
        bullish_probability := bullish_probability;
        bearish_probability := bearish_probability;
        is_bullish := is_bullish;
        confidence := confidence;
        direction := direction;
        target_price := target_price;
        target_change_percent := target_change_percent |}.

Section Orchestrator.

(** [float(s)] for a string [s]: the number it denotes, or nothing where
    Python raises [ValueError]. *)
Variable float_of_str : string -> option R.

(** [datetime.now().isoformat()] at the time of the call. *)
Variable now : string.

(** [float(v)]. *)
Definition float (v : value) : result R :=
  match v with
  | VNum x => Ok x
  | VBool b => Ok (if b then 1 else 0)
  | VStr s =>
      match float_of_str s with
      | Some x => Ok x
      | None => Raise ValueError
      end
  | VNone => Raise TypeError
  end.

Definition _error_response (message : ErrorMessage) : Output :=
  Failure message version now.

(** The response dictionary built from the local variables. *)
Definition response (features : dict) (l : Locals) : result Response.t :=
  let contributions := {|
    Contributions.technical :=
      py_round (technical_score l * w_technical weights) 3;
    Contributions.sentiment :=
      py_round (sentiment_score l * w_sentiment weights) 3;
    Contributions.global_markets :=
      py_round (global_score l * w_global_markets weights) 3;
    Contributions.volume := py_round (volume_score l * w_volume weights) 3;
    Contributions.fundamentals :=
      py_round (fundamental_score l * w_fundamentals weights) 3;
    Contributions.intraday :=
      py_round (intraday_score l * w_intraday weights) 3 |} in
  let asian_contribution := asian_score l * (asian_impact_pct l / 100) in
  let european_contribution :=
    european_score l * (european_impact_pct l / 100) in
  let local_contribution := local_score l * (local_impact_pct l / 100) in
  us_market_change_avg <-
    num (get_or features "us_market_change_avg" (VNum 0.0)) ;;
  us_market_influence_score <-
    num (get_or features "us_market_influence_score" (VNum 0.0)) ;;
  sp500_change_pct <- num (get_or features "sp500_change_pct" (VNum 0.0)) ;;
  nasdaq_change_pct <- num (get_or features "nasdaq_change_pct" (VNum 0.0)) ;;
  dow_change_pct <- num (get_or features "dow_change_pct" (VNum 0.0)) ;;
  russell_change_pct <-
    num (get_or features "russell_change_pct" (VNum 0.0)) ;;
  Ok {|
    Response.model_version := version;
    Response.prediction := {|
      Prediction.direction := direction l;
      Prediction.label := if is_bullish l then BULLISH else BEARISH;
      Prediction.bullish_probability := py_round (bullish_probability l) 4;
      Prediction.bearish_probability := py_round (bearish_probability l) 4;
      Prediction.confidence := py_round (confidence l) 4;
      Prediction.predicted_price := py_round (target_price l) 2;
      Prediction.target_change_percent :=
        py_round (target_change_percent l) 2;
      Prediction.expected_pct_move := py_round (target_change_percent l) 2;
      Prediction.current_price := py_round (current_price l) 2;
      Prediction.probability := py_round (confidence l) 4 |};
    Response.scores := {|
      Scores.technical := py_round (technical_score l) 3;
      Scores.sentiment := py_round (sentiment_score l) 3;
      Scores.global_markets := py_round (global_score l) 3;
      Scores.volume := py_round (volume_score l) 3;
      Scores.fundamentals := py_round (fundamental_score l) 3;
      Scores.intraday := py_round (intraday_score l) 3;
      Scores.composite := py_round (composite_score l) 3;
      Scores.base_score := py_round (composite_score l) 3;
      Scores.final_score := py_round (composite_score l) 3 |};
    Response.asian_influence_score := py_round (asian_score l) 3;
    Response.asian_impact_percent := py_round (asian_impact_pct l) 4;
    Response.asian_contribution := py_round asian_contribution 4;
    Response.european_influence_score := py_round (european_score l) 3;
    Response.european_impact_percent := py_round (european_impact_pct l) 4;
    Response.european_contribution := py_round european_contribution 4;
    Response.local_score := py_round (local_score l) 3;
    Response.local_impact_percent := py_round (local_impact_pct l) 4;
    Response.local_contribution := py_round local_contribution 4;
    Response.local_factors := local_factors l;
    Response.us_market_change_avg := py_round us_market_change_avg 3;
    Response.us_market_influence_score :=
      py_round us_market_influence_score 3;
    Response.sp500_change_pct := py_round sp500_change_pct 3;
    Response.nasdaq_change_pct := py_round nasdaq_change_pct 3;
    Response.dow_change_pct := py_round dow_change_pct 3;
    Response.russell_change_pct := py_round russell_change_pct 3;
    Response.contributions := contributions;
    Response.timestamp := now |}.

(** The [try] block of [predict].  [_sanitize_numpy_types] leaves a
    dictionary of JSON scalars as it is. *)
Definition predict_try (features : dict) : result Output :=
  current_price <- float (get_or features "current_price" (VNum 0)) ;;
  if current_price <=? 0 then Ok (_error_response Invalid_current_price)
  else
    l <- analyse features current_price ;;
    r <- response features l ;;
    Ok (Success r).

(** [predict]: the [try] block, and the [except Exception] clause. *)
Definition predict (features : dict) : Output :=
  match predict_try features with
  | Ok out => out
  | Raise e => _error_response (Prediction_error e)
  end.

End Orchestrator.

End QuickModelV6.

Import QuickModelV6.

(* ================================================================= *)
(** ** Numeric feature records *)

(** The features the engine uses as numbers. *)
Definition numeric_keys : list string :=
  [ "current_price"; "rsi"; "macd_histogram"; "macd_signal_diff"; "sma_20";
    "sma_50"; "sma_200"; "bollinger_position"; "bollinger_width";
    "price_change_1d"; "price_change_5d"; "news_sentiment_score";
    "news_count"; "bullish_keyword_count"; "bearish_keyword_count";
    "bullish_keyword_score_total"; "bearish_keyword_score_total";
    "earnings_surprise_percent"; "guidance_change_percent";
    "surge_keyword_count"; "social_sentiment"; "social_volume";
    "sector_sentiment"; "analyst_upgrades"; "analyst_downgrades";
    "asian_market_change"; "asian_market_strength"; "european_market_change";
    "european_market_strength"; "futures_change"; "macd"; "volume_ratio";
    "intraday_change_percent"; "pe_percentile"; "earnings_growth";
    "us_market_influence_score"; "revenue_growth"; "margin_change_percent";
    "intraday_volume_ratio"; "open_close_gap_percent"; "volatility";
    "global_market_change"; "us_market_change_avg"; "sp500_change_pct";
    "nasdaq_change_pct"; "dow_change_pct"; "russell_change_pct" ].

Definition is_number (v : value) : bool :=
  match v with
  | VNum _ | VBool _ => true
  | VNone | VStr _ => false
  end.

(** Every numeric feature that is present holds a number (or a boolean);
    the other keys are free. *)
Definition numeric_features (features : dict) : bool :=
  forallb (fun k => match lookup features k with
                    | Some v => is_number v
                    | None => true
                    end) numeric_keys.

(** A computation that returns. *)
Definition returns {A : Type} (c : result A) : Prop := exists a, c = Ok a.

(* ================================================================= *)
(** ** Feature records used as examples *)

(** Only the price is known. *)
Definition features_minimal : dict := [ ("current_price", VNum 100) ].

(** All three foreign sessions are negative. *)
Definition features_bearish : dict :=
  [ ("current_price", VNum 100);
    ("asian_market_sentiment", VStr "negative");
    ("european_market_sentiment", VStr "negative");
    ("futures_sentiment", VStr "negative") ].

(** A bounce from support and no other technical feature. *)
Definition features_bounce : dict :=
  [ ("current_price", VNum 100); ("bounce_from_support", VBool true) ].

(** A neutral RSI together with a bounce from support. *)
Definition features_rsi_bounce : dict :=
  [ ("current_price", VNum 100); ("rsi", VNum 50);
    ("bounce_from_support", VBool true) ].

(** A 3% decline on rising volume. *)
Definition features_decline_rising : dict :=
  [ ("price_change_1d", VNum (- 3)); ("volume_trend", VStr "up") ].

(** A decline of exactly 2%. *)
Definition features_decline_2 : dict := [ ("price_change_1d", VNum (- 2)) ].

(** A 3% decline with no trend given. *)
Definition features_decline_3 : dict := [ ("price_change_1d", VNum (- 3)) ].

(** A price of zero, next to a feature no scorer could use. *)
Definition features_zero_price : dict :=
  [ ("current_price", VNum 0); ("rsi", VStr "high") ].

(** No price at all. *)
Definition features_no_price : dict := [ ("rsi", VNum 50) ].

(** A valid price, and a JSON [null] where a number is expected. *)
Definition features_null_change : dict :=
  [ ("current_price", VNum 100); ("price_change_1d", VNone) ].

(* ================================================================= *)
(** ** Invalid prices *)

(** The price is missing, or it is a number that is not positive. *)
Definition price_invalid (float_of_str : string -> option R) (features : dict)
  : Prop :=
  match lookup features "current_price" with
  | None => True
  | Some v => exists x, float float_of_str v = Ok x /\ x <= 0
  end.

(* ================================================================= *)
(** ** Changing one feature *)

(** Two records that agree on every key but ['rsi']. *)
Definition agree_but_rsi (f1 f2 : dict) : Prop :=
  forall k, k <> "rsi" -> lookup f1 k = lookup f2 k.

(** A result whose score is moved by [d]. *)
Definition shifted (d : R) (c : result (R * Z)) : result (R * Z) :=
  '(score, count) <- c ;; Ok (score + d, count).

(** Two records with an RSI of 28 and of 72 and nothing else. *)
Definition features_rsi_28 : dict := [ ("rsi", VNum 28) ].
Definition features_rsi_72 : dict := [ ("rsi", VNum 72) ].

Local Open Scope list_scope.

(* ================================================================= *)
(** ** Signals and reasons *)

(** An alert object of [_generate_signals_v2]: the keys ['type'],
    ['strength'] and ['reason'].  A reason is one of the fixed texts of the
    source; where the text is an f-string, the number it prints is kept. *)
Module Signal.

Inductive type_ : Type := BUY | SELL | WARNING | OPPORTUNITY | ALERT.

Inductive strength_ : Type :=
  MODERATE | STRONG | VERY_STRONG | HIGH | CRITICAL.

Inductive reason_ : Type :=
| Excellent_bullish_alignment
| High_confidence_bullish
| Bullish_momentum
| Excellent_bearish_alignment
| High_confidence_bearish
| Bearish_momentum
| Extreme_overbought (rsi : R)
| Overbought (rsi : R)
| Extreme_oversold (rsi : R)
| Oversold (rsi : R)
| Exceptional_volume_spike (volume_ratio : R)
| High_volume (volume_ratio : R)
| Very_positive_news
| Very_negative_news.

Record t : Type := {
  type : type_;
  strength : strength_;
  reason : reason_
}.

End Signal.

Import Signal.

(** [rsi and rsi > c], [rsi and rsi < c]: the comparison is made only when
    [rsi] is truthy. *)
Definition truthy_and_gt (v : value) (c : R) : result bool :=
  if truthy v then (x <- num v ;; Ok (x >? c)) else Ok false.

Definition truthy_and_lt (v : value) (c : R) : result bool :=
  if truthy v then (x <- num v ;; Ok (x <? c)) else Ok false.

(** The number printed for a feature by an f-string. *)
Definition printed (v : value) : R :=
  match as_num v with Some x => x | None => 0 end.

(** The consensus signals: at most one BUY and at most one SELL. *)
Definition consensus_signals (is_bullish : bool)
  (confidence technical_score sentiment_score : R) : list Signal.t :=
  (if is_bullish && (confidence >? 0.80) && (technical_score >? 0.6)
      && (sentiment_score >? 0.4)
   then [ {| type := BUY; strength := VERY_STRONG;
             reason := Excellent_bullish_alignment |} ]
   else if is_bullish && (confidence >? 0.70)
   then [ {| type := BUY; strength := STRONG;
             reason := High_confidence_bullish |} ]
   else if is_bullish && (confidence >? 0.60)
   then [ {| type := BUY; strength := MODERATE;
             reason := Bullish_momentum |} ]
   else [])
  ++
  (if negb is_bullish && (confidence >? 0.80) && (technical_score <? - 0.6)
      && (sentiment_score <? - 0.4)
   then [ {| type := SELL; strength := VERY_STRONG;
             reason := Excellent_bearish_alignment |} ]
   else if negb is_bullish && (confidence >? 0.70)
   then [ {| type := SELL; strength := STRONG;
             reason := High_confidence_bearish |} ]
   else if negb is_bullish && (confidence >? 0.60)
   then [ {| type := SELL; strength := MODERATE;
             reason := Bearish_momentum |} ]
   else []).

(** The technical alerts on the RSI. *)
Definition rsi_signals (rsi : value) : result (list Signal.t) :=
  overbought <-
    (c <- truthy_and_gt rsi 80 ;;
     if c then Ok [ {| type := WARNING; strength := CRITICAL;
                       reason := Extreme_overbought (printed rsi) |} ]
     else
       c <- truthy_and_gt rsi 75 ;;
       if c then Ok [ {| type := WARNING; strength := HIGH;
                         reason := Overbought (printed rsi) |} ]
       else Ok []) ;;
  oversold <-
    (c <- truthy_and_lt rsi 20 ;;
     if c then Ok [ {| type := OPPORTUNITY; strength := CRITICAL;
                       reason := Extreme_oversold (printed rsi) |} ]
     else
       c <- truthy_and_lt rsi 25 ;;
       if c then Ok [ {| type := OPPORTUNITY; strength := HIGH;
                         reason := Oversold (printed rsi) |} ]
       else Ok []) ;;
  Ok (overbought ++ oversold).

(** The volume signals. *)
Definition volume_signals (volume_ratio : R) : list Signal.t :=
  if volume_ratio >? 2.5
  then [ {| type := ALERT; strength := CRITICAL;
            reason := Exceptional_volume_spike volume_ratio |} ]
  else if volume_ratio >? 1.8
  then [ {| type := ALERT; strength := HIGH;
            reason := High_volume volume_ratio |} ]
  else [].

(** The news sentiment signals; the article count is read only when the
    sentiment score passes its threshold. *)
Definition news_signals (features : dict) (sentiment_score : R)
  : result (list Signal.t) :=
  c <- and_then (Ok (sentiment_score >? 0.7))
                (n <- num (get_or features "news_count" (VNum 0)) ;;
                 Ok (n >? 5)) ;;
  if c then Ok [ {| type := BUY; strength := STRONG;
                    reason := Very_positive_news |} ]
  else
    c <- and_then (Ok (sentiment_score <? - 0.7))
                  (n <- num (get_or features "news_count" (VNum 0)) ;;
                   Ok (n >? 5)) ;;
    if c then Ok [ {| type := SELL; strength := STRONG;
                      reason := Very_negative_news |} ]
    else Ok [].

(** [_generate_signals_v2].  The list [top_reasons] the source fills beside
    [signals] is never returned and is left out. *)
Definition _generate_signals_v2 (features : dict) (is_bullish : bool)
  (confidence technical_score sentiment_score composite_score : R)
  : result (list Signal.t) :=
  let signals :=
    consensus_signals is_bullish confidence technical_score sentiment_score in
  let rsi := get features "rsi" in
  alerts <- rsi_signals rsi ;;
  let signals := signals ++ alerts in
  volume_ratio <- num (get_or features "volume_ratio" (VNum 1.0)) ;;
  let signals := signals ++ volume_signals volume_ratio in
  news <- news_signals features sentiment_score ;;
  let signals := signals ++ news in
  Ok (firstn 5 signals).

(** [_generate_top_reasons]. *)
Definition _generate_top_reasons (features : dict) (is_bullish : bool)
  (technical_score sentiment_score : R) : result (list string) :=
  (* Technical reasons *)
  let reasons :=
    if technical_score >? 0.7 then [ "Strong bullish technical indicators" ]
    else if technical_score >? 0.4
    then [ "Moderately bullish technical setup" ]
    else if technical_score <? - 0.7
    then [ "Strong bearish technical indicators" ]
    else if technical_score <? - 0.4
    then [ "Moderately bearish technical setup" ]
    else [] in
  (* Sentiment reasons *)
  let news_count := get_or features "news_count" (VNum 0) in
  sentiment <-
    (c <- and_then (Ok (sentiment_score >? 0.6))
                   (n <- num news_count ;; Ok (n >? 3)) ;;
     if c then Ok [ "Positive news sentiment and strong buying interest" ]
     else if sentiment_score >? 0.3
     then Ok [ "Slight bullish sentiment shift" ]
     else
       c <- and_then (Ok (sentiment_score <? - 0.6))
                     (n <- num news_count ;; Ok (n >? 3)) ;;
       if c then Ok [ "Negative news sentiment and selling pressure" ]
       else if sentiment_score <? - 0.3
       then Ok [ "Slight bearish sentiment shift" ]
       else Ok []) ;;
  let reasons := reasons ++ sentiment in
  (* Market context *)
  let asian_sentiment :=
    get_or features "asian_market_sentiment" (VStr "neutral") in
  let reasons :=
    reasons ++
    (if eq_str asian_sentiment "positive"
     then [ "Asian markets showing strength" ]
     else if eq_str asian_sentiment "negative"
     then [ "Asian market weakness affecting US" ]
     else []) in
  let european_sentiment :=
    get_or features "european_market_sentiment" (VStr "neutral") in
  let reasons :=
    reasons ++
    (if eq_str european_sentiment "positive"
     then [ "European markets showing strength" ]
     else if eq_str european_sentiment "negative"
     then [ "European market weakness affecting US" ]
     else []) in
  (* Volume confirmation *)
  volume_ratio <- num (get_or features "volume_ratio" (VNum 1.0)) ;;
  let reasons :=
    reasons ++
    (if volume_ratio >? 1.5 then [ "Volume supporting price direction" ]
     else []) in
  (* RSI condition *)
  let rsi := get features "rsi" in
  condition <-
    (c <- truthy_and_lt rsi 30 ;;
     if c then Ok [ "Oversold conditions present" ]
     else
       c <- truthy_and_gt rsi 70 ;;
       if c then Ok [ "Overbought conditions present" ] else Ok []) ;;
  let reasons := reasons ++ condition in
  Ok (firstn 3 reasons).

(** The entries ['signals'] and ['top_reasons'] that [predict] computes
    from its local variables. *)
Definition predict_signals (features : dict) (l : Locals)
  : result (list Signal.t) :=
  _generate_signals_v2 features (is_bullish l) (confidence l)
    (technical_score l) (sentiment_score l) (composite_score l).

Definition predict_top_reasons (features : dict) (l : Locals)
  : result (list string) :=
  _generate_top_reasons features (is_bullish l) (technical_score l)
    (sentiment_score l).

(* ================================================================= *)
(** ** News keywords *)

(** [self.bullish_keywords] and [self.bearish_keywords], in the order of
    the source (a [dict] is iterated in insertion order). *)
Definition bullish_keywords : list (string * R) :=
  [ ("earnings_beat", 2.0); ("beat_estimates", 2.0); ("strong_earnings", 1.8);
    ("revenue_growth", 1.6); ("guidance_raise", 1.8); ("product_launch", 1.5);
    ("merger", 1.4); ("acquisition", 1.4); ("partnership", 1.3);
    ("expansion", 1.4); ("record_revenue", 1.8); ("record_profit", 1.9);
    ("upgrade", 1.7); ("outperform", 1.6); ("breakthrough", 1.5);
    ("rally", 1.2) ].

Definition bearish_keywords : list (string * R) :=
  [ ("earnings_miss", - 2.0); ("miss_estimates", - 2.0);
    ("weak_earnings", - 1.8); ("revenue_decline", - 1.6);
    ("guidance_cut", - 1.8); ("layoffs", - 1.7); ("recall", - 1.5);
    ("lawsuit", - 1.4); ("scandal", - 1.6); ("downgrade", - 1.7);
    ("underperform", - 1.6); ("bankruptcy", - 2.0); ("investigation", - 1.5);
    ("loss", - 1.4); ("decline", - 1.2); ("warning", - 1.3) ].

(** [sub in s] for two strings. *)
Fixpoint contains (sub s : string) : bool :=
  String.prefix sub s ||
  match s with
  | EmptyString => false
  | String _ s' => contains sub s'
  end.

(** The inner loop over a keyword table: the weight of the first entry whose
    key occurs in the keyword, if any (the loop [break]s there). *)
Fixpoint first_match (table : list (string * R)) (keyword_lower : string)
  : option R :=
  match table with
  | [] => None
  | (kw, weight) :: table' =>
      if contains kw keyword_lower then Some weight
      else first_match table' keyword_lower
  end.

(** One pass of a table over one keyword, on the accumulators. *)
Definition match_table (table : list (string * R)) (keyword_lower : string)
  (acc : R * Z) : R * Z :=
  let '(score, matched_count) := acc in
  match first_match table keyword_lower with
  | Some weight => (score + weight * 0.1, (matched_count + 1)%Z)
  | None => (score, matched_count)
  end.

Section NewsKeywords.

(** [str.lower]. *)
Variable lower : string -> string.

(** The outer loop, on the accumulators [score] and [matched_count]. *)
Fixpoint keywords_loop (keywords : list string) (acc : R * Z) : R * Z :=
  match keywords with
  | [] => acc
  | keyword :: keywords' =>
      let keyword_lower := lower keyword in
      let acc := match_table bullish_keywords keyword_lower acc in
      let acc := match_table bearish_keywords keyword_lower acc in
      keywords_loop keywords' acc
  end.

(** [_analyze_news_keywords] on a list of strings. *)
Definition _analyze_news_keywords (keywords : list string) : R :=
  match keywords with
  | [] => 0.0
  | _ =>
      let '(score, matched_count) := keywords_loop keywords (0.0, 0%Z) in
      clip (if (matched_count >? 0)%Z
            then score / IZR (Z.max matched_count 1) else 0) (-1) 1
  end.

End NewsKeywords.

(** What the loop keeps: the counter is not negative and the score is
    within 0.2 per match. *)
Definition within_matches (acc : R * Z) : Prop :=
  (0 <= snd acc)%Z /\
  - 0.2 * IZR (snd acc) <= fst acc <= 0.2 * IZR (snd acc).

(* ================================================================= *)
(** ** The keys the engine reads *)

Definition categorical_keys : list string :=
  [ "asian_market_sentiment"; "european_market_sentiment";
    "futures_sentiment"; "us_market_sentiment"; "volume_trend";
    "analyst_action"; "insider_activity" ].

Definition flag_keys : list string :=
  [ "near_support"; "near_resistance"; "bounce_from_support";
    "failed_resistance"; "has_high_impact_keywords"; "has_surge_keywords";
    "has_bearish_keywords" ].

Definition engine_keys : list string :=
  numeric_keys ++ categorical_keys ++ flag_keys.

(** Two records that agree on every key the engine reads. *)
Definition agree_on_engine_keys (f1 f2 : dict) : Prop :=
  forall k, In k engine_keys -> lookup f1 k = lookup f2 k.

(** A computation that raises nothing but [e0]. *)
Definition raises_only {A : Type} (e0 : exn) (c : result A) : Prop :=
  forall e, c = Raise e -> e = e0.

(** A value that is present but is not a number: [None] or a string. *)
Definition not_a_number (v : value) : bool := negb (is_number v).

(** The numeric features every call of [predict] with a valid price uses as
    numbers, whatever the other features are: in the scorers and the target
    price ([analysis_keys]) and in the response ([response_keys]). *)
Definition analysis_keys : list string :=
  [ "price_change_1d"; "price_change_5d"; "news_count";
    "bullish_keyword_count"; "earnings_surprise_percent"; "social_sentiment";
    "sector_sentiment"; "analyst_upgrades"; "analyst_downgrades";
    "asian_market_strength"; "rsi"; "macd"; "news_sentiment_score";
    "volume_ratio"; "intraday_change_percent"; "pe_percentile";
    "earnings_growth"; "us_market_influence_score"; "revenue_growth";
    "margin_change_percent"; "intraday_volume_ratio";
    "open_close_gap_percent"; "volatility"; "global_market_change" ].

Definition response_keys : list string :=
  [ "us_market_change_avg"; "us_market_influence_score"; "sp500_change_pct";
    "nasdaq_change_pct"; "dow_change_pct"; "russell_change_pct" ].

(** A price given as text, with both moving averages as numbers. *)
Definition features_text_price : dict :=
  [ ("current_price", VStr "100"); ("sma_20", VNum 98); ("sma_50", VNum 95) ].

(** A [null] RSI beside a valid price. *)
Definition features_null_rsi : dict :=
  [ ("current_price", VNum 100); ("rsi", VNone) ].

(** The minimal record with two keys the engine does not know. *)
Definition features_minimal_tagged : dict :=
  [ ("ticker", VStr "ACME"); ("current_price", VNum 100);
    ("notes", VNone) ].

(** A negative European session and nothing else but the price. *)
Definition features_mild : dict :=
  [ ("current_price", VNum 100);
    ("european_market_sentiment", VStr "negative") ].

(** Fifteen articles with a strongly negative average sentiment. *)
Definition features_bad_news : dict :=
  [ ("current_price", VNum 100); ("news_count", VNum 15);
    ("news_sentiment_score", VNum (- 2)) ].

(** A rise of 5% on the day. *)
Definition features_rally : dict :=
  [ ("current_price", VNum 100); ("price_change_1d", VNum 5) ].

(** A decline of 3% on the day, with a price. *)
Definition features_decline : dict :=
  [ ("current_price", VNum 100); ("price_change_1d", VNum (- 3)) ].

(** The signal on very negative news. *)
Definition negative_news_signal : Signal.t :=
  {| type := SELL; strength := STRONG; reason := Very_negative_news |}.

(* ================================================================= *)
(** ** Facts about the real-number helpers *)

Section RealFacts.

Lemma Rltb_spec (x y : R) : BoolSpec (x < y) (y <= x) (x <? y).
Proof.
  unfold Rltb. destruct (Rlt_dec x y); constructor; lra.
Qed.

Lemma Rleb_spec (x y : R) : BoolSpec (x <= y) (y < x) (x <=? y).
Proof.
  unfold Rleb. destruct (Rle_dec x y); constructor; lra.
Qed.

Lemma Reqb_spec (x y : R) : BoolSpec (x = y) (x <> y) (x =? y).
Proof.
  unfold Reqb. destruct (Req_dec_T x y); constructor; assumption.
Qed.

Lemma clip_bounds (x lo hi : R) : lo <= hi -> lo <= clip x lo hi <= hi.
Proof.
  intros Hle. unfold clip.
  apply Rmin_case_strong; apply Rmax_case_strong; intros; lra.
Qed.

Lemma clip_id (x lo hi : R) : lo <= x <= hi -> clip x lo hi = x.
Proof.
  intros [H1 H2]. unfold clip.
  rewrite Rmax_left by lra. now rewrite Rmin_left by lra.
Qed.

Lemma clip_le (x lo hi b : R) : lo <= b -> x <= b -> clip x lo hi <= b.
Proof.
  intros H1 H2. unfold clip.
  apply Rmin_case_strong; apply Rmax_case_strong; intros; lra.
Qed.

Lemma clip_ge (x lo hi b : R) : b <= hi -> b <= x -> b <= clip x lo hi.
Proof.
  intros H1 H2. unfold clip.
  apply Rmin_case_strong; apply Rmax_case_strong; intros; lra.
Qed.

(** The hyperbolic tangent stays strictly between -1 and 1. *)
Lemma tanh_bounds (x : R) : -1 < tanh x < 1.
Proof.
  unfold tanh, sinh, cosh.
  pose proof (exp_pos x) as Hp. pose proof (exp_pos (- x)) as Hn.
  assert (Hc : 0 < (exp x + exp (- x)) / 2) by lra.
  split.
  - apply Rmult_lt_reg_r with ((exp x + exp (- x)) / 2); [exact Hc|].
    unfold Rdiv at 2. rewrite Rmult_assoc, Rinv_l by lra. lra.
  - apply Rmult_lt_reg_r with ((exp x + exp (- x)) / 2); [exact Hc|].
    unfold Rdiv at 1. rewrite Rmult_assoc, Rinv_l by lra. lra.
Qed.

Lemma tanh_0 : tanh 0 = 0.
Proof.
  unfold tanh. rewrite sinh_0. unfold Rdiv. apply Rmult_0_l.
Qed.

End RealFacts.

(** Case analysis on every comparison of reals in the goal. *)
Ltac cases_R :=
  repeat match goal with
    | |- context [Rltb ?a ?b] => destruct (Rltb_spec a b)
    | |- context [Rleb ?a ?b] => destruct (Rleb_spec a b)
    | |- context [Reqb ?a ?b] => destruct (Reqb_spec a b)
    end.

(** Unfolding [Rmin], [Rmax] and [Rabs] into their cases. *)
Ltac cases_minmax :=
  repeat match goal with
    | |- context [Rmin ?a ?b] => apply (Rmin_case_strong a b); intros
    | |- context [Rmax ?a ?b] => apply (Rmax_case_strong a b); intros
    | |- context [Rabs ?a] =>
        unfold Rabs at 1; destruct (Rcase_abs a)
    end.

(** Inversion of a successful monadic computation, one [bind] at a time. *)
Ltac inv_bind H :=
  repeat match type of H with
    | bind ?c _ = Ok _ =>
        let E := fresh "E" in
        destruct c eqn:E; cbn [bind] in H; [ | discriminate H ]
    | (let '(_, _) := ?p in _) = Ok _ => destruct p
    end.

(* ================================================================= *)
(** ** Rounding *)

Section Rounding.

Lemma round_half_even_near (x : R) :
  round_half_even x = Zfloor x \/ round_half_even x = (Zfloor x + 1)%Z.
Proof.
  unfold round_half_even. cases_R; auto. destruct (Z.even _); auto.
Qed.

Lemma round_half_even_IZR (z : Z) : round_half_even (IZR z) = z.
Proof.
  unfold round_half_even. rewrite ZfloorZ.
  destruct (Rltb_spec (IZR z - IZR z) (1 / 2)); [reflexivity | lra].
Qed.

Lemma round_half_even_mono (x y : R) :
  x <= y -> (round_half_even x <= round_half_even y)%Z.
Proof.
  intros Hxy.
  pose proof (Zfloor_le x y Hxy) as Hfl.
  destruct (Z.eq_dec (Zfloor x) (Zfloor y)) as [Heq | Hne].
  - unfold round_half_even. rewrite Heq.
    cases_R; try lia; try lra; destruct (Z.even (Zfloor y)); lia.
  - destruct (round_half_even_near x) as [-> | ->];
      destruct (round_half_even_near y) as [-> | ->]; lia.
Qed.

(** Ties to even makes rounding symmetric about half an even integer. *)
Lemma round_half_even_compl (N : Z) (x : R) :
  Z.even N = true ->
  round_half_even (IZR N - x) = (N - round_half_even x)%Z.
Proof.
  intros HN.
  pose proof (Zfloor_bound x) as Hx.
  set (n := Zfloor x) in *.
  destruct (Req_dec_T x (IZR n)) as [Hint | Hfrac].
  - (* [x] is an integer *)
    rewrite Hint, <- minus_IZR, !round_half_even_IZR. reflexivity.
  - assert (Hfl : Zfloor (IZR N - x) = (N - n - 1)%Z).
    { apply Zfloor_eq. rewrite !minus_IZR. lra. }
    unfold round_half_even. rewrite Hfl. fold n.
    rewrite !minus_IZR.
    destruct (Rltb_spec (x - IZR n) (1 / 2)).
    + destruct (Rltb_spec (IZR N - x - (IZR N - IZR n - 1)) (1 / 2));
        [lra|].
      destruct (Rltb_spec (1 / 2) (IZR N - x - (IZR N - IZR n - 1)));
        [lia | lra].
    + destruct (Rltb_spec (1 / 2) (x - IZR n)).
      * destruct (Rltb_spec (IZR N - x - (IZR N - IZR n - 1)) (1 / 2));
          [lia | lra].
      * destruct (Rltb_spec (IZR N - x - (IZR N - IZR n - 1)) (1 / 2));
          [lra|].
        destruct (Rltb_spec (1 / 2) (IZR N - x - (IZR N - IZR n - 1)));
          [lra|].
        (* the tie: the parities of [n] and [N - n - 1] differ *)
        replace (N - n - 1)%Z with (N - (n + 1))%Z by lia.
        rewrite Z.even_sub, HN, Z.even_add. cbn.
        destruct (Z.even n); cbn; lia.
Qed.

Lemma pow10_pos (n : nat) : 0 < IZR (10 ^ Z.of_nat n).
Proof.
  apply IZR_lt. apply Z.pow_pos_nonneg; lia.
Qed.

(** A number with at most [n] decimals is left as it is. *)
Lemma py_round_grid (z : Z) (n : nat) :
  py_round (IZR z / IZR (10 ^ Z.of_nat n)) n = IZR z / IZR (10 ^ Z.of_nat n).
Proof.
  unfold py_round. pose proof (pow10_pos n) as Hp.
  replace (IZR z / IZR (10 ^ Z.of_nat n) * IZR (10 ^ Z.of_nat n))
    with (IZR z) by (field; lra).
  now rewrite round_half_even_IZR.
Qed.

Lemma py_round_mono (x y : R) (n : nat) :
  x <= y -> py_round x n <= py_round y n.
Proof.
  intros Hxy. unfold py_round. pose proof (pow10_pos n) as Hp.
  apply Rmult_le_compat_r; [left; now apply Rinv_0_lt_compat|].
  apply IZR_le, round_half_even_mono.
  apply Rmult_le_compat_r; lra.
Qed.

(** With at least one decimal, [round(1 - x, n)] is [1 - round(x, n)]. *)
Lemma py_round_compl (x : R) (n : nat) :
  (1 <= n)%nat -> py_round (1 - x) n = 1 - py_round x n.
Proof.
  intros Hn. unfold py_round. pose proof (pow10_pos n) as Hp.
  replace ((1 - x) * IZR (10 ^ Z.of_nat n))
    with (IZR (10 ^ Z.of_nat n) - x * IZR (10 ^ Z.of_nat n)) by ring.
  rewrite round_half_even_compl.
  - rewrite minus_IZR. field. lra.
  - rewrite Z.even_pow by lia. reflexivity.
Qed.

Lemma py_round_4 (z : Z) : py_round (IZR z / 10000) 4 = IZR z / 10000.
Proof. exact (py_round_grid z 4). Qed.

Lemma py_round_2 (z : Z) : py_round (IZR z / 100) 2 = IZR z / 100.
Proof. exact (py_round_grid z 2). Qed.

End Rounding.

(* ================================================================= *)
(** ** Evaluation on concrete records *)

Lemma Rltb_true (x y : R) : x < y -> (x <? y) = true.
Proof. intros H. destruct (Rltb_spec x y); [reflexivity | lra]. Qed.

Lemma Rltb_false (x y : R) : y <= x -> (x <? y) = false.
Proof. intros H. destruct (Rltb_spec x y); [lra | reflexivity]. Qed.

Lemma Rleb_true (x y : R) : x <= y -> (x <=? y) = true.
Proof. intros H. destruct (Rleb_spec x y); [reflexivity | lra]. Qed.

Lemma Rleb_false (x y : R) : y < x -> (x <=? y) = false.
Proof. intros H. destruct (Rleb_spec x y); [lra | reflexivity]. Qed.

Lemma Reqb_true (x y : R) : x = y -> (x =? y) = true.
Proof. intros H. destruct (Reqb_spec x y); [reflexivity | lra]. Qed.

Lemma Reqb_false (x y : R) : x <> y -> (x =? y) = false.
Proof. intros H. destruct (Reqb_spec x y); [contradiction | reflexivity]. Qed.

Lemma tanh_0_div (c : R) : tanh (0 / c) = 0.
Proof.
  replace (0 / c) with 0 by (unfold Rdiv; now rewrite Rmult_0_l).
  exact tanh_0.
Qed.

Lemma Rabs_pos_eq' (x : R) : 0 <= x -> Rabs x = x.
Proof. intros H. now apply Rabs_pos_eq. Qed.

Lemma Rabs_neg_eq (x : R) : x <= 0 -> Rabs x = - x.
Proof. intros H. now apply Rabs_left1. Qed.

(** Dictionary lookups and the operations on values, by computation. *)
Ltac py_simpl :=
  cbn [bind get get_or lookup String.eqb Ascii.eqb Bool.eqb is_None num
       as_num truthy eq_str ne_zero negb andb orb forallb and_then or_else
       chain lt gt fst snd].

(** Comparisons between numbers that linear arithmetic settles. *)
Ltac R_decide :=
  repeat first
    [ rewrite Rabs_R0
    | rewrite tanh_0_div
    | rewrite tanh_0
    | match goal with
      | |- context [Rabs ?a] =>
          first [ rewrite (Rabs_pos_eq' a) by lra
                | rewrite (Rabs_neg_eq a) by lra ]
      | |- context [Rltb ?a ?b] =>
          first [ rewrite (Rltb_true a b) by lra
                | rewrite (Rltb_false a b) by lra ]
      | |- context [Rleb ?a ?b] =>
          first [ rewrite (Rleb_true a b) by lra
                | rewrite (Rleb_false a b) by lra ]
      | |- context [Reqb ?a ?b] =>
          first [ rewrite (Reqb_true a b) by lra
                | rewrite (Reqb_false a b) by lra ]
      | |- context [Rmin ?a ?b] =>
          first [ rewrite (Rmin_left a b) by lra
                | rewrite (Rmin_right a b) by lra ]
      | |- context [Rmax ?a ?b] =>
          first [ rewrite (Rmax_left a b) by lra
                | rewrite (Rmax_right a b) by lra ]
      end ].

Ltac py_eval := repeat (progress (py_simpl; R_decide)).

(* ================================================================= *)
(** ** Calibration, hard override and the neutral zone *)

Section Calibration.

Lemma calibrate_range (c : R) (f : dict) (ot os : option R) (p : R) :
  _calibrate_probability c f ot os = Ok p -> 0.55 <= p <= 0.98.
Proof.
  unfold _calibrate_probability. intros H. inv_bind H.
  injection H as <-. apply clip_bounds.
  unfold min_confidence, max_confidence. lra.
Qed.

Lemma hard_override_cases (c p : R) :
  0.55 <= p <= 0.98 ->
  (c < - 0.1 /\ hard_override c p = 0.44) \/
  (- 0.1 <= c /\ 0.55 <= hard_override c p <= 0.98 /\
   (0.1 < c -> 0.56 <= hard_override c p)).
Proof.
  intros Hp. unfold hard_override. cases_R.
  - left. split; [lra|]. apply Rmin_right. lra.
  - right. split; [lra|]. split; [|intros _; apply Rmax_r].
    apply Rmax_case_strong; intros; lra.
  - right. repeat split; lra.
Qed.

Lemma no_neutral_outside (c t s g i p : R) :
  p <= 0.45 \/ 0.55 <= p -> no_neutral c t s g i p = p.
Proof.
  intros Hp. unfold no_neutral.
  destruct (Rltb_spec 0.45 p); destruct (Rltb_spec p 0.55); cbn [andb];
    try reflexivity; lra.
Qed.

(** The override wins whatever probability the calibrator produced. *)
Lemma override_law (c t s g i p : R) :
  (c < - 0.1 -> no_neutral c t s g i (hard_override c p) <= 0.44) /\
  (0.1 < c -> 0.56 <= no_neutral c t s g i (hard_override c p)).
Proof.
  split; intros Hc.
  - assert (H : hard_override c p <= 0.44).
    { unfold hard_override. destruct (Rltb_spec c (- 0.1)); [|lra].
      apply Rmin_r. }
    rewrite no_neutral_outside; lra.
  - assert (H : 0.56 <= hard_override c p).
    { unfold hard_override. destruct (Rltb_spec c (- 0.1)); [lra|].
      destruct (Rltb_spec 0.1 c); [|lra]. apply Rmax_r. }
    rewrite no_neutral_outside; lra.
Qed.

End Calibration.

(* ================================================================= *)
(** ** The target price projector *)

Section TargetPrice.

Lemma target_price_spec (cp conf : R) (bull : bool) (f : dict) (t s : R)
  (price change : R) :
  _calculate_target_price_v2 cp conf bull f t s = Ok (price, change) ->
  price = cp * (1 + change / 100) /\
  (if bull then 0.5 <= change <= 10 else - 10 <= change <= - 0.5).
Proof.
  unfold _calculate_target_price_v2. intros H. inv_bind H.
  injection H as <- <-. split; [reflexivity|].
  match goal with
  | |- context [clip ?x 0.5 10.0] =>
      pose proof (clip_bounds x 0.5 10.0 ltac:(lra)) as Hc
  end.
  destruct bull; lra.
Qed.

End TargetPrice.

(* ================================================================= *)
(** ** The local variables of a successful [predict] *)

Section Analyse.

Variables (features : dict) (cp : R) (l : Locals).
Hypothesis Hl : analyse features cp = Ok l.

Lemma analyse_probability :
  exists cal,
    0.55 <= cal <= 0.98 /\
    bullish_probability l =
      no_neutral (composite_score l) (technical_score l) (sentiment_score l)
                 (global_score l) (intraday_score l)
                 (hard_override (composite_score l) cal).
Proof.
  unfold analyse in Hl. inv_bind Hl. injection Hl as <-. cbn.
  eexists. split; [|reflexivity]. eapply calibrate_range; eassumption.
Qed.

Lemma analyse_direction :
  bearish_probability l = 1 - bullish_probability l /\
  is_bullish l = (bullish_probability l >? 0.5) /\
  confidence l =
    (if is_bullish l then bullish_probability l else bearish_probability l) /\
  direction l = (if is_bullish l then up else down).
Proof.
  unfold analyse in Hl. inv_bind Hl. injection Hl as <-. cbn.
  repeat split; reflexivity.
Qed.

Lemma analyse_target :
  current_price l = cp /\
  _calculate_target_price_v2 cp (confidence l) (is_bullish l) features
    (technical_score l) (sentiment_score l)
  = Ok (target_price l, target_change_percent l).
Proof.
  unfold analyse in Hl. inv_bind Hl. injection Hl as <-. cbn.
  split; [reflexivity | assumption].
Qed.

(** Where each local variable comes from. *)
Lemma analyse_scores :
  _calculate_technical_score_v2 features = Ok (technical_score l) /\
  (exists s pc,
     _calculate_sentiment_score_v2 features = Ok s /\
     num (get_or features "price_change_1d" (VNum 0)) = Ok pc /\
     sentiment_score l =
       if (pc <? - 2.0) && (s >? 0.2) then s * 0.5
       else if (pc >? 2.0) && (s <? - 0.2) then s * 0.5
       else s) /\
  _calculate_global_market_score_v2 features = Ok (global_score l) /\
  _calculate_volume_score_v2 features = Ok (volume_score l) /\
  _calculate_fundamental_score_v2 features = Ok (fundamental_score l) /\
  _calculate_intraday_score features = Ok (intraday_score l) /\
  _calculate_asian_market_score_with_impact features
    = Ok (asian_score l, asian_impact_pct l) /\
  _calculate_european_market_score_with_impact features
    = Ok (european_score l, european_impact_pct l) /\
  _calculate_local_us_factors features = Ok (local_score l, local_factors l) /\
  local_impact_pct l =
    _calculate_local_impact_percent (local_score l) (local_factors l) /\
  composite_score l =
    composite (technical_score l) (sentiment_score l) (global_score l)
              (volume_score l) (fundamental_score l) (intraday_score l).
Proof.
  unfold analyse in Hl. inv_bind Hl. injection Hl as <-. cbn.
  repeat split; try reflexivity.
  eexists _, _. repeat split; reflexivity.
Qed.

(** The probability is 0.44 under a clearly bearish composite score and at
    least 0.55 otherwise. *)
Lemma analyse_probability_cases :
  (composite_score l < - 0.1 /\ bullish_probability l = 0.44) \/
  (- 0.1 <= composite_score l /\ 0.55 <= bullish_probability l <= 0.98 /\
   (0.1 < composite_score l -> 0.56 <= bullish_probability l)).
Proof.
  destruct analyse_probability as (cal & Hcal & ->).
  destruct (hard_override_cases (composite_score l) cal Hcal)
    as [[Hc Ho] | (Hc & Ho & Ho')].
  - left. split; [exact Hc|]. rewrite no_neutral_outside; lra.
  - right. split; [exact Hc|]. rewrite no_neutral_outside by lra.
    split; assumption.
Qed.

Lemma analyse_is_bullish :
  is_bullish l = true <-> - 0.1 <= composite_score l.
Proof.
  destruct analyse_direction as (_ & -> & _).
  destruct analyse_probability_cases as [[Hc Hp] | (Hc & Hp & _)];
    destruct (Rltb_spec 0.5 (bullish_probability l)); split; intros;
    try reflexivity; try discriminate; lra.
Qed.

End Analyse.

(* ================================================================= *)
(** ** Records with numeric features: no scorer raises *)

Section Returns.

Context {A B : Type}.

Lemma returns_Ok (a : A) : returns (Ok a).
Proof. now exists a. Qed.

Lemma returns_bind (c : result A) (k : A -> result B) :
  returns c -> (forall a, returns (k a)) -> returns (bind c k).
Proof.
  intros [a ->] Hk. exact (Hk a).
Qed.

Lemma returns_if (b : bool) (c1 c2 : result A) :
  returns c1 -> returns c2 -> returns (if b then c1 else c2).
Proof. now destruct b. Qed.

End Returns.

Section NumericFeatures.

Variable features : dict.
Hypothesis Hnum : numeric_features features = true.

Lemma numeric_lookup (k : string) :
  In k numeric_keys ->
  match lookup features k with
  | Some v => is_number v = true
  | None => True
  end.
Proof.
  intros Hk. unfold numeric_features in Hnum.
  rewrite forallb_forall in Hnum. specialize (Hnum k Hk).
  destruct (lookup features k); [exact Hnum | exact I].
Qed.

Lemma is_number_num (v : value) : is_number v = true -> returns (num v).
Proof.
  destruct v as [|[]| |]; cbn; intros H; try discriminate;
    eexists; reflexivity.
Qed.

Lemma returns_num_get_or (k : string) (d : R) :
  In k numeric_keys -> returns (num (get_or features k (VNum d))).
Proof.
  intros Hk. pose proof (numeric_lookup k Hk) as H. unfold get_or.
  destruct (lookup features k); [now apply is_number_num | now eexists].
Qed.

Lemma get_numeric (k : string) :
  In k numeric_keys ->
  is_None (get features k) = true \/ is_number (get features k) = true.
Proof.
  intros Hk. pose proof (numeric_lookup k Hk) as H. unfold get.
  destruct (lookup features k); auto.
Qed.

Lemma returns_num_get (k : string) :
  In k numeric_keys ->
  negb (is_None (get features k)) = true -> returns (num (get features k)).
Proof.
  intros Hk Hn. destruct (get_numeric k Hk) as [H | H].
  - rewrite H in Hn. discriminate.
  - now apply is_number_num.
Qed.

Lemma get_number (k : string) :
  In k numeric_keys ->
  negb (is_None (get features k)) = true -> is_number (get features k) = true.
Proof.
  intros Hk Hn. destruct (get_numeric k Hk) as [H | H]; [|exact H].
  rewrite H in Hn. discriminate.
Qed.

Lemma returns_lt (a b : value) :
  is_number a = true -> is_number b = true -> returns (lt a b).
Proof.
  destruct a as [|[]| |], b as [|[]| |]; cbn; intros; try discriminate;
    eexists; reflexivity.
Qed.

Lemma returns_and_then (c1 c2 : result bool) :
  returns c1 -> returns c2 -> returns (and_then c1 c2).
Proof.
  intros H1 H2. apply returns_bind; [exact H1|].
  intros []; [exact H2 | apply returns_Ok].
Qed.

Lemma returns_ma_position (p a b : value) :
  is_number p = true -> is_number a = true -> is_number b = true ->
  returns (ma_position p a b).
Proof.
  intros Hp Ha Hb. unfold ma_position, chain, gt.
  repeat first
    [ apply returns_Ok
    | apply returns_and_then
    | apply returns_lt; assumption
    | apply returns_bind; [ | intros [] ] ].
Qed.

Lemma returns_ma_cross (a b c : value) :
  is_number a = true -> is_number b = true -> is_number c = true ->
  returns (ma_cross a b c).
Proof.
  intros Ha Hb Hc. unfold ma_cross, gt.
  repeat first
    [ apply returns_Ok
    | apply returns_and_then
    | apply returns_lt; assumption
    | apply returns_bind; [ | intros [] ] ].
Qed.

End NumericFeatures.

(** Membership of a literal key in [numeric_keys]. *)
Ltac in_keys := unfold numeric_keys; cbn [In]; tauto.

(** One step in showing that a monadic computation returns. *)
Ltac returns_step Hnum :=
  match goal with
  | |- returns (Ok _) => apply returns_Ok
  | |- returns (bind _ _) => apply returns_bind; [ | intros ? ]
  | |- returns (num (get_or _ _ (VNum _))) =>
      apply (returns_num_get_or _ Hnum); in_keys
  | |- returns (let '(_, _) := ?p in _) => destruct p
  | |- returns (num (get _ _)) =>
      apply (returns_num_get _ Hnum); [in_keys | assumption]
  | |- returns (if ?b then _ else _) =>
      let E := fresh "E" in destruct b eqn:E
  | |- returns (match ?o with Some _ => _ | None => _ end) => destruct o
  end.

Ltac returns_auto Hnum := repeat (returns_step Hnum).

Section ScorersReturn.

Variable features : dict.
Hypothesis Hnum : numeric_features features = true.

Lemma returns_technical : returns (_calculate_technical_score_v2 features).
Proof.
  unfold _calculate_technical_score_v2, technical_acc, technical_rest,
    rsi_block, macd_block, ma_block, bollinger_block, momentum_block.
  returns_auto Hnum.
  - cbn [forallb] in E. rewrite !andb_true_iff in E.
    destruct E as (H20 & H50 & Hp & _).
    apply returns_ma_position;
      apply (get_number _ Hnum); solve [in_keys | assumption].
  - cbn [forallb] in E. rewrite !andb_true_iff in E.
    destruct E as (H20 & H50 & Hp & _).
    apply returns_ma_cross;
      apply (get_number _ Hnum); solve [in_keys | assumption].
Qed.

Lemma returns_sentiment : returns (_calculate_sentiment_score_v2 features).
Proof.
  unfold _calculate_sentiment_score_v2, sentiment_acc, or_else.
  returns_auto Hnum.
Qed.

Lemma returns_market_term (k : string) (sentiment : value) (d fixed scale : R) :
  In k numeric_keys ->
  returns (market_term sentiment (get_or features k (VNum d)) fixed scale).
Proof.
  intros Hk. unfold market_term.
  repeat first
    [ apply returns_Ok
    | apply (returns_num_get_or _ Hnum); exact Hk
    | apply returns_bind; [ | intros ? ]
    | apply returns_if ].
Qed.

Lemma returns_global : returns (_calculate_global_market_score_v2 features).
Proof.
  unfold _calculate_global_market_score_v2.
  repeat first
    [ apply returns_market_term; in_keys
    | returns_step Hnum ].
Qed.

Lemma returns_asian :
  returns (_calculate_asian_market_score_with_impact features).
Proof.
  unfold _calculate_asian_market_score_with_impact. returns_auto Hnum.
Qed.

Lemma returns_european :
  returns (_calculate_european_market_score_with_impact features).
Proof.
  unfold _calculate_european_market_score_with_impact. returns_auto Hnum.
Qed.

Lemma returns_local : returns (_calculate_local_us_factors features).
Proof.
  unfold _calculate_local_us_factors. returns_auto Hnum.
Qed.

Lemma returns_volume : returns (_calculate_volume_score_v2 features).
Proof.
  unfold _calculate_volume_score_v2. returns_auto Hnum.
Qed.

Lemma returns_fundamental :
  returns (_calculate_fundamental_score_v2 features).
Proof.
  unfold _calculate_fundamental_score_v2, fundamental_acc.
  returns_auto Hnum.
Qed.

Lemma returns_intraday : returns (_calculate_intraday_score features).
Proof.
  unfold _calculate_intraday_score, intraday_acc. returns_auto Hnum.
Qed.

Lemma returns_calibrate (c : R) (ot os : option R) :
  returns (_calibrate_probability c features ot os).
Proof.
  unfold _calibrate_probability.
  repeat first
    [ apply returns_technical | apply returns_sentiment
    | returns_step Hnum ].
Qed.

Lemma returns_target (cp conf : R) (bull : bool) (t s : R) :
  returns (_calculate_target_price_v2 cp conf bull features t s).
Proof.
  unfold _calculate_target_price_v2. returns_auto Hnum.
Qed.

Lemma returns_analyse (cp : R) : returns (analyse features cp).
Proof.
  unfold analyse.
  repeat first
    [ apply returns_technical | apply returns_sentiment
    | apply returns_global | apply returns_volume
    | apply returns_fundamental | apply returns_intraday
    | apply returns_asian | apply returns_european | apply returns_local
    | apply returns_calibrate | apply returns_target
    | returns_step Hnum ].
Qed.

Lemma returns_response (now : string) (l : Locals) :
  returns (response now features l).
Proof.
  unfold response. returns_auto Hnum.
Qed.

Lemma returns_float (float_of_str : string -> option R) :
  returns (float float_of_str (get_or features "current_price" (VNum 0))).
Proof.
  pose proof (numeric_lookup _ Hnum "current_price" ltac:(in_keys)) as H.
  unfold get_or. destruct (lookup features "current_price") as [v|].
  - destruct v; cbn in *; try discriminate; eexists; reflexivity.
  - eexists; reflexivity.
Qed.

End ScorersReturn.

(* ================================================================= *)
(** ** The orchestrator *)

Section Predict.

Variable float_of_str : string -> option R.
Variable now : string.


(** A successful response comes from a positive price, a successful
    analysis and a successful assembly of the response. *)
Lemma predict_success (features : dict) (r : Response.t) :
  predict float_of_str now features = Success r ->
  exists cp l,
    float float_of_str (get_or features "current_price" (VNum 0)) = Ok cp /\
    0 < cp /\
    analyse features cp = Ok l /\
    response now features l = Ok r.
Proof.
  unfold QuickModelV6.predict, QuickModelV6.predict_try. intros H.
  destruct (float _ _) as [cp|] eqn:Ef; cbn [bind] in H;
    [|discriminate H].
  destruct (Rleb_spec cp 0); [discriminate H|].
  destruct (analyse features cp) as [l|] eqn:El; cbn [bind] in H;
    [|discriminate H].
  destruct (response now features l) as [r'|] eqn:Er; cbn [bind] in H;
    [|discriminate H].
  injection H as <-. exists cp, l. auto.
Qed.

(** The entry ['prediction'] holds the rounded local variables. *)
Lemma response_prediction (features : dict) (l : Locals) (r : Response.t) :
  response now features l = Ok r ->
  Response.prediction r =
  {| Prediction.direction := direction l;
     Prediction.label := if is_bullish l then BULLISH else BEARISH;
     Prediction.bullish_probability := py_round (bullish_probability l) 4;
     Prediction.bearish_probability := py_round (bearish_probability l) 4;
     Prediction.confidence := py_round (confidence l) 4;
     Prediction.predicted_price := py_round (target_price l) 2;
     Prediction.target_change_percent := py_round (target_change_percent l) 2;
     Prediction.expected_pct_move := py_round (target_change_percent l) 2;
     Prediction.current_price := py_round (current_price l) 2;
     Prediction.probability := py_round (confidence l) 4 |}.
Proof.
  unfold response. intros H. inv_bind H. injection H as <-. reflexivity.
Qed.

End Predict.

(** On a record with numeric features and a positive price, [predict]
    succeeds. *)
Lemma predict_numeric (float_of_str : string -> option R) (now : string)
  (features : dict) (cp : R) :
  numeric_features features = true ->
  float float_of_str (get_or features "current_price" (VNum 0)) = Ok cp ->
  0 < cp ->
  exists l r,
    analyse features cp = Ok l /\
    response now features l = Ok r /\
    predict float_of_str now features = Success r.
Proof.
  intros Hnum Hf Hcp.
  destruct (returns_analyse features Hnum cp) as [l Hl].
  destruct (returns_response features Hnum now l) as [r Hr].
  exists l, r. split; [exact Hl|]. split; [exact Hr|].
  unfold predict, predict_try. rewrite Hf. cbn [bind].
  rewrite Rleb_false by exact Hcp. rewrite Hl. cbn [bind].
  rewrite Hr. reflexivity.
Qed.

(* ================================================================= *)
(** ** The example records *)

Section Examples.

Variable float_of_str : string -> option R.
Variable now : string.

Lemma minimal_succeeds :
  exists l r,
    analyse features_minimal 100 = Ok l /\
    response now features_minimal l = Ok r /\
    predict float_of_str now features_minimal = Success r.
Proof.
  apply predict_numeric; [reflexivity | reflexivity | lra].
Qed.

Lemma bearish_succeeds :
  exists l r,
    analyse features_bearish 100 = Ok l /\
    response now features_bearish l = Ok r /\
    predict float_of_str now features_bearish = Success r.
Proof.
  apply predict_numeric; [reflexivity | reflexivity | lra].
Qed.

Lemma bearish_technical :
  _calculate_technical_score_v2 features_bearish = Ok 0.
Proof.
  unfold _calculate_technical_score_v2, technical_acc, technical_rest,
    rsi_block, macd_block, ma_block, bollinger_block, momentum_block,
    support_resistance,
    features_bearish.
  py_eval. unfold normalize. cbn [Z.gtb Z.compare].
  f_equal. rewrite clip_id; lra.
Qed.

Lemma bearish_sentiment :
  _calculate_sentiment_score_v2 features_bearish = Ok 0.
Proof.
  unfold _calculate_sentiment_score_v2, sentiment_acc, features_bearish.
  py_eval. unfold normalize. cbn [Z.gtb Z.compare].
  f_equal. rewrite clip_id; lra.
Qed.

Lemma bearish_global :
  _calculate_global_market_score_v2 features_bearish = Ok (- 1).
Proof.
  unfold _calculate_global_market_score_v2, market_term, features_bearish.
  py_eval. f_equal. unfold clip. R_decide. reflexivity.
Qed.

Lemma bearish_volume : _calculate_volume_score_v2 features_bearish = Ok 0.
Proof.
  unfold _calculate_volume_score_v2, volume_floored, features_bearish.
  py_eval. f_equal. rewrite clip_id; lra.
Qed.

Lemma bearish_fundamental :
  _calculate_fundamental_score_v2 features_bearish = Ok 0.
Proof.
  unfold _calculate_fundamental_score_v2, fundamental_acc, features_bearish.
  py_eval. cbn. f_equal. rewrite clip_id; lra.
Qed.

Lemma bearish_intraday : _calculate_intraday_score features_bearish = Ok 0.
Proof.
  unfold _calculate_intraday_score, intraday_acc, features_bearish.
  py_eval. cbn. f_equal. rewrite clip_id; lra.
Qed.

(** The composite score of the bearish record is -0.15. *)
Lemma bearish_composite (l : Locals) :
  analyse features_bearish 100 = Ok l -> composite_score l = - 0.15.
Proof.
  intros Hl.
  destruct (analyse_scores _ _ _ Hl)
    as (Ht & (s & pc & Hs & Hpc & Hs') & Hg & Hv & Hf & Hi & _ & _ & _ & _
        & Hc).
  rewrite bearish_technical in Ht. injection Ht as Ht.
  rewrite bearish_sentiment in Hs. injection Hs as <-.
  rewrite bearish_global in Hg. injection Hg as Hg.
  rewrite bearish_volume in Hv. injection Hv as Hv.
  rewrite bearish_fundamental in Hf. injection Hf as Hf.
  rewrite bearish_intraday in Hi. injection Hi as Hi.
  cbn in Hpc. injection Hpc as <-.
  rewrite (Rltb_false 0 (- 2.0)) in Hs' by lra.
  rewrite (Rltb_false 2.0 0) in Hs' by lra. cbn [andb] in Hs'.
  rewrite Hc, Hs', <- Ht, <- Hg, <- Hv, <- Hf, <- Hi.
  unfold composite, weights. cbn. lra.
Qed.

End Examples.

(* ================================================================= *)
(** ** Rounded probabilities *)

Section RoundedProbability.

Lemma py_round4_ge (x : R) (z : Z) :
  IZR z / 10000 <= x -> IZR z / 10000 <= py_round x 4.
Proof.
  intros H. rewrite <- (py_round_4 z). now apply py_round_mono.
Qed.

Lemma py_round4_le (x : R) (z : Z) :
  x <= IZR z / 10000 -> py_round x 4 <= IZR z / 10000.
Proof.
  intros H. rewrite <- (py_round_4 z). now apply py_round_mono.
Qed.

Lemma py_round2_ge (x : R) (z : Z) :
  IZR z / 100 <= x -> IZR z / 100 <= py_round x 2.
Proof.
  intros H. rewrite <- (py_round_2 z). now apply py_round_mono.
Qed.

Lemma py_round2_le (x : R) (z : Z) :
  x <= IZR z / 100 -> py_round x 2 <= IZR z / 100.
Proof.
  intros H. rewrite <- (py_round_2 z). now apply py_round_mono.
Qed.

Lemma py_round4_044 : py_round 0.44 4 = 0.44.
Proof.
  replace 0.44 with (IZR 4400 / 10000) by lra. apply py_round_4.
Qed.

Lemma py_round4_056 : py_round 0.56 4 = 0.56.
Proof.
  replace 0.56 with (IZR 5600 / 10000) by lra. apply py_round_4.
Qed.

Lemma py_round4_range (x : R) :
  0.55 <= x <= 0.98 -> 0.55 <= py_round x 4 <= 0.98.
Proof.
  intros [H1 H2].
  pose proof (py_round4_ge x 5500 ltac:(lra)).
  pose proof (py_round4_le x 9800 ltac:(lra)). lra.
Qed.

End RoundedProbability.

(* ================================================================= *)
(** ** Properties of a successful prediction *)

(** Closing a goal about a direction or a bound. *)
Ltac finish :=
  intros;
  first [ assumption | reflexivity | discriminate | lra
        | left; reflexivity | right; reflexivity ].

Section Prediction.

Variable float_of_str : string -> option R.
Variable now : string.

(** C1.  On every feature record on which [predict] succeeds, the returned
    [bullish_probability] is never strictly between 0.45 and 0.55 (nor was
    it before rounding), the returned direction is "up" or "down", and it is
    "up" exactly when the returned [bullish_probability] is above 0.5. *)
Theorem C1_no_neutral_zone (features : dict) (r : Response.t) :
  predict float_of_str now features = Success r ->
  let p := Response.prediction r in
  ~ (0.45 < Prediction.bullish_probability p < 0.55) /\
  (Prediction.direction p = up \/ Prediction.direction p = down) /\
  (Prediction.direction p = up <-> Prediction.bullish_probability p > 0.5) /\
  exists cp l,
    float float_of_str (get_or features "current_price" (VNum 0)) = Ok cp /\
    analyse features cp = Ok l /\
    ~ (0.45 < bullish_probability l < 0.55) /\
    (Prediction.direction p = up <-> bullish_probability l > 0.5).
Proof.
  intros H. destruct (predict_success _ _ _ _ H) as (cp & l & Hf & _ & Hl & Hr).
  cbv zeta. rewrite (response_prediction _ _ _ _ Hr). cbn.
  destruct (analyse_direction _ _ _ Hl) as (_ & Hb & _ & Hd).
  rewrite Hd, Hb.
  destruct (analyse_probability_cases _ _ _ Hl) as [[_ Hp] | (_ & Hp & _)].
  - rewrite Hp, py_round4_044. rewrite (Rltb_false 0.5 0.44) by lra.
    repeat split; try solve [finish].
    exists cp, l. rewrite Hp. repeat split; finish.
  - pose proof (py_round4_range _ Hp) as Hq.
    rewrite (Rltb_true 0.5 (bullish_probability l)) by lra.
    repeat split; try solve [finish].
    exists cp, l. repeat split; finish.
Qed.

(** C2.  Hard override law: on every feature record on which [predict]
    succeeds, a composite score below -0.1 gives a [bullish_probability] of
    at most 0.44 and a composite score above 0.1 gives one of at least 0.56,
    before and after rounding. *)
Theorem C2_hard_override (features : dict) (r : Response.t) :
  predict float_of_str now features = Success r ->
  exists cp l,
    float float_of_str (get_or features "current_price" (VNum 0)) = Ok cp /\
    analyse features cp = Ok l /\
    (composite_score l < - 0.1 ->
     bullish_probability l <= 0.44 /\
     Prediction.bullish_probability (Response.prediction r) <= 0.44) /\
    (composite_score l > 0.1 ->
     bullish_probability l >= 0.56 /\
     Prediction.bullish_probability (Response.prediction r) >= 0.56).
Proof.
  intros H. destruct (predict_success _ _ _ _ H) as (cp & l & Hf & _ & Hl & Hr).
  exists cp, l. split; [exact Hf|]. split; [exact Hl|].
  rewrite (response_prediction _ _ _ _ Hr). cbn.
  destruct (analyse_probability _ _ _ Hl) as (cal & _ & Hp).
  destruct (override_law (composite_score l) (technical_score l)
              (sentiment_score l) (global_score l) (intraday_score l) cal)
    as [Hlo Hhi].
  rewrite <- Hp in Hlo, Hhi.
  split; intros Hc.
  - specialize (Hlo Hc). split; [exact Hlo|].
    pose proof (py_round4_le (bullish_probability l) 4400 ltac:(lra)). lra.
  - specialize (Hhi ltac:(lra)). split; [lra|].
    pose proof (py_round4_ge (bullish_probability l) 5600 ltac:(lra)). lra.
Qed.

(** C3.  On every feature record on which [predict] succeeds, the direction
    is "down" exactly when the composite score is below -0.1, and then the
    [bullish_probability] before rounding is exactly 0.44 and the confidence
    exactly 0.56. *)
Theorem C3_down_only_by_override (features : dict) (r : Response.t) :
  predict float_of_str now features = Success r ->
  exists cp l,
    float float_of_str (get_or features "current_price" (VNum 0)) = Ok cp /\
    analyse features cp = Ok l /\
    (Prediction.direction (Response.prediction r) = down <->
     composite_score l < - 0.1) /\
    (Prediction.direction (Response.prediction r) = down ->
     bullish_probability l = 0.44 /\ confidence l = 0.56).
Proof.
  intros H. destruct (predict_success _ _ _ _ H) as (cp & l & Hf & _ & Hl & Hr).
  exists cp, l. split; [exact Hf|]. split; [exact Hl|].
  rewrite (response_prediction _ _ _ _ Hr). cbn.
  destruct (analyse_direction _ _ _ Hl) as (Hbear & Hb & Hconf & Hd).
  rewrite Hd, Hconf, Hbear, Hb.
  destruct (analyse_probability_cases _ _ _ Hl) as [[Hc Hp] | (Hc & Hp & _)].
  - rewrite Hp. rewrite (Rltb_false 0.5 0.44) by lra.
    repeat split; finish.
  - rewrite (Rltb_true 0.5 (bullish_probability l)) by lra.
    repeat split; finish.
Qed.

(** C4.  On every feature record on which [predict] succeeds, the returned
    [bearish_probability] and [bullish_probability], each rounded to four
    decimals, sum to exactly 1, as do the unrounded ones. *)
Theorem C4_probabilities_sum_to_one (features : dict) (r : Response.t) :
  predict float_of_str now features = Success r ->
  Prediction.bearish_probability (Response.prediction r) +
  Prediction.bullish_probability (Response.prediction r) = 1 /\
  exists cp l,
    float float_of_str (get_or features "current_price" (VNum 0)) = Ok cp /\
    analyse features cp = Ok l /\
    bearish_probability l + bullish_probability l = 1.
Proof.
  intros H. destruct (predict_success _ _ _ _ H) as (cp & l & Hf & _ & Hl & Hr).
  rewrite (response_prediction _ _ _ _ Hr). cbn.
  destruct (analyse_direction _ _ _ Hl) as (Hbear & _).
  rewrite Hbear. split.
  - rewrite py_round_compl by lia. lra.
  - exists cp, l. split; [exact Hf|]. split; [exact Hl | lra].
Qed.

(** C8.  On every feature record on which [predict] succeeds, the target
    change is positive when the direction is "up" and negative when it is
    "down", its absolute value lies between 0.5 and 10 (before and after
    rounding to two decimals), and the target price is the current price
    times one plus the target change over 100. *)
Theorem C8_target_price (features : dict) (r : Response.t) :
  predict float_of_str now features = Success r ->
  exists cp l,
    float float_of_str (get_or features "current_price" (VNum 0)) = Ok cp /\
    analyse features cp = Ok l /\
    let d := Prediction.direction (Response.prediction r) in
    let change := Prediction.target_change_percent (Response.prediction r) in
    (d = up <-> 0 < target_change_percent l) /\
    (d = down <-> target_change_percent l < 0) /\
    0.5 <= Rabs (target_change_percent l) <= 10 /\
    target_price l = cp * (1 + target_change_percent l / 100) /\
    (d = up <-> 0 < change) /\
    (d = down <-> change < 0) /\
    0.5 <= Rabs change <= 10.
Proof.
  intros H. destruct (predict_success _ _ _ _ H) as (cp & l & Hf & _ & Hl & Hr).
  exists cp, l. split; [exact Hf|]. split; [exact Hl|].
  rewrite (response_prediction _ _ _ _ Hr). cbn.
  destruct (analyse_direction _ _ _ Hl) as (_ & _ & _ & Hd).
  destruct (analyse_target _ _ _ Hl) as (_ & Ht).
  apply target_price_spec in Ht. destruct Ht as [Hprice Hchange].
  rewrite Hd. destruct (is_bullish l).
  - pose proof (py_round2_ge (target_change_percent l) 50 ltac:(lra)).
    pose proof (py_round2_le (target_change_percent l) 1000 ltac:(lra)).
    rewrite !Rabs_pos_eq by lra.
    repeat split; finish.
  - pose proof (py_round2_le (target_change_percent l) (-50) ltac:(lra)).
    pose proof (py_round2_ge (target_change_percent l) (-1000) ltac:(lra)).
    rewrite !Rabs_left1 by lra.
    repeat split; finish.
Qed.

End Prediction.

(* ================================================================= *)
(** ** Bounded scores *)

Section Bounds.

Variable features : dict.

Lemma normalize_range (score : R) (count : Z) :
  -1 <= normalize score count <= 1.
Proof. unfold normalize. apply clip_bounds. lra. Qed.

Lemma technical_range (s : R) :
  _calculate_technical_score_v2 features = Ok s -> -1 <= s <= 1.
Proof.
  unfold _calculate_technical_score_v2. intros H. inv_bind H.
  injection H as <-. apply normalize_range.
Qed.

Lemma sentiment_range (s : R) :
  _calculate_sentiment_score_v2 features = Ok s -> -1 <= s <= 1.
Proof.
  unfold _calculate_sentiment_score_v2. intros H. inv_bind H.
  injection H as <-. apply normalize_range.
Qed.

Lemma global_range (s : R) :
  _calculate_global_market_score_v2 features = Ok s -> -1 <= s <= 1.
Proof.
  unfold _calculate_global_market_score_v2. intros H. inv_bind H.
  injection H as <-. apply clip_bounds. lra.
Qed.

Lemma volume_range (s : R) :
  _calculate_volume_score_v2 features = Ok s -> -1 <= s <= 1.
Proof.
  unfold _calculate_volume_score_v2. intros H. inv_bind H.
  injection H as <-. apply clip_bounds. lra.
Qed.

Lemma fundamental_range (s : R) :
  _calculate_fundamental_score_v2 features = Ok s -> -1 <= s <= 1.
Proof.
  unfold _calculate_fundamental_score_v2. intros H. inv_bind H.
  injection H as <-. apply clip_bounds. lra.
Qed.

Lemma intraday_range (s : R) :
  _calculate_intraday_score features = Ok s -> -1 <= s <= 1.
Proof.
  unfold _calculate_intraday_score. intros H. inv_bind H.
  injection H as <-. apply clip_bounds. lra.
Qed.

Lemma asian_range (s i : R) :
  _calculate_asian_market_score_with_impact features = Ok (s, i) ->
  -1 <= s <= 1 /\ 0 <= i <= 10.
Proof.
  unfold _calculate_asian_market_score_with_impact. intros H. inv_bind H.
  injection H as <- <-. split; apply clip_bounds; lra.
Qed.

Lemma european_range (s i : R) :
  _calculate_european_market_score_with_impact features = Ok (s, i) ->
  -1 <= s <= 1 /\ 0 <= i <= 15.
Proof.
  unfold _calculate_european_market_score_with_impact. intros H. inv_bind H.
  injection H as <- <-. split; apply clip_bounds; lra.
Qed.

Lemma local_range (s : R) (fa : Factors) :
  _calculate_local_us_factors features = Ok (s, fa) ->
  -1 <= s <= 1 /\ 0 <= _calculate_local_impact_percent s fa <= 10.
Proof.
  unfold _calculate_local_us_factors. intros H. inv_bind H.
  injection H as <- <-. split; [apply clip_bounds; lra|].
  unfold _calculate_local_impact_percent. apply clip_bounds. lra.
Qed.

End Bounds.

(** C5.  For every feature record, whatever each of the six component
    scorers and of the three region scorers returns is a score between -1
    and 1, the Asian impact is between 0 and 10, the European impact between
    0 and 15 and the local impact between 0 and 10; and on a record whose
    numeric features hold numbers every one of these scorers does return. *)
Theorem C5_scores_bounded (features : dict) :
  (forall s, _calculate_technical_score_v2 features = Ok s -> -1 <= s <= 1) /\
  (forall s, _calculate_sentiment_score_v2 features = Ok s -> -1 <= s <= 1) /\
  (forall s,
     _calculate_global_market_score_v2 features = Ok s -> -1 <= s <= 1) /\
  (forall s, _calculate_volume_score_v2 features = Ok s -> -1 <= s <= 1) /\
  (forall s,
     _calculate_fundamental_score_v2 features = Ok s -> -1 <= s <= 1) /\
  (forall s, _calculate_intraday_score features = Ok s -> -1 <= s <= 1) /\
  (forall s i,
     _calculate_asian_market_score_with_impact features = Ok (s, i) ->
     -1 <= s <= 1 /\ 0 <= i <= 10) /\
  (forall s i,
     _calculate_european_market_score_with_impact features = Ok (s, i) ->
     -1 <= s <= 1 /\ 0 <= i <= 15) /\
  (forall s fa,
     _calculate_local_us_factors features = Ok (s, fa) ->
     -1 <= s <= 1 /\ 0 <= _calculate_local_impact_percent s fa <= 10) /\
  (numeric_features features = true ->
   returns (_calculate_technical_score_v2 features) /\
   returns (_calculate_sentiment_score_v2 features) /\
   returns (_calculate_global_market_score_v2 features) /\
   returns (_calculate_volume_score_v2 features) /\
   returns (_calculate_fundamental_score_v2 features) /\
   returns (_calculate_intraday_score features) /\
   returns (_calculate_asian_market_score_with_impact features) /\
   returns (_calculate_european_market_score_with_impact features) /\
   returns (_calculate_local_us_factors features)).
Proof.
  split; [exact (technical_range features)|].
  split; [exact (sentiment_range features)|].
  split; [exact (global_range features)|].
  split; [exact (volume_range features)|].
  split; [exact (fundamental_range features)|].
  split; [exact (intraday_range features)|].
  split; [exact (asian_range features)|].
  split; [exact (european_range features)|].
  split; [exact (local_range features)|].
  intros Hnum.
  split; [now apply returns_technical|].
  split; [now apply returns_sentiment|].
  split; [now apply returns_global|].
  split; [now apply returns_volume|].
  split; [now apply returns_fundamental|].
  split; [now apply returns_intraday|].
  split; [now apply returns_asian|].
  split; [now apply returns_european|].
  now apply returns_local.
Qed.

(* ================================================================= *)
(** ** The volume scorer under a large decline *)

Section VolumeFloor.

Lemma volume_floored_le (volume_ratio price_change : R) :
  price_change < - 2 -> volume_floored volume_ratio price_change <= - 0.5.
Proof.
  intros H. unfold volume_floored.
  rewrite (Rltb_true price_change (- 2.0)) by lra. apply Rmin_r.
Qed.

Lemma volume_floored_moderate (volume_ratio price_change : R) :
  - 2 <= price_change < - 1.5 ->
  volume_floored volume_ratio price_change <= - 0.3.
Proof.
  intros [Hlo Hhi]. unfold volume_floored.
  rewrite (Rltb_false price_change (- 2.0)) by lra.
  rewrite (Rltb_true price_change (- 1.5)) by lra. apply Rmin_r.
Qed.

Lemma volume_floored_at_2 (volume_ratio : R) :
  volume_ratio <= 1 -> volume_floored volume_ratio (- 2) = - 0.3.
Proof.
  intros Hvr. unfold volume_floored.
  rewrite (Rltb_false 2.0 volume_ratio), (Rltb_false 1.5 volume_ratio),
    (Rltb_false 1.0 volume_ratio) by lra.
  rewrite (Rltb_false (- 2) (- 2.0)), (Rltb_true (- 2) (- 1.5)) by lra.
  pose proof (tanh_bounds (- 2 / 2)). pose proof (tanh_bounds (- 2 / 3)).
  apply Rmin_right. destruct (0.8 <? volume_ratio); lra.
Qed.

(** C6, in the form the code satisfies by design.  The floor of -0.5 is
    tested with [price_change < -2.0], strictly: when the price change of
    the day is below -2 and the volume trend is not "up", the volume score
    is at most -0.5, whatever the volume ratio.  A decline of exactly 2%
    falls in the next tier: for a price change from -2 to below -1.5 the
    score is at most -0.3 when the trend is not "up", and at -2 exactly,
    with a volume ratio of at most 1 and a trend that is neither "up" nor
    "down", it is -0.3. *)
Theorem C6_volume_floor (features : dict) (price_change s : R) :
  num (get_or features "price_change_1d" (VNum 0)) = Ok price_change ->
  _calculate_volume_score_v2 features = Ok s ->
  (price_change < - 2 ->
   eq_str (get_or features "volume_trend" (VStr "stable")) "up" = false ->
   s <= - 0.5) /\
  (- 2 <= price_change < - 1.5 ->
   eq_str (get_or features "volume_trend" (VStr "stable")) "up" = false ->
   s <= - 0.3) /\
  (price_change = - 2 ->
   forall volume_ratio,
     num (get_or features "volume_ratio" (VNum 1.0)) = Ok volume_ratio ->
     volume_ratio <= 1 ->
     eq_str (get_or features "volume_trend" (VStr "stable")) "up" = false ->
     eq_str (get_or features "volume_trend" (VStr "stable")) "down" = false ->
     s = - 0.3).
Proof.
  intros Hpc H. unfold _calculate_volume_score_v2 in H.
  destruct (num (get_or features "volume_ratio" (VNum 1.0))) as [vr|];
    cbn [bind] in H; [|discriminate H].
  rewrite Hpc in H. cbn [bind] in H. injection H as <-.
  split; [|split].
  - intros Hlt ->. pose proof (volume_floored_le vr price_change Hlt).
    apply clip_le; [lra|]. destruct (eq_str _ "down"); lra.
  - intros Hin ->. pose proof (volume_floored_moderate vr price_change Hin).
    apply clip_le; [lra|]. destruct (eq_str _ "down"); lra.
  - intros -> volume_ratio Hvr Hle -> ->. injection Hvr as ->.
    rewrite (volume_floored_at_2 volume_ratio Hle). apply clip_id. lra.
Qed.

(** C6 as first stated, with a decline of 2% or more and any volume trend,
    does not hold: a decline of exactly 2% scores -0.3, and a 3% decline on
    rising volume scores -0.4. *)
Lemma C6_counterexample :
  (num (get_or features_decline_2 "price_change_1d" (VNum 0)) = Ok (- 2) /\
   - 2 <= - 2 /\
   _calculate_volume_score_v2 features_decline_2 = Ok (- 0.3) /\
   ~ (- 0.3 <= - 0.5)) /\
  (num (get_or features_decline_rising "price_change_1d" (VNum 0))
     = Ok (- 3) /\
   - 3 <= - 2 /\
   _calculate_volume_score_v2 features_decline_rising = Ok (- 0.4) /\
   ~ (- 0.4 <= - 0.5)).
Proof.
  split; (split; [reflexivity|]); (split; [lra|]); (split; [|lra]).
  - unfold _calculate_volume_score_v2, volume_floored, features_decline_2.
    pose proof (tanh_bounds (- 2 / 2)).
    py_eval. f_equal. rewrite clip_id; lra.
  - unfold _calculate_volume_score_v2, volume_floored,
      features_decline_rising.
    pose proof (tanh_bounds (- 3 / 2)).
    py_eval. f_equal. rewrite clip_id; lra.
Qed.

(** C6 at a 3% decline and at a 2% decline, with no trend given. *)
Lemma C6_witness :
  (exists s,
     _calculate_volume_score_v2 features_decline_3 = Ok s /\ s <= - 0.5) /\
  (exists s,
     _calculate_volume_score_v2 features_decline_2 = Ok s /\ s = - 0.3).
Proof.
  split.
  - destruct (returns_volume features_decline_3 eq_refl) as [s Hs].
    exists s. split; [exact Hs|].
    apply (proj1 (C6_volume_floor features_decline_3 (- 3) s eq_refl Hs));
      [lra | reflexivity].
  - destruct (returns_volume features_decline_2 eq_refl) as [s Hs].
    exists s. split; [exact Hs|].
    apply (proj2 (proj2 (C6_volume_floor features_decline_2 (- 2) s eq_refl
                           Hs)) eq_refl 1.0);
      [reflexivity | lra | reflexivity | reflexivity].
Defined.

End VolumeFloor.

(* ================================================================= *)
(** ** The evaluation counter of the technical scorer *)

Section TechnicalCounter.

(** With a positive counter the score is the accumulated sum over the
    counter, clamped. *)
Lemma technical_average (features : dict) (score : R) (count : Z) :
  technical_acc features = Ok (score, count) ->
  (0 < count)%Z ->
  _calculate_technical_score_v2 features
  = Ok (clip (score / IZR count) (-1) 1).
Proof.
  intros H Hc. unfold _calculate_technical_score_v2. rewrite H.
  cbn [bind]. unfold normalize.
  replace (count >? 0)%Z with true by (symmetry; apply Z.gtb_lt; lia).
  now rewrite Z.max_l by lia.
Qed.

(** C7, evaluated where the code departs from it.  A bounce from support
    adds 0.5 to the accumulated sum and leaves the counter alone: alone it
    is lost (sum 0.5, counter 0, score 0), and next to a neutral RSI it is
    not averaged (sum 0.5, counter 1, score 0.5). *)
Theorem C7_support_resistance_uncounted :
  technical_acc features_bounce = Ok (0.5, 0%Z) /\
  _calculate_technical_score_v2 features_bounce = Ok 0 /\
  technical_acc features_rsi_bounce = Ok (0.5, 1%Z) /\
  _calculate_technical_score_v2 features_rsi_bounce = Ok 0.5.
Proof.
  assert (H1 : technical_acc features_bounce = Ok (0.5, 0%Z)).
  { unfold technical_acc, technical_rest, rsi_block, macd_block, ma_block,
      bollinger_block, momentum_block, support_resistance, features_bounce.
    py_eval. f_equal. f_equal. lra. }
  assert (H2 : technical_acc features_rsi_bounce = Ok (0.5, 1%Z)).
  { unfold technical_acc, technical_rest, rsi_block, macd_block, ma_block,
      bollinger_block, momentum_block, support_resistance, rsi_contribution,
      features_rsi_bounce.
    py_eval. f_equal. f_equal. lra. }
  split; [exact H1|]. split; [|split; [exact H2|]].
  - unfold _calculate_technical_score_v2. rewrite H1. cbn [bind].
    unfold normalize. cbn [Z.gtb Z.compare]. f_equal. apply clip_id. lra.
  - rewrite (technical_average _ _ _ H2) by lia. f_equal.
    rewrite clip_id; lra.
Qed.

End TechnicalCounter.

(* ================================================================= *)
(** ** The RSI sub-signal, all else fixed *)

Section RsiAlone.

Lemma Ok_pair_eq (a b : R) (c : Z) : a = b -> Ok (a, c) = Ok (b, c).
Proof. now intros ->. Qed.

Ltac shift_cases :=
  repeat (cbn [bind];
          match goal with
          | |- context [if ?c then _ else _] => destruct c
          | |- context [bind ?c _] =>
              lazymatch c with
              | bind _ _ => fail
              | (if _ then _ else _) => fail
              | _ => destruct c
              end
          end);
  cbn [bind]; try reflexivity;
  apply Ok_pair_eq; ring.

(** What a block after the RSI analysis does to its accumulators does not
    depend on the score it starts from. *)
Lemma macd_block_shift (f : dict) (s d : R) (c : Z) :
  macd_block f (s + d) c = shifted d (macd_block f s c).
Proof. unfold macd_block, shifted. shift_cases. Qed.

Lemma ma_block_shift (f : dict) (s d : R) (c : Z) :
  ma_block f (s + d) c = shifted d (ma_block f s c).
Proof. unfold ma_block, shifted. shift_cases. Qed.

Lemma bollinger_block_shift (f : dict) (s d : R) (c : Z) :
  bollinger_block f (s + d) c = shifted d (bollinger_block f s c).
Proof. unfold bollinger_block, shifted. shift_cases. Qed.

Lemma momentum_block_shift (f : dict) (s d : R) (c : Z) :
  momentum_block f (s + d) c = shifted d (momentum_block f s c).
Proof. unfold momentum_block, shifted. shift_cases. Qed.

Lemma technical_rest_shift (f : dict) (s d : R) (c : Z) :
  technical_rest f (s + d) c = shifted d (technical_rest f s c).
Proof.
  unfold technical_rest.
  rewrite macd_block_shift.
  destruct (macd_block f s c) as [[s1 c1]|]; cbn [shifted bind];
    [|reflexivity].
  rewrite ma_block_shift.
  destruct (ma_block f s1 c1) as [[s2 c2]|]; cbn [shifted bind];
    [|reflexivity].
  rewrite bollinger_block_shift.
  destruct (bollinger_block f s2 c2) as [[s3 c3]|]; cbn [shifted bind];
    [|reflexivity].
  rewrite momentum_block_shift.
  destruct (momentum_block f s3 c3) as [[s4 c4]|]; cbn [shifted bind];
    [|reflexivity].
  apply Ok_pair_eq; ring.
Qed.


Lemma technical_rest_agree (f1 f2 : dict) (s : R) (c : Z) :
  agree_but_rsi f1 f2 -> technical_rest f1 s c = technical_rest f2 s c.
Proof.
  intros Hagree.
  unfold technical_rest, macd_block, ma_block, bollinger_block,
    momentum_block, support_resistance, get, get_or.
  repeat match goal with
    | |- context [lookup f1 ?k] => rewrite (Hagree k) by discriminate
    end.
  reflexivity.
Qed.

(** With every other feature fixed, changing the RSI changes the accumulated
    sum of the technical scorer by the difference of the RSI contributions
    and leaves the counter as it is. *)
Lemma technical_acc_rsi (f1 f2 : dict) (r1 r2 s1 : R) (c1 : Z) :
  agree_but_rsi f1 f2 ->
  lookup f1 "rsi" = Some (VNum r1) ->
  lookup f2 "rsi" = Some (VNum r2) ->
  technical_acc f1 = Ok (s1, c1) ->
  technical_acc f2
  = Ok (s1 + (rsi_contribution r2 - rsi_contribution r1), c1).
Proof.
  intros Hagree H1 H2. unfold technical_acc, rsi_block, get.
  rewrite H1, H2. cbn [is_None negb num as_num bind].
  rewrite <- (technical_rest_agree f1 f2) by exact Hagree.
  replace (0 + rsi_contribution r2)
    with (0 + rsi_contribution r1 + (rsi_contribution r2 - rsi_contribution r1))
    by ring.
  rewrite (technical_rest_shift f1 (0 + rsi_contribution r1)
             (rsi_contribution r2 - rsi_contribution r1)).
  intros ->. reflexivity.
Qed.

End RsiAlone.

(** C10.  Between 20 and 90 the RSI contribution to the technical score
    does not increase with the RSI: it is at most as large at the larger of
    two values as at the smaller.  With every other feature fixed, the sum
    accumulated by the technical scorer moves by exactly that difference and
    its counter stays the same. *)
Theorem C10_rsi_monotone (r1 r2 : R) :
  20 <= r1 -> r1 < r2 -> r2 <= 90 ->
  rsi_contribution r2 <= rsi_contribution r1 /\
  forall f1 f2 s1 c1,
    agree_but_rsi f1 f2 ->
    lookup f1 "rsi" = Some (VNum r1) ->
    lookup f2 "rsi" = Some (VNum r2) ->
    technical_acc f1 = Ok (s1, c1) ->
    exists s2,
      technical_acc f2 = Ok (s2, c1) /\
      s2 - s1 = rsi_contribution r2 - rsi_contribution r1 /\
      s2 <= s1.
Proof.
  intros H1 H12 H2.
  assert (Hmono : rsi_contribution r2 <= rsi_contribution r1).
  { unfold rsi_contribution. cases_R; lra. }
  split; [exact Hmono|].
  intros f1 f2 s1 c1 Hagree Hr1 Hr2 Hacc.
  exists (s1 + (rsi_contribution r2 - rsi_contribution r1)).
  split; [now apply (technical_acc_rsi f1 f2 r1 r2)|].
  split; lra.
Qed.

Lemma rsi_28_72_agree : agree_but_rsi features_rsi_28 features_rsi_72.
Proof.
  intros k Hk. unfold features_rsi_28, features_rsi_72. cbn [lookup].
  destruct (String.eqb_spec "rsi" k) as [E | E]; [|reflexivity].
  now elim Hk.
Qed.

(** C10 at an RSI of 28 and of 72. *)
Lemma C10_witness :
  rsi_contribution 72 <= rsi_contribution 28 /\
  exists s1 s2 c,
    technical_acc features_rsi_28 = Ok (s1, c) /\
    technical_acc features_rsi_72 = Ok (s2, c) /\
    s2 <= s1.
Proof.
  destruct (C10_rsi_monotone 28 72 ltac:(lra) ltac:(lra) ltac:(lra))
    as [Hmono Hacc].
  split; [exact Hmono|].
  assert (H28 : technical_acc features_rsi_28
                = Ok (0 + rsi_contribution 28 + (0 + 0), 1%Z)).
  { unfold technical_acc, technical_rest, rsi_block, macd_block, ma_block,
      bollinger_block, momentum_block, support_resistance, features_rsi_28.
    py_eval. reflexivity. }
  destruct (Hacc features_rsi_28 features_rsi_72 _ _ rsi_28_72_agree
              eq_refl eq_refl H28) as (s2 & H72 & _ & Hle).
  exists (0 + rsi_contribution 28 + (0 + 0)), s2, 1%Z.
  split; [exact H28|]. split; [exact H72 | exact Hle].
Defined.

(* ================================================================= *)
(** ** Error results *)

Section Errors.

Variable float_of_str : string -> option R.
Variable now : string.

Lemma price_invalid_float (features : dict) :
  price_invalid float_of_str features ->
  exists x,
    float float_of_str (get_or features "current_price" (VNum 0)) = Ok x /\
    x <= 0.
Proof.
  unfold price_invalid, get_or.
  destruct (lookup features "current_price") as [v|].
  - intros H. exact H.
  - intros _. exists 0. split; [reflexivity | lra].
Qed.

(** C9.  When the price is missing or not positive, [predict] returns the
    error result "Invalid current price" whatever the other features are
    (no scorer is consulted); an exception raised anywhere in the [try]
    block, in particular by a scorer, is returned as the error result
    "Prediction error"; and every error result carries the model version and
    the time stamp, and nothing else. *)
Theorem C9_error_results (features : dict) :
  (price_invalid float_of_str features ->
   predict float_of_str now features
   = Failure Invalid_current_price version now) /\
  (forall e,
     predict_try float_of_str now features = Raise e ->
     predict float_of_str now features
     = Failure (Prediction_error e) version now) /\
  (forall cp e,
     float float_of_str (get_or features "current_price" (VNum 0)) = Ok cp ->
     0 < cp ->
     analyse features cp = Raise e ->
     predict float_of_str now features
     = Failure (Prediction_error e) version now) /\
  (forall error v t,
     predict float_of_str now features = Failure error v t ->
     v = version /\ t = now).
Proof.
  split; [|split; [|split]].
  - intros H. destruct (price_invalid_float _ H) as (x & Hx & Hle).
    unfold predict, predict_try. rewrite Hx. cbn [bind].
    now rewrite Rleb_true by exact Hle.
  - intros e H. unfold predict. now rewrite H.
  - intros cp e Hf Hcp Ha. unfold predict, predict_try.
    rewrite Hf. cbn [bind]. rewrite Rleb_false by exact Hcp.
    now rewrite Ha.
  - intros error v t. unfold predict, predict_try, _error_response.
    destruct (float _ _) as [cp|]; cbn [bind].
    + destruct (cp <=? 0).
      * intros H. injection H as _ <- <-. auto.
      * destruct (analyse features cp) as [l|]; cbn [bind].
        -- destruct (response now features l); cbn [bind]; intros H;
             [discriminate H | injection H as _ <- <-; auto].
        -- intros H. injection H as _ <- <-. auto.
    + intros H. injection H as _ <- <-. auto.
Qed.

(** The technical scorer raises on the record with a zero price, and the
    analysis raises on the record with a [null] price change. *)
Lemma zero_price_technical_raises :
  _calculate_technical_score_v2 features_zero_price = Raise TypeError.
Proof. reflexivity. Qed.

Lemma null_change_raises :
  analyse features_null_change 100 = Raise TypeError.
Proof. reflexivity. Qed.

End Errors.

(** C9 at a zero price, at a missing price and at a [null] price change. *)
Lemma C9_witness :
  predict (fun _ => None) "2025-10-15T09:30:00" features_zero_price
  = Failure Invalid_current_price version "2025-10-15T09:30:00" /\
  predict (fun _ => None) "2025-10-15T09:30:00" features_no_price
  = Failure Invalid_current_price version "2025-10-15T09:30:00" /\
  predict (fun _ => None) "2025-10-15T09:30:00" features_null_change
  = Failure (Prediction_error TypeError) version "2025-10-15T09:30:00".
Proof.
  split; [|split].
  - apply (proj1 (C9_error_results _ _ features_zero_price)).
    exists 0. split; [reflexivity | lra].
  - apply (proj1 (C9_error_results _ _ features_no_price)). exact I.
  - apply (proj1 (proj2 (proj2 (C9_error_results _ _ features_null_change)))
             100 TypeError);
      [reflexivity | lra | reflexivity].
Defined.

(* ================================================================= *)
(** ** The theorems at the example records *)

(** C1 at the record that holds only a price. *)
Lemma C1_witness :
  exists r,
    predict (fun _ => None) "2025-10-15T09:30:00" features_minimal
    = Success r /\
    ~ (0.45 < Prediction.bullish_probability (Response.prediction r) < 0.55)
    /\ (Prediction.direction (Response.prediction r) = up <->
        Prediction.bullish_probability (Response.prediction r) > 0.5).
Proof.
  destruct (minimal_succeeds (fun _ => None) "2025-10-15T09:30:00")
    as (l & r & _ & _ & Hr).
  exists r. split; [exact Hr|].
  destruct (C1_no_neutral_zone _ _ _ _ Hr) as (H1 & _ & H2 & _).
  split; [exact H1 | exact H2].
Defined.

(** C2 at the bearish record, whose composite score is -0.15. *)
Lemma C2_witness :
  exists r,
    predict (fun _ => None) "2025-10-15T09:30:00" features_bearish
    = Success r /\
    Prediction.bullish_probability (Response.prediction r) <= 0.44.
Proof.
  destruct (bearish_succeeds (fun _ => None) "2025-10-15T09:30:00")
    as (l & r & Hl & _ & Hr).
  exists r. split; [exact Hr|].
  destruct (C2_hard_override _ _ _ _ Hr) as (cp & l' & Hf & Hl' & Hlo & _).
  injection Hf as <-. rewrite Hl in Hl'. injection Hl' as <-.
  apply Hlo. rewrite (bearish_composite l Hl). lra.
Defined.

(** C3 at the bearish record: the direction is "down". *)
Lemma C3_witness :
  exists r l,
    predict (fun _ => None) "2025-10-15T09:30:00" features_bearish
    = Success r /\
    analyse features_bearish 100 = Ok l /\
    Prediction.direction (Response.prediction r) = down /\
    bullish_probability l = 0.44 /\ confidence l = 0.56.
Proof.
  destruct (bearish_succeeds (fun _ => None) "2025-10-15T09:30:00")
    as (l & r & Hl & _ & Hr).
  exists r, l. split; [exact Hr|]. split; [exact Hl|].
  destruct (C3_down_only_by_override _ _ _ _ Hr)
    as (cp & l' & Hf & Hl' & Hiff & Hdown).
  injection Hf as <-. rewrite Hl in Hl'. injection Hl' as <-.
  assert (Hd : Prediction.direction (Response.prediction r) = down).
  { apply Hiff. rewrite (bearish_composite l Hl). lra. }
  split; [exact Hd | exact (Hdown Hd)].
Defined.

(** C4 at the bearish record. *)
Lemma C4_witness :
  exists r,
    predict (fun _ => None) "2025-10-15T09:30:00" features_bearish
    = Success r /\
    Prediction.bearish_probability (Response.prediction r) +
    Prediction.bullish_probability (Response.prediction r) = 1.
Proof.
  destruct (bearish_succeeds (fun _ => None) "2025-10-15T09:30:00")
    as (l & r & _ & _ & Hr).
  exists r. split; [exact Hr|].
  exact (proj1 (C4_probabilities_sum_to_one _ _ _ _ Hr)).
Defined.

(** C5 at the global score of the bearish record. *)
Lemma C5_witness :
  exists s,
    _calculate_global_market_score_v2 features_bearish = Ok s /\
    -1 <= s <= 1.
Proof.
  exists (- 1). split; [exact bearish_global|].
  exact (proj1 (proj2 (proj2 (C5_scores_bounded features_bearish)))
           (- 1) bearish_global).
Defined.

(** C8 at the record that holds only a price. *)
Lemma C8_witness :
  exists r l,
    predict (fun _ => None) "2025-10-15T09:30:00" features_minimal
    = Success r /\
    analyse features_minimal 100 = Ok l /\
    0.5 <= Rabs (target_change_percent l) <= 10 /\
    target_price l = 100 * (1 + target_change_percent l / 100).
Proof.
  destruct (minimal_succeeds (fun _ => None) "2025-10-15T09:30:00")
    as (l & r & Hl & _ & Hr).
  exists r, l. split; [exact Hr|]. split; [exact Hl|].
  destruct (C8_target_price _ _ _ _ Hr)
    as (cp & l' & Hf & Hl' & _ & _ & Hb & Hp & _).
  injection Hf as <-. rewrite Hl in Hl'. injection Hl' as <-.
  split; [exact Hb | exact Hp].
Defined.

(* ================================================================= *)
(** ** Which exceptions the engine raises *)

Section RaisesOnly.

Context {A B : Type}.

Lemma raises_only_Ok (e0 : exn) (a : A) : raises_only e0 (Ok a).
Proof. intros e H. discriminate H. Qed.

Lemma raises_only_Raise (e0 : exn) : raises_only e0 (@Raise A e0).
Proof. intros e H. now injection H as <-. Qed.

Lemma raises_only_bind (e0 : exn) (c : result A) (k : A -> result B) :
  raises_only e0 c -> (forall a, raises_only e0 (k a)) ->
  raises_only e0 (bind c k).
Proof.
  intros Hc Hk e. destruct c as [a | e']; cbn [bind].
  - apply Hk.
  - intros H. injection H as <-. now apply Hc.
Qed.

End RaisesOnly.

Lemma raises_only_num (v : value) : raises_only TypeError (num v).
Proof.
  unfold num. destruct (as_num v);
    [apply raises_only_Ok | apply raises_only_Raise].
Qed.

Lemma raises_only_lt (a b : value) : raises_only TypeError (lt a b).
Proof.
  unfold lt. destruct (as_num a), (as_num b), a, b;
    first [apply raises_only_Ok | apply raises_only_Raise].
Qed.

(** One step in showing that a computation raises only [TypeError]. *)
Ltac raises_step :=
  match goal with
  | |- raises_only _ (Ok _) => apply raises_only_Ok
  | |- raises_only _ (num _) => apply raises_only_num
  | |- raises_only _ (lt _ _) => apply raises_only_lt
  | |- raises_only _ (gt _ _) => apply raises_only_lt
  | |- raises_only _ (bind _ _) => apply raises_only_bind; [ | intros ? ]
  | |- raises_only _ (and_then _ _) => apply raises_only_bind; [ | intros ? ]
  | |- raises_only _ (or_else _ _) => apply raises_only_bind; [ | intros ? ]
  | |- raises_only _ (chain _ _ _ _) => apply raises_only_bind; [ | intros ? ]
  | |- raises_only _ (let '(_, _) := ?p in _) => destruct p
  | |- raises_only _ (if ?b then _ else _) => destruct b
  | |- raises_only _ (match ?o with Some _ => _ | None => _ end) =>
      destruct o
  end.

Ltac raises_auto := repeat raises_step.

Section ScorersRaise.

Variable features : dict.

Lemma technical_raises :
  raises_only TypeError (_calculate_technical_score_v2 features).
Proof.
  unfold _calculate_technical_score_v2, technical_acc, technical_rest,
    rsi_block, macd_block, ma_block, bollinger_block, momentum_block,
    ma_position, ma_cross.
  raises_auto.
Qed.

Lemma sentiment_raises :
  raises_only TypeError (_calculate_sentiment_score_v2 features).
Proof.
  unfold _calculate_sentiment_score_v2, sentiment_acc. raises_auto.
Qed.

Lemma global_raises :
  raises_only TypeError (_calculate_global_market_score_v2 features).
Proof.
  unfold _calculate_global_market_score_v2, market_term. raises_auto.
Qed.

Lemma volume_raises :
  raises_only TypeError (_calculate_volume_score_v2 features).
Proof. unfold _calculate_volume_score_v2. raises_auto. Qed.

Lemma fundamental_raises :
  raises_only TypeError (_calculate_fundamental_score_v2 features).
Proof.
  unfold _calculate_fundamental_score_v2, fundamental_acc. raises_auto.
Qed.

Lemma intraday_raises :
  raises_only TypeError (_calculate_intraday_score features).
Proof. unfold _calculate_intraday_score, intraday_acc. raises_auto. Qed.

Lemma asian_raises :
  raises_only TypeError (_calculate_asian_market_score_with_impact features).
Proof.
  unfold _calculate_asian_market_score_with_impact. raises_auto.
Qed.

Lemma european_raises :
  raises_only TypeError
    (_calculate_european_market_score_with_impact features).
Proof.
  unfold _calculate_european_market_score_with_impact. raises_auto.
Qed.

Lemma local_raises :
  raises_only TypeError (_calculate_local_us_factors features).
Proof. unfold _calculate_local_us_factors. raises_auto. Qed.

Lemma calibrate_raises (c : R) (ot os : option R) :
  raises_only TypeError (_calibrate_probability c features ot os).
Proof.
  unfold _calibrate_probability.
  repeat first
    [ apply technical_raises | apply sentiment_raises | raises_step ].
Qed.

Lemma target_raises (cp conf : R) (bull : bool) (t s : R) :
  raises_only TypeError (_calculate_target_price_v2 cp conf bull features t s).
Proof. unfold _calculate_target_price_v2. raises_auto. Qed.

Lemma analyse_raises (cp : R) : raises_only TypeError (analyse features cp).
Proof.
  unfold analyse.
  repeat first
    [ apply technical_raises | apply sentiment_raises | apply global_raises
    | apply volume_raises | apply fundamental_raises | apply intraday_raises
    | apply asian_raises | apply european_raises | apply local_raises
    | apply calibrate_raises | apply target_raises | raises_step ].
Qed.

Lemma response_raises (now : string) (l : Locals) :
  raises_only TypeError (response now features l).
Proof. unfold response. raises_auto. Qed.

End ScorersRaise.

(* ================================================================= *)
(** ** What a successful analysis has read *)

(** Inversion of every successful [bind] among the hypotheses. *)
Ltac inv_all :=
  repeat match goal with
    | E : bind ?c _ = Ok _ |- _ =>
        let E' := fresh "E" in
        destruct c eqn:E'; cbn [bind] in E; [ | discriminate E ]
    | E : (let '(_, _) := ?p in _) = Ok _ |- _ => destruct p
    end.

(** A feature that was used as a number holds a number. *)
Ltac read_number :=
  match goal with
  | Hv : lookup ?f ?k = Some ?v, E : num (get_or ?f ?k _) = Ok _ |- _ =>
      unfold get_or in E; rewrite Hv in E;
      destruct v as [|[]| |]; solve [reflexivity | discriminate E]
  | Hv : lookup ?f ?k = Some ?v,
    E : (if ne_zero (get_or ?f ?k _) then _ else _) = Ok _ |- _ =>
      unfold get_or in E; rewrite Hv in E;
      destruct v as [|[]| |]; solve [reflexivity | discriminate E]
  end.

Section Reads.

Variables (features : dict) (cp : R) (l : Locals).
Hypothesis Hl : analyse features cp = Ok l.

Lemma analyse_reads (k : string) (v : value) :
  In k analysis_keys -> lookup features k = Some v -> is_number v = true.
Proof.
  intros Hk Hv.
  destruct (analyse_scores _ _ _ Hl)
    as (Ht & (s & pc & Hs & _ & _) & Hg & Hvol & Hf & Hi & _ & _ & Hloc & _).
  destruct (analyse_target _ _ _ Hl) as (_ & Htp).
  unfold _calculate_technical_score_v2, technical_acc, technical_rest,
    momentum_block in Ht.
  unfold _calculate_sentiment_score_v2, sentiment_acc, or_else in Hs.
  unfold _calculate_global_market_score_v2 in Hg.
  unfold _calculate_volume_score_v2 in Hvol.
  unfold _calculate_fundamental_score_v2, fundamental_acc in Hf.
  unfold _calculate_intraday_score, intraday_acc in Hi.
  unfold _calculate_local_us_factors in Hloc.
  unfold _calculate_target_price_v2 in Htp.
  inv_all.
  unfold analysis_keys in Hk. cbn [In] in Hk.
  repeat (destruct Hk as [<- | Hk]; [read_number|]).
  contradiction.
Qed.

(** The RSI, when it is not [None], was used as a number. *)
Lemma analyse_reads_rsi :
  negb (is_None (get features "rsi")) = true ->
  is_number (get features "rsi") = true.
Proof.
  intros Hn. unfold get in *.
  destruct (lookup features "rsi") as [v|] eqn:Hv; [|discriminate Hn].
  apply (analyse_reads "rsi"); [unfold analysis_keys; cbn [In]; tauto|].
  exact Hv.
Qed.

Lemma analyse_returns_num (k : string) (d : R) :
  In k analysis_keys -> returns (num (get_or features k (VNum d))).
Proof.
  intros Hk. unfold get_or.
  destruct (lookup features k) as [v|] eqn:Hv; [|now eexists].
  apply is_number_num. now apply (analyse_reads k).
Qed.

End Reads.

Lemma response_reads (now : string) (features : dict) (l : Locals)
  (r : Response.t) (k : string) (v : value) :
  response now features l = Ok r ->
  In k response_keys -> lookup features k = Some v -> is_number v = true.
Proof.
  intros Hr Hk Hv. unfold response in Hr. inv_all.
  unfold response_keys in Hk. cbn [In] in Hk.
  repeat (destruct Hk as [<- | Hk]; [read_number|]).
  contradiction.
Qed.

(* ================================================================= *)
(** ** Error results beyond the invalid price *)

Section ErrorKinds.

Variable float_of_str : string -> option R.
Variable now : string.

(** With a valid price, [predict] fails only with a [TypeError]. *)
Lemma predict_valid_price (features : dict) (cp : R) :
  float float_of_str (get_or features "current_price" (VNum 0)) = Ok cp ->
  0 < cp ->
  (exists l r,
     analyse features cp = Ok l /\ response now features l = Ok r /\
     predict float_of_str now features = Success r) \/
  ((forall l, analyse features cp = Ok l ->
              exists e, response now features l = Raise e) /\
   predict float_of_str now features
   = Failure (Prediction_error TypeError) version now).
Proof.
  intros Hf Hcp. unfold predict, predict_try. rewrite Hf. cbn [bind].
  rewrite Rleb_false by exact Hcp.
  destruct (analyse features cp) as [l | e] eqn:Ha; cbn [bind].
  - destruct (response now features l) as [r | e] eqn:Hr; cbn [bind].
    + left. exists l, r. auto.
    + right. rewrite (response_raises features now l e Hr).
      split; [|reflexivity].
      intros l' Hl'. injection Hl' as <-. now exists e.
  - right. rewrite (analyse_raises features cp e Ha).
    split; [|reflexivity]. intros l' Hl'. discriminate Hl'.
Qed.

(** The error "Prediction error" carries a [ValueError] exactly when the
    price is a text that [float] cannot read; any other exception [predict]
    catches is a [TypeError]. *)
Theorem value_error_iff_unreadable_price (features : dict) :
  predict float_of_str now features
  = Failure (Prediction_error ValueError) version now
  <->
  exists s,
    lookup features "current_price" = Some (VStr s) /\ float_of_str s = None.
Proof.
  unfold predict, predict_try, get_or. split.
  - destruct (lookup features "current_price") as [[|b|x|s]|];
      cbn [float bind].
    + intros H. discriminate H.
    + destruct (_ <=? 0); [intros H; discriminate H|].
      destruct (analyse features _) as [l|e] eqn:Ha; cbn [bind].
      * destruct (response now features l) as [r|e] eqn:Hr; cbn [bind];
          intros H; [discriminate H|].
        injection H as ->. now apply response_raises in Hr.
      * intros H. injection H as ->. now apply analyse_raises in Ha.
    + destruct (_ <=? 0); [intros H; discriminate H|].
      destruct (analyse features _) as [l|e] eqn:Ha; cbn [bind].
      * destruct (response now features l) as [r|e] eqn:Hr; cbn [bind];
          intros H; [discriminate H|].
        injection H as ->. now apply response_raises in Hr.
      * intros H. injection H as ->. now apply analyse_raises in Ha.
    + destruct (float_of_str s) as [x|] eqn:Hs; cbn [bind];
        [|intros _; now exists s].
      destruct (_ <=? 0); [intros H; discriminate H|].
      destruct (analyse features _) as [l|e] eqn:Ha; cbn [bind].
      * destruct (response now features l) as [r|e] eqn:Hr; cbn [bind];
          intros H; [discriminate H|].
        injection H as ->. now apply response_raises in Hr.
      * intros H. injection H as ->. now apply analyse_raises in Ha.
    + destruct (_ <=? 0); [intros H; discriminate H|].
      destruct (analyse features _) as [l|e] eqn:Ha; cbn [bind].
      * destruct (response now features l) as [r|e] eqn:Hr; cbn [bind];
          intros H; [discriminate H|].
        injection H as ->. now apply response_raises in Hr.
      * intros H. injection H as ->. now apply analyse_raises in Ha.
  - intros (s & -> & Hs). cbn [float]. rewrite Hs. reflexivity.
Qed.

(** The error "Invalid current price" is returned exactly when the price is
    missing or is a number (or readable text) that is not positive; a price
    that is [None] or unreadable text is reported as "Prediction error"
    instead. *)
Theorem invalid_price_iff (features : dict) :
  predict float_of_str now features
  = Failure Invalid_current_price version now
  <-> price_invalid float_of_str features.
Proof.
  split.
  - unfold predict, predict_try, price_invalid, get_or.
    destruct (lookup features "current_price") as [v|]; [|auto].
    destruct (float float_of_str v) as [x|] eqn:Hx; cbn [bind];
      [|intros H; discriminate H].
    destruct (Rleb_spec x 0) as [Hle | Hgt].
    + intros _. now exists x.
    + destruct (analyse features x) as [l|]; cbn [bind];
        [|intros H; discriminate H].
      destruct (response now features l); cbn [bind]; intros H;
        discriminate H.
  - intros H. destruct (price_invalid_float _ _ H) as (x & Hx & Hle).
    unfold predict, predict_try. rewrite Hx. cbn [bind].
    now rewrite Rleb_true by exact Hle.
Qed.

(** With a valid price, a numeric feature of [analysis_keys] or
    [response_keys] that is present but holds [None] or a text makes
    [predict] return "Prediction error": a [null] is not a missing key. *)
Theorem non_number_is_prediction_error (features : dict) (cp : R)
  (k : string) (v : value) :
  float float_of_str (get_or features "current_price" (VNum 0)) = Ok cp ->
  0 < cp ->
  In k (analysis_keys ++ response_keys) ->
  lookup features k = Some v ->
  is_number v = false ->
  predict float_of_str now features
  = Failure (Prediction_error TypeError) version now.
Proof.
  intros Hf Hcp Hk Hv Hnn.
  destruct (predict_valid_price features cp Hf Hcp)
    as [(l & r & Hl & Hr & _) | [_ H]]; [|exact H].
  apply in_app_or in Hk. destruct Hk as [Hk | Hk].
  - rewrite (analyse_reads _ _ _ Hl k v Hk Hv) in Hnn. discriminate Hnn.
  - rewrite (response_reads _ _ _ _ k v Hr Hk Hv) in Hnn. discriminate Hnn.
Qed.

(** The technical scorer compares the raw price with the moving averages:
    a price given as text fails there when both averages are numbers. *)
Lemma technical_text_price (features : dict) (s : string) (a b : value) :
  lookup features "current_price" = Some (VStr s) ->
  lookup features "sma_20" = Some a -> is_number a = true ->
  lookup features "sma_50" = Some b -> is_number b = true ->
  ~ returns (_calculate_technical_score_v2 features).
Proof.
  intros Hp Ha Hna Hb Hnb [t Ht].
  unfold _calculate_technical_score_v2, technical_acc, technical_rest in Ht.
  inv_all.
  match goal with
  | E : ma_block _ _ _ = Ok _ |- _ =>
      unfold ma_block, get in E; rewrite Hp, Ha, Hb in E;
      destruct a as [|[]| |], b as [|[]| |]; try discriminate;
      cbn in E; discriminate E
  end.
Qed.

(** A price given as readable text passes the validation of [predict], and
    the prediction then fails in the technical scorer whenever the 20-day
    and 50-day averages are present as numbers. *)
Theorem text_price_with_averages (features : dict) (s : string) (cp : R)
  (a b : value) :
  lookup features "current_price" = Some (VStr s) ->
  float_of_str s = Some cp -> 0 < cp ->
  lookup features "sma_20" = Some a -> is_number a = true ->
  lookup features "sma_50" = Some b -> is_number b = true ->
  predict float_of_str now features
  = Failure (Prediction_error TypeError) version now.
Proof.
  intros Hp Hs Hcp Ha Hna Hb Hnb.
  assert (Hf : float float_of_str (get_or features "current_price" (VNum 0))
               = Ok cp).
  { unfold get_or. rewrite Hp. cbn [float]. now rewrite Hs. }
  destruct (predict_valid_price features cp Hf Hcp)
    as [(l & r & Hl & _) | [_ H]]; [|exact H].
  exfalso. apply (technical_text_price features s a b Hp Ha Hna Hb Hnb).
  destruct (analyse_scores _ _ _ Hl) as (Ht & _).
  exists (technical_score l). exact Ht.
Qed.

(** On a record whose numeric features hold numbers and whose price is
    positive, [predict] succeeds: a missing feature is never an error. *)
Theorem predict_succeeds_on_numbers (features : dict) (cp : R) :
  numeric_features features = true ->
  float float_of_str (get_or features "current_price" (VNum 0)) = Ok cp ->
  0 < cp ->
  exists r, predict float_of_str now features = Success r.
Proof.
  intros Hnum Hf Hcp.
  destruct (predict_numeric float_of_str now features cp Hnum Hf Hcp)
    as (l & r & _ & _ & Hr).
  now exists r.
Qed.

End ErrorKinds.

(* ================================================================= *)
(** ** Signals and top reasons *)

Section SignalFacts.

Lemma consensus_length (is_bullish : bool) (confidence t s : R) :
  (length (consensus_signals is_bullish confidence t s) <= 1)%nat.
Proof.
  unfold consensus_signals. destruct is_bullish; cbn [andb negb];
    repeat match goal with
      | |- context [Rltb ?a ?b] => destruct (Rltb a b)
      end; cbn; lia.
Qed.

Lemma rsi_signals_length (rsi : value) (alerts : list Signal.t) :
  rsi_signals rsi = Ok alerts -> (length alerts <= 1)%nat.
Proof.
  unfold rsi_signals, truthy_and_gt, truthy_and_lt.
  destruct (truthy rsi); cbn [bind].
  - destruct (num rsi) as [x|]; cbn [bind]; [|discriminate].
    cases_R; cbn [bind app]; intros Heq; injection Heq as <-; cbn;
      first [lia | lra].
  - intros Heq. injection Heq as <-. cbn. lia.
Qed.

Lemma volume_signals_length (volume_ratio : R) :
  (length (volume_signals volume_ratio) <= 1)%nat.
Proof.
  unfold volume_signals.
  repeat match goal with
    | |- context [Rltb ?a ?b] => destruct (Rltb a b)
    end; cbn; lia.
Qed.

Lemma news_signals_length (features : dict) (s : R) (news : list Signal.t) :
  news_signals features s = Ok news -> (length news <= 1)%nat.
Proof.
  unfold news_signals, and_then. cbn [bind].
  destruct (num _) as [n|]; cbn [bind];
    repeat match goal with
      | |- context [Rltb ?a ?b] => destruct (Rltb a b); cbn [bind]
      end;
    intros H; try discriminate H; injection H as <-; cbn; lia.
Qed.

(** The parts a returned signal list is made of. *)
Lemma signals_parts (features : dict) (is_bullish : bool)
  (confidence t s c : R) (signals : list Signal.t) :
  _generate_signals_v2 features is_bullish confidence t s c = Ok signals ->
  exists alerts volume_ratio news,
    rsi_signals (get features "rsi") = Ok alerts /\
    num (get_or features "volume_ratio" (VNum 1.0)) = Ok volume_ratio /\
    news_signals features s = Ok news /\
    signals =
      ((consensus_signals is_bullish confidence t s ++ alerts)
       ++ volume_signals volume_ratio) ++ news.
Proof.
  unfold _generate_signals_v2. intros H. inv_bind H. injection H as <-.
  eexists _, _, _. repeat split; try eassumption.
  match goal with |- _ = ?full => change (firstn 5 full = full) end.
  apply firstn_all2. rewrite !length_app.
  match goal with
  | Ha : rsi_signals _ = Ok ?a, Hn : news_signals _ _ = Ok ?n |- _ =>
      pose proof (rsi_signals_length _ _ Ha);
      pose proof (news_signals_length _ _ _ Hn)
  end.
  pose proof (consensus_length is_bullish confidence t s).
  match goal with
  | |- context [volume_signals ?v] => pose proof (volume_signals_length v)
  end.
  lia.
Qed.

(** [_generate_signals_v2] returns at most four signals: at most one
    consensus signal, one RSI alert, one volume alert and one news signal.
    Its final slice to five never drops a signal. *)
Theorem signals_at_most_four (features : dict) (is_bullish : bool)
  (confidence t s c : R) (signals : list Signal.t) :
  _generate_signals_v2 features is_bullish confidence t s c = Ok signals ->
  (length signals <= 4)%nat.
Proof.
  intros H.
  destruct (signals_parts _ _ _ _ _ _ _ H)
    as (alerts & vr & news & Ha & _ & Hn & ->).
  rewrite !length_app.
  pose proof (rsi_signals_length _ _ Ha).
  pose proof (news_signals_length _ _ _ Hn).
  pose proof (consensus_length is_bullish confidence t s).
  pose proof (volume_signals_length vr).
  lia.
Qed.

(** The RSI alerts skip an RSI of exactly 0, which is falsy: it raises no
    alert, although the technical scorer scores it as extremely oversold;
    any other RSI below 20 raises the critical opportunity. *)
Theorem rsi_zero_raises_no_alert :
  rsi_signals (VNum 0) = Ok [] /\
  rsi_contribution 0 = 0.9 /\
  forall x,
    x < 20 -> x <> 0 ->
    rsi_signals (VNum x)
    = Ok [ {| type := OPPORTUNITY; strength := CRITICAL;
              reason := Extreme_oversold x |} ].
Proof.
  split; [|split].
  - unfold rsi_signals, truthy_and_gt, truthy_and_lt. cbn [truthy].
    rewrite (Reqb_true 0 0) by reflexivity. reflexivity.
  - unfold rsi_contribution. now rewrite (Rltb_true 0 25) by lra.
  - intros x Hx Hx0. unfold rsi_signals, truthy_and_gt, truthy_and_lt.
    cbn [truthy]. rewrite (Reqb_false x 0) by exact Hx0.
    cbn [negb num as_num bind].
    rewrite (Rltb_false 80 x), (Rltb_false 75 x), (Rltb_true x 20) by lra.
    reflexivity.
Qed.

End SignalFacts.

Section SignalsOfPredict.

Variables (features : dict) (cp : R) (l : Locals).
Hypothesis Hl : analyse features cp = Ok l.

Lemma returns_truthy_and_gt_rsi (c : R) :
  returns (truthy_and_gt (get features "rsi") c).
Proof.
  unfold truthy_and_gt. destruct (truthy (get features "rsi")) eqn:Ht;
    [|apply returns_Ok].
  apply returns_bind; [|intros ?; apply returns_Ok].
  apply is_number_num, (analyse_reads_rsi _ _ _ Hl).
  destruct (get features "rsi"); [discriminate Ht | | | ]; reflexivity.
Qed.

Lemma returns_truthy_and_lt_rsi (c : R) :
  returns (truthy_and_lt (get features "rsi") c).
Proof.
  unfold truthy_and_lt. destruct (truthy (get features "rsi")) eqn:Ht;
    [|apply returns_Ok].
  apply returns_bind; [|intros ?; apply returns_Ok].
  apply is_number_num, (analyse_reads_rsi _ _ _ Hl).
  destruct (get features "rsi"); [discriminate Ht | | | ]; reflexivity.
Qed.

Lemma returns_num_analysis (k : string) (d : R) :
  In k analysis_keys -> returns (num (get_or features k (VNum d))).
Proof. apply (analyse_returns_num _ _ _ Hl). Qed.

Ltac analysis_key := unfold analysis_keys; cbn [In]; tauto.

Ltac returns_after_analysis :=
  repeat first
    [ apply returns_Ok
    | apply returns_truthy_and_gt_rsi
    | apply returns_truthy_and_lt_rsi
    | apply returns_num_analysis; analysis_key
    | apply returns_bind; [ | intros ? ]
    | apply returns_and_then
    | apply returns_if ].

Lemma signals_return (b : bool) (c t s comp : R) :
  returns (_generate_signals_v2 features b c t s comp).
Proof.
  unfold _generate_signals_v2, rsi_signals, news_signals.
  returns_after_analysis.
Qed.

Lemma top_reasons_return (b : bool) (t s : R) :
  returns (_generate_top_reasons features b t s).
Proof.
  unfold _generate_top_reasons. returns_after_analysis.
Qed.

End SignalsOfPredict.

(** Once the scorers and the target price have returned, building the
    signals and the top reasons of the response raises nothing: they use as
    numbers only features a scorer has used as numbers before. *)
Theorem signals_and_reasons_return (features : dict) (cp : R) (l : Locals) :
  analyse features cp = Ok l ->
  returns (predict_signals features l) /\
  returns (predict_top_reasons features l).
Proof.
  intros Hl. split.
  - apply (signals_return features cp l Hl).
  - apply (top_reasons_return features cp l Hl).
Qed.

(** Case analysis on membership in a short explicit list. *)
Ltac in_cases Hin :=
  cbn [In app] in Hin;
  repeat (destruct Hin as [<- | Hin]; [ | ]);
  try contradiction.

Lemma volume_signals_type (volume_ratio : R) (sg : Signal.t) :
  In sg (volume_signals volume_ratio) -> type sg = ALERT.
Proof.
  unfold volume_signals. intros Hin.
  repeat match type of Hin with
    | context [Rltb ?a ?b] => destruct (Rltb a b)
    end;
  in_cases Hin; reflexivity.
Qed.

Lemma rsi_signals_type (rsi : value) (alerts : list Signal.t)
  (sg : Signal.t) :
  rsi_signals rsi = Ok alerts -> In sg alerts ->
  type sg = WARNING \/ type sg = OPPORTUNITY.
Proof.
  unfold rsi_signals, truthy_and_gt, truthy_and_lt. intros Ha Hin.
  destruct (truthy rsi); cbn [bind] in Ha;
    [ destruct (num rsi) as [x|]; cbn [bind] in Ha; [|discriminate Ha] | ];
    repeat match type of Ha with
      | context [Rltb ?a ?b] => destruct (Rltb a b); cbn [bind] in Ha
      end;
    injection Ha as <-; in_cases Hin; cbn; auto.
Qed.

Lemma news_signals_sell (features : dict) (s : R) (news : list Signal.t)
  (sg : Signal.t) :
  news_signals features s = Ok news -> In sg news -> type sg = SELL ->
  reason sg = Very_negative_news /\ strength sg = STRONG.
Proof.
  unfold news_signals, and_then. cbn [bind]. intros Hn Hin Hty.
  destruct (num _) as [n|]; cbn [bind] in Hn;
    repeat match type of Hn with
      | context [Rltb ?a ?b] => destruct (Rltb a b); cbn [bind] in Hn
      end;
    try discriminate Hn; injection Hn as <-; in_cases Hin;
    first [discriminate Hty | split; reflexivity].
Qed.

Lemma consensus_sell (is_bullish : bool) (confidence t s : R)
  (sg : Signal.t) :
  In sg (consensus_signals is_bullish confidence t s) -> type sg = SELL ->
  is_bullish = false /\ 0.60 < confidence.
Proof.
  unfold consensus_signals. intros Hin Hty.
  destruct is_bullish; cbn [andb negb] in Hin.
  - repeat match type of Hin with
      | context [Rltb ?a ?b] => destruct (Rltb a b)
      end;
    in_cases Hin; discriminate Hty.
  - split; [reflexivity|].
    destruct (Rltb_spec 0.60 confidence) as [H60 | H60]; [exact H60|].
    rewrite (Rltb_false 0.80 confidence), (Rltb_false 0.70 confidence)
      in Hin by lra.
    cbn in Hin. contradiction.
Qed.

(** A bearish prediction has a confidence of 0.56, below every threshold of
    the bearish consensus signals: the only SELL signal [predict] can emit
    is the one on very negative news. *)
Theorem no_bearish_consensus_signal (features : dict) (cp : R) (l : Locals)
  (signals : list Signal.t) (sg : Signal.t) :
  analyse features cp = Ok l ->
  predict_signals features l = Ok signals ->
  In sg signals ->
  type sg = SELL ->
  reason sg = Very_negative_news /\ strength sg = STRONG.
Proof.
  intros Hl Hs Hin Hty. unfold predict_signals in Hs.
  destruct (signals_parts _ _ _ _ _ _ _ Hs)
    as (alerts & vr & news & Ha & _ & Hn & ->).
  rewrite !in_app_iff in Hin. destruct Hin as [[[Hin | Hin] | Hin] | Hin].
  - exfalso. destruct (consensus_sell _ _ _ _ _ Hin Hty) as [Hb Hc].
    destruct (analyse_direction _ _ _ Hl) as (Hbear & Hbull & Hconf & _).
    rewrite Hconf, Hb, Hbear in Hc. rewrite Hbull in Hb.
    destruct (analyse_probability_cases _ _ _ Hl) as [[_ Hp] | (_ & Hp & _)].
    + lra.
    + rewrite (Rltb_true 0.5 (bullish_probability l)) in Hb by lra.
      discriminate Hb.
  - destruct (rsi_signals_type _ _ _ Ha Hin) as [H | H];
      rewrite H in Hty; discriminate Hty.
  - rewrite (volume_signals_type _ _ Hin) in Hty. discriminate Hty.
  - exact (news_signals_sell _ _ _ _ Hn Hin Hty).
Qed.

(* ================================================================= *)
(** ** Calibration: the floor and the dead neutral-zone step *)

Section CalibrationFloor.

Lemma cosh_pos (x : R) : 0 < cosh x.
Proof.
  unfold cosh. pose proof (exp_pos x). pose proof (exp_pos (- x)). lra.
Qed.

Lemma tanh_nonpos (x : R) : x <= 0 -> tanh x <= 0.
Proof.
  intros Hx. unfold tanh.
  assert (Hs : sinh x <= 0).
  { destruct Hx as [Hlt | ->].
    - pose proof (sinh_lt x 0 Hlt) as H. rewrite sinh_0 in H. lra.
    - rewrite sinh_0. lra. }
  pose proof (Rinv_0_lt_compat _ (cosh_pos x)) as Hc.
  unfold Rdiv. nra.
Qed.

Lemma tanh_nonneg (x : R) : 0 <= x -> 0 <= tanh x.
Proof.
  intros Hx. unfold tanh.
  assert (Hs : 0 <= sinh x).
  { destruct Hx as [Hlt | <-].
    - pose proof (sinh_lt 0 x Hlt) as H. rewrite sinh_0 in H. lra.
    - rewrite sinh_0. lra. }
  pose proof (Rinv_0_lt_compat _ (cosh_pos x)) as Hc.
  unfold Rdiv. nra.
Qed.

Lemma calibrate_nonpositive (c : R) (f : dict) (t s p : R) :
  c <= 0 ->
  _calibrate_probability c f (Some t) (Some s) = Ok p ->
  p = 0.55.
Proof.
  intros Hc. unfold _calibrate_probability. cbn [bind]. intros H.
  inv_bind H. injection H as <-.
  pose proof (tanh_nonpos (c * 1.5) ltac:(lra)) as Ht.
  pose proof (Rabs_pos (t * s)) as Habs.
  set (a0 := 0.5 + 0.45 * tanh (c * 1.5)) in *.
  assert (Ha0 : a0 <= 0.5) by (unfold a0; lra).
  set (boost := Rmin (Rabs (t * s) * 0.1) 0.12).
  assert (Hb : 0 <= boost).
  { unfold boost. apply Rmin_glb; lra. }
  unfold clip, min_confidence, max_confidence.
  rewrite (Rltb_false 0.5 a0) by lra.
  match goal with
  | |- Rmin (Rmax ?x 0.55) 0.98 = 0.55 =>
      assert (Hx : x <= 0.5);
      [ | rewrite (Rmax_right x 0.55) by lra; apply Rmin_left; lra ]
  end.
  destruct (_ || _); cases_R; lra.
Qed.

(** For a composite score that is not positive the calibrator returns its
    floor, 0.55: the bearish half of its mapping is cut off by the final
    clamp, whatever the scores passed and the volatility. *)
Theorem calibrate_floor (c : R) (f : dict) (t s p : R) :
  c <= 0 ->
  _calibrate_probability c f (Some t) (Some s) = Ok p ->
  p = 0.55.
Proof. exact (calibrate_nonpositive c f t s p). Qed.

End CalibrationFloor.

Section NeutralZone.

Variables (features : dict) (cp : R) (l : Locals).
Hypothesis Hl : analyse features cp = Ok l.

Lemma analyse_calibrate :
  exists cal,
    _calibrate_probability (composite_score l) features
      (Some (technical_score l)) (Some (sentiment_score l)) = Ok cal /\
    bullish_probability l =
      no_neutral (composite_score l) (technical_score l) (sentiment_score l)
                 (global_score l) (intraday_score l)
                 (hard_override (composite_score l) cal).
Proof.
  unfold analyse in Hl. inv_bind Hl. injection Hl as <-. cbn.
  eexists. split; [eassumption | reflexivity].
Qed.

End NeutralZone.

Lemma analyse_override (features : dict) (cp : R) (l : Locals) :
  analyse features cp = Ok l ->
  exists cal,
    _calibrate_probability (composite_score l) features
      (Some (technical_score l)) (Some (sentiment_score l)) = Ok cal /\
    bullish_probability l = hard_override (composite_score l) cal.
Proof.
  intros Hl. destruct (analyse_calibrate _ _ _ Hl) as (cal & Hcal & Hp).
  exists cal. split; [exact Hcal|]. rewrite Hp.
  pose proof (calibrate_range _ _ _ _ _ Hcal) as Hr.
  destruct (hard_override_cases (composite_score l) cal Hr)
    as [[_ Ho] | (_ & Ho & _)];
    apply no_neutral_outside; lra.
Qed.

(** In [predict] the no-neutral-zone step never changes the probability:
    what reaches it is already 0.44 or at least 0.55, so the returned
    probability is the calibrated one after the hard override, and the
    pushes to 0.58, 0.42 and 0.56 of that step are never taken. *)
Theorem neutral_zone_step_is_dead (features : dict) (cp : R) (l : Locals) :
  analyse features cp = Ok l ->
  exists cal,
    _calibrate_probability (composite_score l) features
      (Some (technical_score l)) (Some (sentiment_score l)) = Ok cal /\
    bullish_probability l = hard_override (composite_score l) cal.
Proof. exact (analyse_override features cp l). Qed.

(** A composite score between -0.1 and 0 gives a bullish prediction: the
    probability is the floor 0.55 of the calibrator, the direction "up". *)
Theorem mildly_negative_composite_is_bullish (features : dict) (cp : R)
  (l : Locals) :
  analyse features cp = Ok l ->
  - 0.1 <= composite_score l <= 0 ->
  bullish_probability l = 0.55 /\ direction l = up /\ confidence l = 0.55.
Proof.
  intros Hl [Hlo Hhi].
  destruct (analyse_override features cp l Hl)
    as (cal & Hcal & Hp).
  apply calibrate_nonpositive in Hcal; [|exact Hhi]. subst cal.
  assert (Hb : bullish_probability l = 0.55).
  { rewrite Hp. unfold hard_override.
    rewrite (Rltb_false (composite_score l) (- 0.1)) by lra.
    now rewrite (Rltb_false 0.1 (composite_score l)) by lra. }
  destruct (analyse_direction _ _ _ Hl) as (_ & Hbull & Hconf & Hd).
  rewrite Hb in Hbull. rewrite (Rltb_true 0.5 0.55) in Hbull by lra.
  rewrite Hd, Hconf, Hbull. auto.
Qed.

(* ================================================================= *)
(** ** Ranges of a successful analysis *)

Section Ranges.

Lemma composite_range (t s g v f i : R) :
  -1 <= t <= 1 -> -1 <= s <= 1 -> -1 <= g <= 1 -> -1 <= v <= 1 ->
  -1 <= f <= 1 -> -1 <= i <= 1 ->
  -1 <= composite t s g v f i <= 1.
Proof.
  intros. unfold composite, weights. cbn. lra.
Qed.

Lemma py_round_3 (z : Z) : py_round (IZR z / 1000) 3 = IZR z / 1000.
Proof. exact (py_round_grid z 3). Qed.

Lemma py_round3_ge (x : R) (z : Z) :
  IZR z / 1000 <= x -> IZR z / 1000 <= py_round x 3.
Proof.
  intros H. rewrite <- (py_round_3 z). now apply py_round_mono.
Qed.

Lemma py_round3_le (x : R) (z : Z) :
  x <= IZR z / 1000 -> py_round x 3 <= IZR z / 1000.
Proof.
  intros H. rewrite <- (py_round_3 z). now apply py_round_mono.
Qed.

Lemma py_round3_unit (x : R) : -1 <= x <= 1 -> -1 <= py_round x 3 <= 1.
Proof.
  intros [H1 H2].
  pose proof (py_round3_ge x (-1000) ltac:(lra)).
  pose proof (py_round3_le x 1000 ltac:(lra)). lra.
Qed.

Variables (features : dict) (cp : R) (l : Locals).
Hypothesis Hl : analyse features cp = Ok l.

Lemma analyse_score_ranges :
  -1 <= technical_score l <= 1 /\ -1 <= sentiment_score l <= 1 /\
  -1 <= global_score l <= 1 /\ -1 <= volume_score l <= 1 /\
  -1 <= fundamental_score l <= 1 /\ -1 <= intraday_score l <= 1.
Proof.
  destruct (analyse_scores _ _ _ Hl)
    as (Ht & (s & pc & Hs & _ & Hs') & Hg & Hv & Hf & Hi & _).
  apply technical_range in Ht. apply sentiment_range in Hs.
  apply global_range in Hg. apply volume_range in Hv.
  apply fundamental_range in Hf. apply intraday_range in Hi.
  repeat split; try lra.
  all: rewrite Hs'; repeat destruct (_ && _); lra.
Qed.

Lemma analyse_composite_range : -1 <= composite_score l <= 1.
Proof.
  destruct (analyse_scores _ _ _ Hl) as (_ & _ & _ & _ & _ & _ & _ & _ & _ & _
                                          & ->).
  destruct analyse_score_ranges as (? & ? & ? & ? & ? & ?).
  now apply composite_range.
Qed.

Lemma analyse_confidence_range : 0.55 <= confidence l <= 0.98.
Proof.
  destruct (analyse_direction _ _ _ Hl) as (Hbear & Hbull & -> & _).
  rewrite Hbull, Hbear.
  destruct (analyse_probability_cases _ _ _ Hl) as [[_ Hp] | (_ & Hp & _)].
  - rewrite Hp. rewrite (Rltb_false 0.5 0.44) by lra. lra.
  - rewrite (Rltb_true 0.5 (bullish_probability l)) by lra. lra.
Qed.

End Ranges.

(** The six weights sum to 1, and on a successful prediction the six scores
    that enter the composite (the sentiment score after its halving) and the
    composite score itself lie between -1 and 1, also as returned under
    ['scores'], rounded to three decimals. *)
Theorem composite_between_minus_one_and_one
  (float_of_str : string -> option R) (now : string) (features : dict)
  (r : Response.t) :
  predict float_of_str now features = Success r ->
  w_technical weights + w_sentiment weights + w_global_markets weights +
  w_volume weights + w_fundamentals weights + w_intraday weights = 1 /\
  -1 <= Scores.technical (Response.scores r) <= 1 /\
  -1 <= Scores.sentiment (Response.scores r) <= 1 /\
  -1 <= Scores.global_markets (Response.scores r) <= 1 /\
  -1 <= Scores.volume (Response.scores r) <= 1 /\
  -1 <= Scores.fundamentals (Response.scores r) <= 1 /\
  -1 <= Scores.intraday (Response.scores r) <= 1 /\
  -1 <= Scores.composite (Response.scores r) <= 1 /\
  exists cp l,
    analyse features cp = Ok l /\ -1 <= composite_score l <= 1.
Proof.
  intros H. destruct (predict_success _ _ _ _ H) as (cp & l & _ & _ & Hl & Hr).
  split; [unfold weights; cbn; lra|].
  pose proof (analyse_composite_range _ _ _ Hl) as Hc.
  destruct (analyse_score_ranges _ _ _ Hl) as (Ht & Hs & Hg & Hv & Hf & Hi).
  unfold response in Hr. inv_bind Hr. injection Hr as <-. cbn.
  repeat (split; [now apply py_round3_unit|]).
  exists cp, l. split; [exact Hl | exact Hc].
Qed.

(** On a successful prediction the confidence lies between 0.55 and 0.98,
    before and after rounding; for a bearish prediction it is 0.56. *)
Theorem confidence_between_floor_and_ceiling
  (float_of_str : string -> option R) (now : string) (features : dict)
  (r : Response.t) :
  predict float_of_str now features = Success r ->
  0.55 <= Prediction.confidence (Response.prediction r) <= 0.98 /\
  Prediction.probability (Response.prediction r)
  = Prediction.confidence (Response.prediction r) /\
  exists cp l,
    analyse features cp = Ok l /\ 0.55 <= confidence l <= 0.98.
Proof.
  intros H. destruct (predict_success _ _ _ _ H) as (cp & l & _ & _ & Hl & Hr).
  rewrite (response_prediction _ _ _ _ Hr). cbn.
  pose proof (analyse_confidence_range _ _ _ Hl) as Hc.
  split; [now apply py_round4_range|]. split; [reflexivity|].
  exists cp, l. split; [exact Hl | exact Hc].
Qed.

(** The sentiment score that enters the composite is at most 0.5 after a
    decline of more than 2% and at least -0.5 after a rise of more than 2%:
    a sentiment that contradicts the price by more than 0.2 is halved. *)
Theorem sentiment_is_dampened (features : dict) (cp : R) (l : Locals)
  (price_change : R) :
  analyse features cp = Ok l ->
  num (get_or features "price_change_1d" (VNum 0)) = Ok price_change ->
  (price_change < - 2 -> sentiment_score l <= 0.5) /\
  (2 < price_change -> - 0.5 <= sentiment_score l).
Proof.
  intros Hl Hpc.
  destruct (analyse_scores _ _ _ Hl) as (_ & (s & pc & Hs & Hpc' & ->) & _).
  rewrite Hpc in Hpc'. injection Hpc' as <-.
  apply sentiment_range in Hs.
  split; intros Hc.
  - rewrite (Rltb_true price_change (- 2.0)) by lra.
    rewrite (Rltb_false 2.0 price_change) by lra. cbn [andb].
    destruct (Rltb_spec 0.2 s); lra.
  - rewrite (Rltb_false price_change (- 2.0)) by lra.
    rewrite (Rltb_true 2.0 price_change) by lra. cbn [andb].
    destruct (Rltb_spec s (- 0.2)); lra.
Qed.

(** Case analysis on every minimum, maximum and absolute value of the goal,
    innermost first. *)
Ltac innermost a :=
  lazymatch a with
  | context [Rle_dec _ _] => fail
  | context [Rcase_abs _] => fail
  | _ => idtac
  end.

Ltac cases_real :=
  unfold clip, Rmin, Rmax, Rabs;
  repeat match goal with
    | |- context [Rle_dec ?a ?b] =>
        innermost a; innermost b; destruct (Rle_dec a b)
    | |- context [Rcase_abs ?a] => innermost a; destruct (Rcase_abs a)
    end.

(* ================================================================= *)
(** ** The target price: the momentum floor *)

Section TargetMomentum.

(** The projected move is at least 80% of a same-direction move of the day
    of more than 1%, up to the cap of 10. *)
Theorem target_follows_momentum (cp conf : R) (bull : bool) (f : dict)
  (t s : R) (price change price_change_1d : R) :
  _calculate_target_price_v2 cp conf bull f t s = Ok (price, change) ->
  num (get_or f "price_change_1d" (VNum 0)) = Ok price_change_1d ->
  (bull = true -> 1 < price_change_1d ->
   Rmin (price_change_1d * 0.8) 10 <= change) /\
  (bull = false -> price_change_1d < - 1 ->
   change <= - Rmin (Rabs price_change_1d * 0.8) 10).
Proof.
  unfold _calculate_target_price_v2. intros H Hpc. inv_bind H.
  injection Hpc as ->. injection H as _ <-.
  split; intros -> Hmove; cbn [andb negb].
  - rewrite (Rltb_true 1.0 price_change_1d) by lra.
    apply clip_ge; [eapply Rle_trans; [apply Rmin_r | lra]|].
    eapply Rle_trans; [apply Rmin_l | apply Rmax_r].
  - rewrite (Rltb_true price_change_1d (- 1.0)) by lra.
    apply Ropp_le_contravar.
    apply clip_ge; [eapply Rle_trans; [apply Rmin_r | lra]|].
    eapply Rle_trans; [apply Rmin_l | apply Rmax_r].
Qed.

End TargetMomentum.

(* ================================================================= *)
(** ** The local impact percentage *)

Section LocalImpact.

(** The local impact depends only on the magnitude of the local score, not
    on its sign nor on the factors; for a score between -1 and 1 it lies
    between 1 and 8, and it is 1 only for a score of 0. *)
Theorem local_impact_even_and_bounded (s : R) (fa fa' : Factors) :
  _calculate_local_impact_percent (- s) fa
  = _calculate_local_impact_percent s fa' /\
  (-1 <= s <= 1 ->
   1 <= _calculate_local_impact_percent s fa <= 8 /\
   (_calculate_local_impact_percent s fa = 1 <-> s = 0)).
Proof.
  unfold _calculate_local_impact_percent. split.
  - cases_R; try lra; cases_real; lra.
  - intros Hs. cases_R; try lra; cases_real; lra.
Qed.

(** The tiers of the local impact overlap: a weak score between 0.2 and 0.3
    has a larger impact than a moderate score just above 0.3, so the impact
    does not grow with the score. *)
Theorem local_impact_tiers_overlap (s1 s2 : R) (fa : Factors) :
  0.2 < s1 <= 0.3 -> 0.3 < s2 < s1 + 0.1 ->
  _calculate_local_impact_percent s2 fa
  < _calculate_local_impact_percent s1 fa.
Proof.
  intros H1 H2. unfold _calculate_local_impact_percent, clip.
  rewrite (Rltb_false 0.5 s1), (Rltb_false 0.3 s1), (Rltb_true 0 s1) by lra.
  rewrite (Rltb_false 0.5 s2), (Rltb_true 0.3 s2) by lra.
  cases_real; lra.
Qed.

End LocalImpact.

(* ================================================================= *)
(** ** Region scores under a categorical sentiment *)

(** Inversion of a region scorer whose branch is known. *)
Ltac region_inv :=
  inv_all;
  repeat match goal with
    | E : Ok (_, _) = Ok (_, _) |- _ => injection E as <- <-
    end.

Lemma negative_not_positive (v : value) :
  eq_str v "negative" = true -> eq_str v "positive" = false.
Proof.
  destruct v as [| | |t]; cbn; try discriminate.
  intros H. apply String.eqb_eq in H. now subst.
Qed.

Section RegionSentiment.

Variable features : dict.

(** A categorical Asian sentiment decides the sign of the Asian score: with
    "positive" the score is between 0.4 and 1 and the impact between 2.5 and
    5; with "negative" the score is between -1 and -0.4 and the impact
    between 1.5 and 4, whatever the percentage change says. *)
Theorem asian_sentiment_decides (s i : R) :
  _calculate_asian_market_score_with_impact features = Ok (s, i) ->
  let sentiment :=
    get_or features "asian_market_sentiment" (VStr "neutral") in
  (eq_str sentiment "positive" = true ->
   0.4 <= s <= 1 /\ 2.5 <= i <= 5) /\
  (eq_str sentiment "negative" = true ->
   -1 <= s <= - 0.4 /\ 1.5 <= i <= 4).
Proof.
  unfold _calculate_asian_market_score_with_impact. intros H. cbv zeta.
  split; intros Hs.
  - rewrite Hs in H. region_inv.
    split; cases_real; lra.
  - rewrite (negative_not_positive _ Hs) in H.
    rewrite Hs in H. region_inv.
    split; cases_real; lra.
Qed.

(** The same for the European score: with "positive" the score is between
    0.45 and 1 and the impact between 3.5 and 8; with "negative" the score
    is between -1 and -0.45 and the impact between 2.5 and 7. *)
Theorem european_sentiment_decides (s i : R) :
  _calculate_european_market_score_with_impact features = Ok (s, i) ->
  let sentiment :=
    get_or features "european_market_sentiment" (VStr "neutral") in
  (eq_str sentiment "positive" = true ->
   0.45 <= s <= 1 /\ 3.5 <= i <= 8) /\
  (eq_str sentiment "negative" = true ->
   -1 <= s <= - 0.45 /\ 2.5 <= i <= 7).
Proof.
  unfold _calculate_european_market_score_with_impact. intros H. cbv zeta.
  split; intros Hs.
  - rewrite Hs in H. region_inv.
    split; cases_real; lra.
  - rewrite (negative_not_positive _ Hs) in H.
    rewrite Hs in H. region_inv.
    split; cases_real; lra.
Qed.

End RegionSentiment.

(* ================================================================= *)
(** ** The volume score: its actual range *)

(** The volume score lies between -0.85 and 0.9: the ladder gives at most
    0.8 in magnitude and the trend adds 0.1 or takes 0.05, so the final
    clamp to [-1, 1] never changes it. *)
Theorem volume_score_range (features : dict) (s : R) :
  _calculate_volume_score_v2 features = Ok s -> - 0.85 <= s <= 0.9.
Proof.
  unfold _calculate_volume_score_v2, volume_floored. intros H. inv_bind H.
  injection H as <-.
  match goal with
  | |- context [tanh (?x / 2)] => pose proof (tanh_bounds (x / 2));
                                   pose proof (tanh_bounds (x / 3))
  end.
  destruct (eq_str _ "up"); [|destruct (eq_str _ "down")];
    cases_R; cases_real; lra.
Qed.

(* ================================================================= *)
(** ** The ladders of the technical scorer *)

(** The RSI ladder is antisymmetric about 50 and the Bollinger ladder about
    0.5: mirrored readings give opposite contributions.  The MACD ladder is
    antisymmetric about 0 except at 0 itself, where a histogram of exactly
    zero counts as bearish (-0.25). *)
Theorem technical_ladders_antisymmetric :
  (forall rsi, rsi_contribution (100 - rsi) = - rsi_contribution rsi) /\
  (forall p, bollinger_contribution (1 - p) = - bollinger_contribution p) /\
  (forall h, h <> 0 -> macd_contribution (- h) = - macd_contribution h) /\
  macd_contribution 0 = - 0.25.
Proof.
  unfold rsi_contribution, bollinger_contribution, macd_contribution.
  repeat split; intros; cases_R; lra.
Qed.

(* ================================================================= *)
(** ** The global market score: the Asian session dominates *)

Section GlobalScore.

Lemma market_term_bound (sentiment change : value) (fixed scale x : R) :
  0 <= scale <= fixed ->
  market_term sentiment change fixed scale = Ok x ->
  - fixed <= x <= fixed.
Proof.
  intros Hs. unfold market_term.
  destruct (eq_str sentiment "positive");
    [intros H; injection H as <-; lra|].
  destruct (eq_str sentiment "negative");
    [intros H; injection H as <-; lra|].
  destruct (num change) as [c|]; cbn [bind]; [|discriminate].
  pose proof (tanh_bounds c) as Ht.
  destruct (Rabs c >? 0.5); intros H; injection H as <-; nra.
Qed.

(** A "positive" Asian sentiment makes the global score at least 0.25,
    whatever the European session and the futures say; a "negative" one
    makes it at most -0.05 as long as the Asian strength stays within its
    scale (at most 1). *)
Theorem asian_session_dominates (features : dict) (strength g : R) :
  _calculate_global_market_score_v2 features = Ok g ->
  num (get_or features "asian_market_strength" (VNum 0)) = Ok strength ->
  let sentiment :=
    get_or features "asian_market_sentiment" (VStr "neutral") in
  (eq_str sentiment "positive" = true -> 0.25 <= g) /\
  (eq_str sentiment "negative" = true -> strength <= 1 -> g <= - 0.05).
Proof.
  unfold _calculate_global_market_score_v2. intros H Hst. cbv zeta.
  rewrite Hst in H. inv_bind H. injection H as <-.
  match goal with
  | Ha : market_term _ _ 0.65 0.6 = Ok ?a,
    He : market_term _ (get_or _ "european_market_change" _) 0.2 0.15
         = Ok ?e,
    Hf : market_term _ (get_or _ "futures_change" _) 0.2 0.15 = Ok ?f |- _ =>
      pose proof (market_term_bound _ _ 0.2 0.15 _ ltac:(lra) He);
      pose proof (market_term_bound _ _ 0.2 0.15 _ ltac:(lra) Hf);
      unfold market_term in Ha; rename Ha into Hasian
  end.
  split.
  - intros Hs. rewrite Hs in Hasian. injection Hasian as <-.
    cases_R; cases_real; lra.
  - intros Hs Hle. rewrite (negative_not_positive _ Hs), Hs in Hasian.
    injection Hasian as <-.
    cases_R; cases_real; lra.
Qed.

End GlobalScore.

(* ================================================================= *)
(** ** Keys the engine does not read *)

Ltac engine_key :=
  unfold engine_keys, numeric_keys, categorical_keys, flag_keys;
  cbn [In app]; repeat first [ left; reflexivity | right ].

Section Agree.

Variables f1 f2 : dict.
Hypothesis Hagree : agree_on_engine_keys f1 f2.

(** Every lookup of a literal key of the engine gives the same on both
    records. *)
Ltac agree :=
  unfold get, get_or;
  repeat match goal with
    | |- context [lookup f1 ?k] => rewrite (Hagree k) by engine_key
    end;
  reflexivity.

Lemma technical_agree :
  _calculate_technical_score_v2 f1 = _calculate_technical_score_v2 f2.
Proof.
  unfold _calculate_technical_score_v2, technical_acc, technical_rest,
    rsi_block, macd_block, ma_block, bollinger_block, momentum_block,
    support_resistance.
  agree.
Qed.

Lemma sentiment_agree :
  _calculate_sentiment_score_v2 f1 = _calculate_sentiment_score_v2 f2.
Proof. unfold _calculate_sentiment_score_v2, sentiment_acc. agree. Qed.

Lemma global_agree :
  _calculate_global_market_score_v2 f1 = _calculate_global_market_score_v2 f2.
Proof. unfold _calculate_global_market_score_v2. agree. Qed.

Lemma asian_agree :
  _calculate_asian_market_score_with_impact f1
  = _calculate_asian_market_score_with_impact f2.
Proof. unfold _calculate_asian_market_score_with_impact. agree. Qed.

Lemma european_agree :
  _calculate_european_market_score_with_impact f1
  = _calculate_european_market_score_with_impact f2.
Proof. unfold _calculate_european_market_score_with_impact. agree. Qed.

Lemma local_agree :
  _calculate_local_us_factors f1 = _calculate_local_us_factors f2.
Proof. unfold _calculate_local_us_factors. agree. Qed.

Lemma volume_agree :
  _calculate_volume_score_v2 f1 = _calculate_volume_score_v2 f2.
Proof. unfold _calculate_volume_score_v2. agree. Qed.

Lemma fundamental_agree :
  _calculate_fundamental_score_v2 f1 = _calculate_fundamental_score_v2 f2.
Proof. unfold _calculate_fundamental_score_v2, fundamental_acc. agree. Qed.

Lemma intraday_agree :
  _calculate_intraday_score f1 = _calculate_intraday_score f2.
Proof. unfold _calculate_intraday_score, intraday_acc. agree. Qed.

Lemma calibrate_agree (c : R) (ot os : option R) :
  _calibrate_probability c f1 ot os = _calibrate_probability c f2 ot os.
Proof.
  unfold _calibrate_probability.
  rewrite technical_agree, sentiment_agree. agree.
Qed.

Lemma target_agree (cp conf : R) (bull : bool) (t s : R) :
  _calculate_target_price_v2 cp conf bull f1 t s
  = _calculate_target_price_v2 cp conf bull f2 t s.
Proof. unfold _calculate_target_price_v2. agree. Qed.

Lemma analyse_agree (cp : R) : analyse f1 cp = analyse f2 cp.
Proof.
  unfold analyse.
  rewrite technical_agree, sentiment_agree, global_agree, volume_agree,
    fundamental_agree, intraday_agree, asian_agree, european_agree,
    local_agree.
  unfold get_or. rewrite (Hagree "price_change_1d") by engine_key.
  repeat first
    [ reflexivity
    | rewrite calibrate_agree
    | rewrite target_agree
    | match goal with
      | |- bind ?c _ = bind ?c _ =>
          destruct c as [?|]; cbn [bind]; [ | reflexivity ]
      | |- (let '(_, _) := ?p in _) = _ => destruct p
      end ].
Qed.

Lemma response_agree (now : string) (l : Locals) :
  response now f1 l = response now f2 l.
Proof. unfold response. agree. Qed.

Lemma signals_agree (b : bool) (c t s comp : R) :
  _generate_signals_v2 f1 b c t s comp = _generate_signals_v2 f2 b c t s comp.
Proof. unfold _generate_signals_v2, news_signals. agree. Qed.

Lemma top_reasons_agree (b : bool) (t s : R) :
  _generate_top_reasons f1 b t s = _generate_top_reasons f2 b t s.
Proof. unfold _generate_top_reasons. agree. Qed.

Lemma predict_agree (float_of_str : string -> option R) (now : string) :
  predict float_of_str now f1 = predict float_of_str now f2.
Proof.
  unfold predict, predict_try, get_or.
  rewrite (Hagree "current_price") by engine_key.
  destruct (float float_of_str _) as [cp|]; cbn [bind]; [|reflexivity].
  destruct (cp <=? 0); [reflexivity|].
  rewrite analyse_agree.
  destruct (analyse f2 cp) as [l|]; cbn [bind]; [|reflexivity].
  now rewrite response_agree.
Qed.

End Agree.

(** Keys the engine does not know are ignored: two records that agree on
    the keys it reads get the same result from [predict], and the same
    signals and top reasons. *)
Theorem unknown_keys_are_ignored (float_of_str : string -> option R)
  (now : string) (f1 f2 : dict) :
  agree_on_engine_keys f1 f2 ->
  predict float_of_str now f1 = predict float_of_str now f2 /\
  (forall l, predict_signals f1 l = predict_signals f2 l) /\
  (forall l, predict_top_reasons f1 l = predict_top_reasons f2 l).
Proof.
  intros H. split; [now apply predict_agree|].
  split; intros l.
  - now apply signals_agree.
  - now apply top_reasons_agree.
Qed.

(* ================================================================= *)
(** ** News keywords *)

Section Keywords.

Variable lower : string -> string.

Lemma bullish_weight (k : string) (w : R) :
  first_match bullish_keywords k = Some w -> 1.2 <= w <= 2.
Proof.
  unfold first_match, bullish_keywords.
  repeat destruct (contains _ k); intros H; try discriminate H;
    injection H as <-; lra.
Qed.

Lemma bearish_weight (k : string) (w : R) :
  first_match bearish_keywords k = Some w -> - 2 <= w <= - 1.2.
Proof.
  unfold first_match, bearish_keywords.
  repeat destruct (contains _ k); intros H; try discriminate H;
    injection H as <-; lra.
Qed.

Lemma match_bullish_within (k : string) (acc : R * Z) :
  within_matches acc -> within_matches (match_table bullish_keywords k acc).
Proof.
  destruct acc as [score m]. unfold within_matches, match_table.
  cbn [fst snd]. intros [Hm Hs].
  destruct (first_match bullish_keywords k) as [w|] eqn:Hw; cbn [fst snd];
    [|auto].
  apply bullish_weight in Hw. rewrite plus_IZR. split; [lia | lra].
Qed.

Lemma match_bearish_within (k : string) (acc : R * Z) :
  within_matches acc -> within_matches (match_table bearish_keywords k acc).
Proof.
  destruct acc as [score m]. unfold within_matches, match_table.
  cbn [fst snd]. intros [Hm Hs].
  destruct (first_match bearish_keywords k) as [w|] eqn:Hw; cbn [fst snd];
    [|auto].
  apply bearish_weight in Hw. rewrite plus_IZR. split; [lia | lra].
Qed.

Lemma keywords_loop_within (keywords : list string) (acc : R * Z) :
  within_matches acc -> within_matches (keywords_loop lower keywords acc).
Proof.
  revert acc. induction keywords as [|k ks IH]; intros acc Hacc; cbn.
  - exact Hacc.
  - apply IH, match_bearish_within, match_bullish_within, Hacc.
Qed.

Lemma keywords_loop_unmatched (keywords : list string) (acc : R * Z) :
  (forall k, In k keywords ->
     first_match bullish_keywords (lower k) = None /\
     first_match bearish_keywords (lower k) = None) ->
  keywords_loop lower keywords acc = acc.
Proof.
  revert acc. induction keywords as [|k ks IH]; intros acc H; cbn.
  - reflexivity.
  - destruct (H k (or_introl eq_refl)) as [Hb Hr].
    destruct acc as [score m]. unfold match_table. rewrite Hb, Hr.
    apply IH. intros k' Hk'. apply H. now right.
Qed.

(** [_analyze_news_keywords] returns a value between -0.2 and 0.2, so its
    clamp to [-1, 1] never applies: every match adds a weight of magnitude
    at most 2 times 0.1 and the sum is divided by the number of matches.
    When no keyword matches a table entry the result is 0. *)
Theorem news_keywords_within_fifth (keywords : list string) :
  - 0.2 <= _analyze_news_keywords lower keywords <= 0.2 /\
  ((forall k, In k keywords ->
      first_match bullish_keywords (lower k) = None /\
      first_match bearish_keywords (lower k) = None) ->
   _analyze_news_keywords lower keywords = 0).
Proof.
  unfold _analyze_news_keywords.
  destruct keywords as [|k ks]; [split; [lra | intros _; lra]|].
  split.
  - pose proof (keywords_loop_within (k :: ks) (0.0, 0%Z)) as H.
    destruct (keywords_loop lower (k :: ks) (0.0, 0%Z)) as [score m].
    destruct H as [Hm Hs];
      [unfold within_matches; cbn [fst snd]; split; [lia|lra]|].
    cbn [fst snd] in Hm, Hs.
    destruct (Z.gtb_spec m 0) as [Hpos | Hzero].
    + rewrite Z.max_l by lia.
      assert (HM : 1 <= IZR m) by (apply IZR_le; lia).
      pose proof (Rinv_0_lt_compat (IZR m) ltac:(lra)) as Hinv.
      pose proof (Rinv_r (IZR m) ltac:(lra)) as Hone.
      assert (Hq : - 0.2 <= score / IZR m <= 0.2).
      { unfold Rdiv. split; nra. }
      rewrite clip_id; lra.
    + rewrite clip_id; lra.
  - intros H. rewrite keywords_loop_unmatched by exact H.
    cbn. rewrite clip_id; lra.
Qed.

End Keywords.

(* ================================================================= *)
(** ** The further theorems at example records *)

(** Evaluation of a scorer on a record without hyperbolic tangents. *)
Ltac scorer_eval :=
  unfold _calculate_technical_score_v2, technical_acc, technical_rest,
    rsi_block, macd_block, ma_block, bollinger_block, momentum_block,
    support_resistance, _calculate_sentiment_score_v2, sentiment_acc,
    _calculate_global_market_score_v2, market_term,
    _calculate_volume_score_v2, volume_floored,
    _calculate_fundamental_score_v2, fundamental_acc,
    _calculate_intraday_score, intraday_acc;
  py_eval; unfold normalize; cbn [Z.gtb Z.compare Z.eqb Z.add Z.max Pos.add
                                  Pos.compare Pos.compare_cont Pos.succ];
  f_equal; unfold clip; R_decide; lra.

Section MildRecord.

Lemma mild_technical : _calculate_technical_score_v2 features_mild = Ok 0.
Proof. unfold features_mild. scorer_eval. Qed.

Lemma mild_sentiment : _calculate_sentiment_score_v2 features_mild = Ok 0.
Proof. unfold features_mild. scorer_eval. Qed.

Lemma mild_global :
  _calculate_global_market_score_v2 features_mild = Ok (- 0.2).
Proof. unfold features_mild. scorer_eval. Qed.

Lemma mild_volume : _calculate_volume_score_v2 features_mild = Ok 0.
Proof. unfold features_mild. scorer_eval. Qed.

Lemma mild_fundamental :
  _calculate_fundamental_score_v2 features_mild = Ok 0.
Proof. unfold features_mild. scorer_eval. Qed.

Lemma mild_intraday : _calculate_intraday_score features_mild = Ok 0.
Proof. unfold features_mild. scorer_eval. Qed.

Lemma mild_composite (l : Locals) :
  analyse features_mild 100 = Ok l -> composite_score l = - 0.03.
Proof.
  intros Hl.
  destruct (analyse_scores _ _ _ Hl)
    as (Ht & (s & pc & Hs & Hpc & Hs') & Hg & Hv & Hf & Hi & _ & _ & _ & _
        & Hc).
  rewrite mild_technical in Ht. injection Ht as Ht.
  rewrite mild_sentiment in Hs. injection Hs as <-.
  rewrite mild_global in Hg. injection Hg as Hg.
  rewrite mild_volume in Hv. injection Hv as Hv.
  rewrite mild_fundamental in Hf. injection Hf as Hf.
  rewrite mild_intraday in Hi. injection Hi as Hi.
  cbn in Hpc. injection Hpc as <-.
  rewrite (Rltb_false 0 (- 2.0)) in Hs' by lra.
  rewrite (Rltb_false 2.0 0) in Hs' by lra. cbn [andb] in Hs'.
  rewrite Hc, Hs', <- Ht, <- Hg, <- Hv, <- Hf, <- Hi.
  unfold composite, weights. cbn. lra.
Qed.

End MildRecord.

Section BadNewsRecord.

Lemma bad_news_sentiment :
  _calculate_sentiment_score_v2 features_bad_news = Ok (- 1).
Proof. unfold features_bad_news. scorer_eval. Qed.

Lemma bad_news_sentiment_score (l : Locals) :
  analyse features_bad_news 100 = Ok l -> sentiment_score l = - 1.
Proof.
  intros Hl.
  destruct (analyse_scores _ _ _ Hl) as (_ & (s & pc & Hs & Hpc & ->) & _).
  rewrite bad_news_sentiment in Hs. injection Hs as <-.
  cbn in Hpc. injection Hpc as <-.
  rewrite (Rltb_false 0 (- 2.0)), (Rltb_false 2.0 0) by lra. reflexivity.
Qed.

Lemma bad_news_signal :
  news_signals features_bad_news (- 1) = Ok [ negative_news_signal ].
Proof.
  unfold news_signals, features_bad_news. py_eval. reflexivity.
Qed.

End BadNewsRecord.

(** A [null] RSI beside a valid price: the prediction fails. *)
Lemma non_number_witness :
  predict (fun _ => None) "2025-10-15T09:30:00" features_null_rsi
  = Failure (Prediction_error TypeError) version "2025-10-15T09:30:00".
Proof.
  apply (non_number_is_prediction_error _ _ features_null_rsi 100 "rsi" VNone);
    [ reflexivity | lra
    | unfold analysis_keys; cbn [In app]; tauto
    | reflexivity | reflexivity ].
Defined.

(** The price "100" as text, with both averages: the prediction fails. *)
Lemma text_price_witness :
  predict (fun _ => Some 100) "2025-10-15T09:30:00" features_text_price
  = Failure (Prediction_error TypeError) version "2025-10-15T09:30:00".
Proof.
  apply (text_price_with_averages _ _ features_text_price "100" 100
           (VNum 98) (VNum 95));
    first [ reflexivity | lra ].
Defined.

(** The record that holds only a price is predicted. *)
Lemma predict_succeeds_witness :
  exists r,
    predict (fun _ => None) "2025-10-15T09:30:00" features_minimal
    = Success r.
Proof.
  apply (predict_succeeds_on_numbers _ _ features_minimal 100);
    [ reflexivity | reflexivity | lra ].
Defined.

(** A bullish consensus alone gives one signal. *)
Lemma signals_at_most_four_witness :
  exists signals,
    _generate_signals_v2 features_minimal true 0.9 0.7 0.5 0.4 = Ok signals
    /\ (length signals <= 4)%nat.
Proof.
  assert (H : _generate_signals_v2 features_minimal true 0.9 0.7 0.5 0.4
              = Ok [ {| type := BUY; strength := VERY_STRONG;
                        reason := Excellent_bullish_alignment |} ]).
  { unfold _generate_signals_v2, consensus_signals, rsi_signals,
      truthy_and_gt, truthy_and_lt, volume_signals, news_signals,
      features_minimal.
    py_eval. reflexivity. }
  eexists. split; [exact H|].
  exact (signals_at_most_four _ _ _ _ _ _ _ H).
Defined.

(** An RSI of 15 raises the critical opportunity; an RSI of 0 does not. *)
Lemma rsi_zero_witness :
  rsi_signals (VNum 0) = Ok [] /\
  rsi_signals (VNum 15)
  = Ok [ {| type := OPPORTUNITY; strength := CRITICAL;
            reason := Extreme_oversold 15 |} ].
Proof.
  destruct rsi_zero_raises_no_alert as (H0 & _ & H).
  split; [exact H0|]. apply H; lra.
Defined.

(** Signals and reasons of the record that holds only a price. *)
Lemma signals_and_reasons_witness :
  exists l,
    analyse features_minimal 100 = Ok l /\
    returns (predict_signals features_minimal l) /\
    returns (predict_top_reasons features_minimal l).
Proof.
  destruct (minimal_succeeds (fun _ => None) "2025-10-15T09:30:00")
    as (l & r & Hl & _).
  exists l. split; [exact Hl|].
  exact (signals_and_reasons_return _ _ _ Hl).
Defined.

(** On the record with very negative news the SELL signal is the one on
    the news. *)
Lemma no_bearish_consensus_witness :
  exists l signals,
    analyse features_bad_news 100 = Ok l /\
    predict_signals features_bad_news l = Ok signals /\
    In negative_news_signal signals /\
    reason negative_news_signal = Very_negative_news.
Proof.
  destruct (returns_analyse features_bad_news eq_refl 100) as [l Hl].
  destruct (signals_return features_bad_news 100 l Hl (is_bullish l)
              (confidence l) (technical_score l) (sentiment_score l)
              (composite_score l)) as [signals Hs].
  assert (Hin : In negative_news_signal signals).
  { destruct (signals_parts _ _ _ _ _ _ _ Hs)
      as (alerts & vr & news & _ & _ & Hn & ->).
    rewrite (bad_news_sentiment_score l Hl), bad_news_signal in Hn.
    injection Hn as <-. apply in_or_app. right. now left. }
  exists l, signals. split; [exact Hl|]. split; [exact Hs|].
  split; [exact Hin|].
  exact (proj1 (no_bearish_consensus_signal features_bad_news 100 l signals
                  negative_news_signal Hl Hs Hin eq_refl)).
Defined.

(** The calibrator at a composite score of -0.5. *)
Lemma calibrate_floor_witness :
  _calibrate_probability (- 0.5) features_minimal (Some 0) (Some 0)
  = Ok 0.55.
Proof.
  destruct (returns_calibrate features_minimal eq_refl (- 0.5) (Some 0)
              (Some 0)) as [p Hp].
  rewrite Hp. f_equal.
  apply (calibrate_floor (- 0.5) features_minimal 0 0 p); [lra | exact Hp].
Defined.

(** The bearish record: the probability is the overridden calibration. *)
Lemma neutral_zone_witness :
  exists l cal,
    analyse features_bearish 100 = Ok l /\
    bullish_probability l = hard_override (composite_score l) cal.
Proof.
  destruct (returns_analyse features_bearish eq_refl 100) as [l Hl].
  destruct (neutral_zone_step_is_dead features_bearish 100 l Hl)
    as (cal & _ & H).
  now exists l, cal.
Defined.

(** The mild record, of composite score -0.03, is predicted "up". *)
Lemma mildly_negative_witness :
  exists l,
    analyse features_mild 100 = Ok l /\
    composite_score l = - 0.03 /\
    bullish_probability l = 0.55 /\ direction l = up.
Proof.
  destruct (returns_analyse features_mild eq_refl 100) as [l Hl].
  pose proof (mild_composite l Hl) as Hc.
  exists l. split; [exact Hl|]. split; [exact Hc|].
  destruct (mildly_negative_composite_is_bullish features_mild 100 l Hl
              ltac:(lra)) as (Hp & Hd & _).
  split; [exact Hp | exact Hd].
Defined.

(** The bearish record: the composite score of the response. *)
Lemma composite_witness :
  exists r,
    predict (fun _ => None) "2025-10-15T09:30:00" features_bearish
    = Success r /\
    -1 <= Scores.composite (Response.scores r) <= 1.
Proof.
  destruct (bearish_succeeds (fun _ => None) "2025-10-15T09:30:00")
    as (l & r & _ & _ & Hr).
  exists r. split; [exact Hr|].
  destruct (composite_between_minus_one_and_one _ _ _ _ Hr)
    as (_ & _ & _ & _ & _ & _ & _ & H & _).
  exact H.
Defined.

(** The bearish record: the confidence of the response. *)
Lemma confidence_witness :
  exists r,
    predict (fun _ => None) "2025-10-15T09:30:00" features_bearish
    = Success r /\
    0.55 <= Prediction.confidence (Response.prediction r) <= 0.98.
Proof.
  destruct (bearish_succeeds (fun _ => None) "2025-10-15T09:30:00")
    as (l & r & _ & _ & Hr).
  exists r. split; [exact Hr|].
  exact (proj1 (confidence_between_floor_and_ceiling _ _ _ _ Hr)).
Defined.

(** After a decline of 3% the sentiment score is at most 0.5. *)
Lemma sentiment_dampened_witness :
  exists l,
    analyse features_decline 100 = Ok l /\ sentiment_score l <= 0.5.
Proof.
  destruct (returns_analyse features_decline eq_refl 100) as [l Hl].
  exists l. split; [exact Hl|].
  apply (proj1 (sentiment_is_dampened features_decline 100 l (- 3) Hl
                  eq_refl)).
  lra.
Defined.

(** After a rise of 5% a bullish target is at least 4%. *)
Lemma target_momentum_witness :
  exists price change,
    _calculate_target_price_v2 100 0.55 true features_rally 0 0
    = Ok (price, change) /\
    Rmin (5 * 0.8) 10 <= change.
Proof.
  destruct (returns_target features_rally eq_refl 100 0.55 true 0 0)
    as [[price change] H].
  exists price, change. split; [exact H|].
  apply (proj1 (target_follows_momentum 100 0.55 true features_rally 0 0
                  price change 5 H eq_refl));
    [reflexivity | lra].
Defined.

(** The local impact of a score of 0.4. *)
Lemma local_impact_witness :
  1 <= _calculate_local_impact_percent 0.4 (Build_Factors 0 0 0 0 0 0) <= 8.
Proof.
  apply (proj2 (local_impact_even_and_bounded 0.4 (Build_Factors 0 0 0 0 0 0)
                  (Build_Factors 0 0 0 0 0 0))).
  lra.
Defined.

(** A score of 0.3 has a larger impact than a score of 0.35. *)
Lemma local_impact_tiers_witness :
  _calculate_local_impact_percent 0.35 (Build_Factors 0 0 0 0 0 0)
  < _calculate_local_impact_percent 0.3 (Build_Factors 0 0 0 0 0 0).
Proof.
  apply (local_impact_tiers_overlap 0.3 0.35 (Build_Factors 0 0 0 0 0 0));
    lra.
Defined.

(** The bearish record: a "negative" Asian session. *)
Lemma asian_sentiment_witness :
  exists s i,
    _calculate_asian_market_score_with_impact features_bearish = Ok (s, i) /\
    -1 <= s <= - 0.4 /\ 1.5 <= i <= 4.
Proof.
  destruct (returns_asian features_bearish eq_refl) as [[s i] H].
  exists s, i. split; [exact H|].
  exact (proj2 (asian_sentiment_decides features_bearish s i H) eq_refl).
Defined.

(** The bearish record: a "negative" European session. *)
Lemma european_sentiment_witness :
  exists s i,
    _calculate_european_market_score_with_impact features_bearish
    = Ok (s, i) /\
    -1 <= s <= - 0.45 /\ 2.5 <= i <= 7.
Proof.
  destruct (returns_european features_bearish eq_refl) as [[s i] H].
  exists s, i. split; [exact H|].
  exact (proj2 (european_sentiment_decides features_bearish s i H) eq_refl).
Defined.

(** The bearish record: the global score is at most -0.05. *)
Lemma asian_session_witness :
  exists g,
    _calculate_global_market_score_v2 features_bearish = Ok g /\
    g <= - 0.05.
Proof.
  destruct (returns_global features_bearish eq_refl) as [g H].
  exists g. split; [exact H|].
  apply (proj2 (asian_session_dominates features_bearish 0 g H eq_refl));
    [reflexivity | lra].
Defined.

(** The volume score after a decline of 3%. *)
Lemma volume_range_witness :
  exists s,
    _calculate_volume_score_v2 features_decline_3 = Ok s /\
    - 0.85 <= s <= 0.9.
Proof.
  destruct (returns_volume features_decline_3 eq_refl) as [s H].
  exists s. split; [exact H|].
  exact (volume_score_range features_decline_3 s H).
Defined.

(** A ticker and a note change nothing. *)
Lemma unknown_keys_witness :
  predict (fun _ => None) "2025-10-15T09:30:00" features_minimal
  = predict (fun _ => None) "2025-10-15T09:30:00" features_minimal_tagged.
Proof.
  apply (unknown_keys_are_ignored (fun _ => None) "2025-10-15T09:30:00"
           features_minimal features_minimal_tagged).
  intros k Hk. unfold engine_keys, numeric_keys, categorical_keys, flag_keys
    in Hk.
  cbn [In app] in Hk.
  repeat (destruct Hk as [<- | Hk]; [reflexivity|]).
  destruct Hk.
Defined.

(** A mirrored MACD histogram of 1. *)
Lemma ladders_witness : macd_contribution (- 1) = - macd_contribution 1.
Proof.
  destruct technical_ladders_antisymmetric as (_ & _ & H & _).
  apply H. lra.
Defined.

(** A keyword that matches no table entry counts for nothing. *)
Lemma news_keywords_witness :
  _analyze_news_keywords (fun s => s) ["dividend"%string] = 0.
Proof.
  apply (proj2 (news_keywords_within_fifth (fun s => s) ["dividend"%string])).
  intros k [<- | []]. split; reflexivity.
Defined.
